(* ===== verification/_CoqProject ===== *)
-Q . S2P
Prelude.v
PyData.v
Profile.v
Pandas.v
FlatIndex.v
Assets.v
RagService.v
AccessControl.v
DjangoForms.v
History.v
Http.v
Views.v
Finance.v
Health.v
