(* ===== verification/Prelude.v ===== *)
(** * US-FoodScope: a verification development of the Django site and its RAG service

    ** The program

    US-FoodScope (sources under src/us_foodscope/) is a Django site with
    one prediction section per topic and a question-answering service:
    - an offline build, health/serving/generate_assets.py, turns the county
      table into one profile text per county ([row_to_text]), embeds the
      texts and writes a faiss index and a chunk list;
    - a FastAPI server, health/serving/app.py, loads them at startup into a
      [RAGService] (rag_service.py) that answers /ask: it embeds the
      question, searches the index and sends the best ten chunks to a Groq
      model; the Django client rag/services.py calls it;
    - the Django apps check roles (users/models.py, users/decorators.py,
      dashboard/views.py), validate forms, call remote inference services
      with [requests] and store each result in a [PredictionHistory] table
      (finance/ and health/ here).

    ** Files, modules and what they model

    - Prelude.v (this file): the Python effect monad [PyM] (state,
      exceptions and [try], notations [let*], [;;;], [let!] in
      [py_scope]), Python's [max(0, min(1, x))], string functions
      ([strip], [startswith], [join], [infix]) and list lemmas.
    - PyData.v: Python and pandas scalars, [str()] of a float as the
      class [FloatRepr], dicts as ordered association lists (Module
      [Dict]), [int()] and [float()] parsing.
    - Profile.v (Module [Profile]): [row_to_text] of generate_assets.py.
    - Pandas.v (Module [Frame]): the DataFrame operations the build uses.
    - FlatIndex.v (Modules [FlatIP], [FlatIPFacts]): faiss [IndexFlatIP]
      and [normalize_L2], modelled from their documentation (the library
      is not part of the repository), with [search] proved equal to a
      reference top-k.
    - Assets.v: [generate_assets] (read, merge, chunks, embeddings, index,
      writes) over an [EmbeddingModel] class standing for the
      SentenceTransformer.
    - RagService.v (Modules [Rag], [RagLifecycle], [RagDemo]):
      [RAGService.initialize], [retrieve], [ask], the FastAPI /ask
      endpoint and startup step, and [RemoteRAGService.generate_response]
      of rag/services.py.  The service object is the record [Rag.state];
      files, the API key, the model download and the completion endpoint
      are a read-only [Rag.world]; [RagLifecycle.svc_step] is the step
      relation of the server's life (startup, /ask requests).
    - AccessControl.v (Modules [Roles], [Guard], [Dashboard], [Policy]):
      [CustomUser]'s role predicates and [can_access_section], the
      [role_required] and [prediction_access_required] decorators,
      [dashboard_view], and [Policy.policy], the abstract access rule
      both tables are proved to implement.
    - DjangoForms.v (Module [Forms]): Django's field cleaning
      ([FloatField], [CharField], [ChoiceField]), [add_error],
      [full_clean] and [is_valid], modelled from Django's documented
      behaviour.
    - History.v (Module [History]): a [PredictionHistory] table as a row
      list with the next primary key, with [objects.create], [filter] and
      [get], and [FloatField.get_prep_value] (NOT NULL).
    - Http.v (Modules [Requests], [PyOps]): [requests.post] as an oracle
      from URL and payload to a response or an exception,
      [raise_for_status], [json()], and Python's [len], [v[0]] and
      truthiness on JSON values.
    - Views.v (Module [ViewCommon]): what the prediction views share:
      [cleaned_data] as a dict, the [?load_id] reload from history, [in]
      and [.get] on decoded JSON.
    - Finance.v: [FinancePredictionForm] with its hooks and [clean]
      ([FinanceForm]), [FinancePredictionService.predict] with its regex
      parsing and both exception handlers ([FinanceService]),
      [finance_view], [clustering_view] and [clustering_data_api]
      ([FinanceViews]).
    - Health.v: [HealthPredictionForm] with its choices loaded from
      encoder_choices.json and [ClusteringForm] ([HealthForm],
      [ClusteringForm]), [HealthPredictionService] and
      [load_clustering_data] ([HealthService]), [health_view],
      [clustering_view] and [clustering_data_api] ([HealthViews]).

    A view is a function of the request, the signed-in user and the
    history table to a template context and a new table, in [PyM]; the
    services are total functions of the HTTP oracle.

    ** The theorems (claim ids of PROJECT.json)

    - The asset build (C1): chunk [i] has id [i] and the index's [i]-th
      vector is its normalised embedding.
    - Retrieval (C2-C6): scores lie in [0, 1], come sorted, are a best
      [k], number [min(k, n)]; an unloaded service returns nothing.
    - The profile text (C7): the alert line appears exactly for a row with
      a composite risk.
    - The service's life (C8-C13): initialisation is idempotent; /ask
      without a client answers 500 and the Django client falls back; a
      first /ask without an index still calls the model; [ask] sends a
      prompt holding every retrieved chunk and returns its sources in
      order; an invariant of all reachable states by rule induction on
      [svc_step]; an initialised service never changes again.
    - Access control (C14-C16): the two permission tables agree on every
      role and section; the decorator serves, redirects and refuses
      exactly as [Policy.policy] says; the dashboard shows a report
      exactly to the five roles.
    - Finance (C17-C18): a valid tax-rate form holds bounded floats; an
      unreachable space yields a fabricated prediction that is saved.
    - Health (C19-C20): an unreachable server yields an empty result with
      no error message; without encoder choices no submission is valid.
    Each theorem with hypotheses has a witness that applies it to a
    concrete input, evaluated by [vm_compute].

    ** Numbers and bounds

    Floats are exact rationals [Q]: float32 and float64 rounding, and
    overflow to infinity, are not modelled (a theorem about an order or a
    bound holds of the exact values).  Integers are [Z].  Every recursion
    is structural (on lists and strings), so no definition takes fuel; the
    retrieval depth is the code's [top_k] (10 for /ask).

    ** Not modelled

    Rendering of templates (a context record stands for the page), the
    prints, the sentence-transformer's numbers (an abstract class), the
    other FastAPI endpoints (/predict, /predict-cluster,
    /clustering-data), the insecurity, access, local and foodenvironment
    apps, URL configuration, management commands and deployment scripts;
    PROJECT.json lists each with its reason. *)

From stdpp Require Export base list strings pretty gmap.
From Stdlib Require Export QArith Qminmax Ascii Sorted Lqa.

Declare Scope py_scope.
Delimit Scope py_scope with py.
Open Scope string_scope.

Create HintDb foodscope.
Create Rewrite HintDb foodscope_rw.

(** ** Python exceptions and the effect monad

    A Python exception is its class name and its message [str(e)].
    Handlers that mutate [self] and may raise are modelled in a state and
    exception monad in which the state reached before the exception is kept,
    as in Python: assignments done before a [raise] are not undone. *)

Record exn := Exn { exn_type : string; exn_msg : string }.

Inductive outcome (A : Type) : Type :=
| Ret (a : A)
| Raise (e : exn).
Arguments Ret {A} a.
Arguments Raise {A} e.

Definition PyM (S A : Type) : Type := S -> outcome A * S.

Definition pret {S A} (a : A) : PyM S A := fun s => (Ret a, s).

Definition pbind {S A B} (c : PyM S A) (k : A -> PyM S B) : PyM S B :=
  fun s => match c s with
           | (Ret a, s') => k a s'
           | (Raise e, s') => (Raise e, s')
           end.

Definition pget {S} : PyM S S := fun s => (Ret s, s).
Definition pput {S} (s : S) : PyM S unit := fun _ => (Ret tt, s).
Definition pmodify {S} (f : S -> S) : PyM S unit := fun s => (Ret tt, f s).
Definition praise {S A} (e : exn) : PyM S A := fun s => (Raise e, s).

(** [try: c except E as e: h(e)] where [catches] says which exceptions the
    [except] clause names ([except Exception] catches all of them). *)
Definition ptry {S A} (catches : exn -> bool) (c : PyM S A) (h : exn -> PyM S A)
  : PyM S A :=
  fun s => match c s with
           | (Raise e, s') => if catches e then h e s' else (Raise e, s')
           | r => r
           end.

Notation "'let*' x := c 'in' k" := (pbind c (fun x => k))
  (at level 10, x name, c at level 100, k at level 200) : py_scope.
Notation "c ;;; k" := (pbind c (fun _ => k))
  (at level 100, right associativity) : py_scope.

Open Scope py_scope.

(** Run a pure computation that may raise. *)
Definition lift {S A} (o : outcome A) : PyM S A := fun s => (o, s).

(** Pure code that may raise: the outcome monad. *)
Definition obind {A B} (o : outcome A) (k : A -> outcome B) : outcome B :=
  match o with Ret a => k a | Raise e => Raise e end.

Notation "'let!' x := o 'in' k" := (obind o (fun x => k))
  (at level 10, x name, o at level 100, k at level 200) : py_scope.

(** [for x in xs: body(x)]: an exception leaves the loop, keeping the
    state the iterations before it reached. *)
Fixpoint pfor {S A} (xs : list A) (body : A -> PyM S unit) : PyM S unit :=
  match xs with
  | [] => pret tt
  | x :: xs' => pbind (body x) (fun _ => pfor xs' body)
  end.

(** The final state of a run, whatever its outcome. *)
Definition final {S A} (r : outcome A * S) : S := snd r.

(** An invariant of the state is preserved by a computation when every run
    started in the invariant ends in it, on normal and exceptional exit. *)
Definition preserves {S A} (P : S -> Prop) (c : PyM S A) : Prop :=
  forall s, P s -> P (snd (c s)).

(** A computation that never changes the state. *)
Definition pure_state {S A} (c : PyM S A) : Prop := forall s, snd (c s) = s.

Lemma pure_state_pret {S A} (a : A) : pure_state (S:=S) (pret a).
Proof. done. Qed.

Lemma snd_pbind_pure {S A B} (c : PyM S A) (k : A -> PyM S B) s :
  (forall a, pure_state (k a)) -> snd (pbind c k s) = snd (c s).
Proof. intros Hk. unfold pbind. destruct (c s) as [[a|e] s']; [apply Hk|done]. Qed.

Lemma snd_ptry_pure {S A} catches (c : PyM S A) h s :
  (forall e, pure_state (h e)) -> snd (ptry catches c h s) = snd (c s).
Proof.
  intros Hh. unfold ptry. destruct (c s) as [[a|e] s']; [done|].
  destruct (catches e); [apply Hh|done].
Qed.

#[export] Hint Resolve pure_state_pret : foodscope.

(** Comparisons of rationals are decidable: [bool_decide (x < y)] is
    Python's [x < y] on floats. *)
#[export] Instance Qlt_decision (x y : Q) : Decision (x < y).
Proof. destruct (Qlt_le_dec x y) as [H|H]; [left; exact H|right; by apply Qle_not_lt]. Defined.

#[export] Instance Qle_decision (x y : Q) : Decision (x <= y).
Proof. destruct (Qlt_le_dec y x) as [H|H]; [right; by apply Qlt_not_le|left; exact H]. Defined.

(** ** Clamping, as [max(lo, min(hi, x))] and [np.clip(x, lo, hi)]. *)

Definition py_clamp (lo hi x : Q) : Q := Qmax lo (Qmin hi x).

(** ** Characters a Rocq string literal does not spell directly. *)

Definition nl : string := String "010"%char EmptyString.
Definition dq : string := String "034"%char EmptyString.

(** [", ".join(parts)] and friends. *)
Definition py_join (sep : string) (parts : list string) : string :=
  String.concat sep parts.

Lemma str_app_assoc (a b c : string) : a ++ (b ++ c) = (a ++ b) ++ c.
Proof. induction a as [|x a IH]; [reflexivity|]. exact (f_equal (String x) IH). Qed.

Lemma str_app_nil_r (a : string) : a ++ "" = a.
Proof. induction a as [|x a IH]; [reflexivity|]. exact (f_equal (String x) IH). Qed.

#[export] Hint Rewrite str_app_assoc str_app_nil_r : foodscope_rw.

(** [sub] occurs in [s]: the specification of [sub in s]. *)
Definition infix (sub s : string) : Prop := exists a b, s = a ++ sub ++ b.

Lemma infix_app_l sub a b : infix sub b -> infix sub (a ++ b).
Proof. intros (x & y & ->). exists (a ++ x), y. by rewrite <- str_app_assoc. Qed.

Lemma infix_app_r sub a b : infix sub a -> infix sub (a ++ b).
Proof. intros (x & y & ->). exists x, (y ++ b). by rewrite <- !str_app_assoc. Qed.

Lemma infix_prefix sub b : infix sub (sub ++ b).
Proof. by exists "", b. Qed.

(** Every part of ["sep".join(parts)] occurs in the joined string. *)
Lemma infix_join sep parts x : x ∈ parts -> infix x (py_join sep parts).
Proof.
  unfold py_join. induction parts as [|y parts IH]; [by intros ?%not_elem_of_nil|].
  intros [->|Hx]%elem_of_cons; simpl; destruct parts as [|z parts].
  - exists "", "". by rewrite str_app_nil_r.
  - apply infix_prefix.
  - by apply not_elem_of_nil in Hx.
  - by apply infix_app_l, infix_app_l, IH.
Qed.

(** [sub in s] for strings. *)
Definition contains (s sub : string) : bool :=
  match String.index 0 sub s with Some _ => true | None => false end.

(** [s.startswith(p)] *)
Definition startswith (s p : string) : bool := String.prefix p s.

Lemma startswith_app (a b p : string) :
  startswith (a ++ b) (a ++ p) = startswith b p.
Proof.
  induction a as [|c a IH]; simpl; [done|].
  destruct (ascii_dec c c); [exact IH | congruence].
Qed.

Lemma startswith_refl_app (a b : string) : startswith (a ++ b) a = true.
Proof.
  induction a as [|c a IH]; simpl; [by destruct b|].
  destruct (ascii_dec c c); [exact IH | congruence].
Qed.

(** [str.strip()]: the ASCII whitespace characters (tab, newline,
    vertical tab, form feed, carriage return, space) are removed from both
    ends; the other Unicode spaces Python also strips are not modelled. *)
Definition is_space (c : ascii) : bool :=
  let n := nat_of_ascii c in bool_decide (9 <= n <= 13)%nat || bool_decide (n = 32%nat).

Fixpoint lstrip (s : string) : string :=
  match s with
  | String c s' => if is_space c then lstrip s' else s
  | EmptyString => EmptyString
  end.

Definition str_rev (s : string) : string := String.string_of_list_ascii (rev (String.list_ascii_of_string s)).

Definition rstrip (s : string) : string := str_rev (lstrip (str_rev s)).

Definition strip (s : string) : string := lstrip (rstrip s).

(** ** Python [enumerate] over a list. *)

Definition enumerate {A} (l : list A) : list (nat * A) := imap pair l.

(** ** Monad equations *)

Lemma pbind_ret {S A B} (a : A) (k : A -> PyM S B) s :
  pbind (pret a) k s = k a s.
Proof. reflexivity. Qed.

Lemma pbind_raise {S A B} e (k : A -> PyM S B) s :
  pbind (praise e) k s = (Raise e, s).
Proof. reflexivity. Qed.

Lemma pbind_assoc {S A B C} (c : PyM S A) (k : A -> PyM S B) (k' : B -> PyM S C) s :
  pbind (pbind c k) k' s = pbind c (fun a => pbind (k a) k') s.
Proof. unfold pbind. destruct (c s) as [[a|e] s']; reflexivity. Qed.

#[export] Hint Rewrite @pbind_ret @pbind_raise @pbind_assoc : foodscope_rw.

(** A run of [pbind c k] that returns normally ran [c] to a value first. *)
Lemma pbind_ret_inv {S A B} (c : PyM S A) (k : A -> PyM S B) s b s'' :
  pbind c k s = (Ret b, s'') -> exists a s', c s = (Ret a, s') /\ k a s' = (Ret b, s'').
Proof. unfold pbind. destruct (c s) as [[a|e] s']; [eauto|discriminate]. Qed.

(** A run of [pbind c k] that raises either raised in [c] or in [k]. *)
Lemma pbind_raise_inv {S A B} (c : PyM S A) (k : A -> PyM S B) s e s'' :
  pbind c k s = (Raise e, s'') ->
  c s = (Raise e, s'') \/ exists a s', c s = (Ret a, s') /\ k a s' = (Raise e, s'').
Proof. unfold pbind. destruct (c s) as [[a|e'] s']; [eauto|intros [= -> ->]; auto]. Qed.

(** Invariants compose along [pbind], [ptry], [pput] and [pmodify]. *)

Lemma preserves_ret {S A} (P : S -> Prop) (a : A) : preserves P (pret a).
Proof. intros s Hs. exact Hs. Qed.

Lemma preserves_raise {S A} (P : S -> Prop) e : preserves P (@praise S A e).
Proof. intros s Hs. exact Hs. Qed.

Lemma preserves_get {S} (P : S -> Prop) : preserves P pget.
Proof. intros s Hs. exact Hs. Qed.

Lemma preserves_modify {S} (P : S -> Prop) (f : S -> S) :
  (forall s, P s -> P (f s)) -> preserves P (pmodify f).
Proof. intros Hf s Hs. exact (Hf s Hs). Qed.

Lemma preserves_bind {S A B} (P : S -> Prop) (c : PyM S A) (k : A -> PyM S B) :
  preserves P c -> (forall a, preserves P (k a)) -> preserves P (pbind c k).
Proof.
  intros Hc Hk s Hs. unfold pbind. specialize (Hc s Hs).
  destruct (c s) as [[a|e] s']; [apply Hk|]; exact Hc.
Qed.

Lemma preserves_pfor {S A} (P : S -> Prop) (xs : list A) (body : A -> PyM S unit) :
  (forall x, preserves P (body x)) -> preserves P (pfor xs body).
Proof.
  intros Hb. induction xs as [|x xs IH]; intros s Hs; [done|]. simpl. unfold pbind.
  specialize (Hb x s Hs). destruct (body x s) as [[]?]; [by apply IH|done].
Qed.

Lemma preserves_try {S A} (P : S -> Prop) catches (c : PyM S A) h :
  preserves P c -> (forall e, preserves P (h e)) -> preserves P (ptry catches c h).
Proof.
  intros Hc Hh s Hs. unfold ptry. specialize (Hc s Hs).
  destruct (c s) as [[a|e] s']; [exact Hc|].
  destruct (catches e); [apply Hh|]; exact Hc.
Qed.

#[export] Hint Resolve preserves_ret preserves_raise preserves_get preserves_modify
  preserves_bind preserves_try : foodscope.

(** ** Clamp lemmas *)

Lemma py_clamp_lower lo hi x : lo <= hi -> lo <= py_clamp lo hi x.
Proof. intros _. apply Q.le_max_l. Qed.

Lemma py_clamp_upper lo hi x : lo <= hi -> py_clamp lo hi x <= hi.
Proof.
  intros H. unfold py_clamp. apply Q.max_lub; [exact H | apply Q.le_min_l].
Qed.

Lemma py_clamp_bounds lo hi x : lo <= hi -> lo <= py_clamp lo hi x <= hi.
Proof. intros H. split; [apply py_clamp_lower | apply py_clamp_upper]; exact H. Qed.

Lemma py_clamp_mono lo hi x y : x <= y -> py_clamp lo hi x <= py_clamp lo hi y.
Proof.
  intros H. unfold py_clamp. apply Q.max_le_compat; [apply Qle_refl|].
  apply Q.min_le_compat; [apply Qle_refl | exact H].
Qed.

Lemma py_clamp_id lo hi x : lo <= x -> x <= hi -> py_clamp lo hi x == x.
Proof.
  intros H1 H2. unfold py_clamp. rewrite (Q.min_r hi x H2). apply Q.max_r. exact H1.
Qed.

#[export] Instance py_clamp_proper : Proper (Qeq ==> Qeq ==> Qeq ==> Qeq) py_clamp.
Proof.
  intros a a' Ha b b' Hb c c' Hc. unfold py_clamp. rewrite Ha, Hb, Hc. reflexivity.
Qed.

#[export] Hint Resolve py_clamp_lower py_clamp_upper py_clamp_bounds py_clamp_mono : foodscope.

(** ** [enumerate] *)

Lemma enumerate_length {A} (l : list A) : length (enumerate l) = length l.
Proof. apply length_imap. Qed.

Lemma enumerate_lookup {A} (l : list A) i :
  enumerate l !! i = (fun x => (i, x)) <$> l !! i.
Proof. unfold enumerate. rewrite list_lookup_imap. reflexivity. Qed.

Lemma enumerate_map_snd {A} (l : list A) : snd <$> enumerate l = l.
Proof.
  apply list_eq. intros i. rewrite list_lookup_fmap, enumerate_lookup.
  destruct (l !! i); reflexivity.
Qed.

#[export] Hint Rewrite @enumerate_length @enumerate_lookup @enumerate_map_snd : foodscope_rw.

(** ** Sorted lists *)

Section SortedLists.
Context {A B : Type}.

(** Filtering and mapping with [omap] keeps a list sorted when the map
    is monotone between the two orders. *)
Lemma StronglySorted_omap (R : A -> A -> Prop) (R' : B -> B -> Prop) (f : A -> option B) l :
  (forall a b fa fb, R a b -> f a = Some fa -> f b = Some fb -> R' fa fb) ->
  StronglySorted R l -> StronglySorted R' (omap f l).
Proof.
  intros Hf. induction 1 as [|a l Hs IH Hall]; simpl; [constructor|].
  destruct (f a) as [fa|] eqn:Ea; [|exact IH]. constructor; [exact IH|].
  apply Forall_forall. intros fb Hfb. apply list_elem_of_omap in Hfb as (b & Hb & Eb).
  assert (R a b) as HR.
  { rewrite Forall_forall in Hall. by apply Hall. }
  exact (Hf a b fa fb HR Ea Eb).
Qed.

Lemma StronglySorted_take_drop (R : A -> A -> Prop) k l a b :
  StronglySorted R l -> a ∈ take k l -> b ∈ drop k l -> R a b.
Proof.
  intros Hs. revert k. induction Hs as [|x l Hs IH Hall]; intros k Ha Hb.
  - by rewrite take_nil in Ha; apply elem_of_nil in Ha.
  - destruct k as [|k]; simpl in *; [by apply elem_of_nil in Ha|].
    apply elem_of_cons in Ha as [->|Ha]; [|eapply IH; eauto].
    rewrite Forall_forall in Hall. apply Hall. by apply (subseteq_drop k l).
Qed.

Lemma StronglySorted_take (R : A -> A -> Prop) k l :
  StronglySorted R l -> StronglySorted R (take k l).
Proof.
  intros Hs. revert k. induction Hs as [|x l Hs IH Hall]; intros [|k]; simpl; try constructor.
  - apply IH.
  - rewrite Forall_forall in *. intros y Hy. apply Hall. by apply (subseteq_take k l).
Qed.
End SortedLists.

(** ** Tactics *)

(** Unfold one layer of the effect monad and reduce. *)
Ltac py_unfold :=
  cbv beta iota delta [pbind pret pget pput pmodify praise ptry lift final]; simpl.

(** Split a normal run of a chain of binds into its steps. *)
Ltac run_inv H :=
  repeat (apply pbind_ret_inv in H;
          let a := fresh "r" in let st := fresh "st" in let Hc := fresh "Hstep" in
          destruct H as (a & st & Hc & H)).

(** Case on the first [match] or [if] scrutinee of the goal. *)
Ltac case_match_goal :=
  match goal with
  | |- context [match ?x with _ => _ end] => destruct x eqn:?
  end.
