(* ===== verification/PyData.v ===== *)
(** * Python data shared by every component

    Scalars as a CSV read by pandas or a JSON body holds them, Python's
    [==] and [str()] on them, values and dicts.  A Python dict is an
    ordered association list: insertion order is observable in the JSON
    the services return, and assignment to an existing key keeps its
    position. *)

From S2P Require Import Prelude.

(** ** Scalars *)

Inductive scalar : Type :=
| SNone
| SBool (b : bool)
| SInt (z : Z)
| SFloat (q : Q)
| SNaN
| SStr (s : string).

(** Python's [==] on scalars: [bool], [int] and [float] compare by value
    ([True == 1], [1 == 1.0]); [nan] equals nothing, itself included;
    [None] equals only [None]; a string never equals a number. *)
Definition num_of (v : scalar) : option Q :=
  match v with
  | SBool b => Some (if b then 1 else 0)
  | SInt z => Some (inject_Z z)
  | SFloat q => Some q
  | _ => None
  end.

Definition py_eq (a b : scalar) : bool :=
  match a, b with
  | SNone, SNone => true
  | SStr s, SStr t => bool_decide (s = t)
  | _, _ =>
      match num_of a, num_of b with
      | Some x, Some y => Qeq_bool x y
      | _, _ => false
      end
  end.

(** [pd.notna(v)]: false exactly for [None] and [nan]. *)
Definition notna (v : scalar) : bool :=
  match v with SNone | SNaN => false | _ => true end.

(** Python's [str()] on a scalar, as an f-string [{v}] renders it.  The
    shortest round-trip decimal [repr] of a float is the one piece not
    recomputed here: it is an interface, [float_repr]. *)
Class FloatRepr := float_repr : Q -> string.

Definition py_str `{FloatRepr} (v : scalar) : string :=
  match v with
  | SNone => "None"
  | SBool true => "True"
  | SBool false => "False"
  | SInt z => pretty z
  | SFloat q => float_repr q
  | SNaN => "nan"
  | SStr s => s
  end.

#[export] Instance Q_eq_dec : EqDecision Q.
Proof. intros [a b] [c d]. solve_decision. Defined.

#[export] Instance scalar_eq_dec : EqDecision scalar.
Proof. solve_decision. Defined.

Lemma py_eq_sym a b : py_eq a b = py_eq b a.
Proof.
  destruct a, b; simpl; try reflexivity;
    try (apply Qeq_bool_comm); try (apply bool_decide_ext; split; congruence);
    destruct b; try destruct b0; reflexivity.
Qed.

Lemma notna_py_eq_refl a : a <> SNaN -> py_eq a a = true.
Proof.
  intros Ha. destruct a; simpl; try done.
  - destruct b; reflexivity.
  - apply Qeq_bool_refl.
  - apply Qeq_bool_refl.
  - by apply bool_decide_eq_true.
Qed.

(** ** Values and dicts *)

#[warnings="-register-all"]
Inductive pyval : Type :=
| PScalar (s : scalar)
| PList (l : list pyval)
| PDict (d : list (string * pyval)).

Coercion PScalar : scalar >-> pyval.

Definition pydict : Type := list (string * pyval).

Module Dict.
Section WithValue.
Context {V : Type}.

(** [d.get(k)] as an option; keys are strings in every dict the program
  builds. *)
Fixpoint get (d : list (string * V)) (k : string) : option V :=
match d with
| [] => None
| (k', v) :: d' => if decide (k = k') then Some v else get d' k
end.

(** [d.get(k, default)] *)
Definition get_or (d : list (string * V)) (k : string) (dflt : V) : V :=
match get d k with Some v => v | None => dflt end.

(** [k in d] *)
Definition has (d : list (string * V)) (k : string) : bool :=
match get d k with Some _ => true | None => false end.

(** [d[k] = v]: an existing key keeps its position, a new one goes last. *)
Fixpoint set (d : list (string * V)) (k : string) (v : V) : list (string * V) :=
match d with
| [] => [(k, v)]
| (k', v') :: d' => if decide (k = k') then (k, v) :: d' else (k', v') :: set d' k v
end.

(** A dict literal [{k1: v1, k2: v2, ...}]: later keys overwrite earlier ones. *)
Definition of_list (kvs : list (string * V)) : list (string * V) :=
foldl (fun d kv => set d kv.1 kv.2) [] kvs.

Definition keys (d : list (string * V)) : list string := fst <$> d.

(** The representation invariant: no key twice. *)
Definition wf (d : list (string * V)) : Prop := NoDup (keys d).

Lemma get_set_eq d k v : get (set d k v) k = Some v.
Proof.
induction d as [|[k' v'] d IH]; simpl; [by rewrite decide_True|].
case_decide; simpl; [by rewrite decide_True|]. by rewrite decide_False.
Qed.

Lemma get_set_ne d k k' v : k <> k' -> get (set d k v) k' = get d k'.
Proof.
intros Hne. induction d as [|[k0 v0] d IH]; simpl.
- by rewrite decide_False.
- case_decide as Hk; simpl; subst.
  + by rewrite !decide_False.
  + case_decide; [done|exact IH].
Qed.

Lemma has_get d k : has d k = true <-> exists v, get d k = Some v.
Proof. unfold has. destruct (get d k); split; naive_solver. Qed.

Lemma get_keys d k : is_Some (get d k) <-> k ∈ keys d.
Proof.
unfold keys. induction d as [|[k' v'] d IH]; simpl.
- split; [by intros []|]. by rewrite elem_of_nil.
- rewrite elem_of_cons. case_decide; [naive_solver|]. rewrite IH. naive_solver.
Qed.

Lemma keys_set_in d k v : k ∈ keys d -> keys (set d k v) = keys d.
Proof.
unfold keys. induction d as [|[k' v'] d IH]; simpl.
- by rewrite elem_of_nil.
- rewrite elem_of_cons. intros Hin. case_decide; simpl; subst; [done|].
  f_equal. apply IH. naive_solver.
Qed.

Lemma keys_set_notin d k v : k ∉ keys d -> keys (set d k v) = (keys d ++ [k])%list.
Proof.
unfold keys. induction d as [|[k' v'] d IH]; simpl; [done|].
rewrite elem_of_cons. intros Hin. rewrite decide_False by naive_solver. simpl.
f_equal. apply IH. naive_solver.
Qed.

Lemma wf_set d k v : wf d -> wf (set d k v).
Proof.
unfold wf. intros Hwf. destruct (decide (k ∈ keys d)) as [Hin|Hin].
- by rewrite keys_set_in.
- rewrite keys_set_notin by done. apply NoDup_app. split; [done|].
  split; [|apply NoDup_singleton]. intros x Hx ->%list_elem_of_singleton. done.
Qed.

Lemma wf_of_list kvs : wf (of_list kvs).
Proof.
unfold of_list. cut (forall d, wf d -> wf (foldl (fun d kv => set d kv.1 kv.2) d kvs)).
{ intros H. apply H. constructor. }
induction kvs as [|kv kvs IH]; simpl; [done|]. intros d Hd. apply IH, wf_set, Hd.
Qed.

(** [d.pop(k, None)]-like removal by filtering the key out. *)
Lemma get_filter_key d n m :
  get (filter (fun kv : string * V => kv.1 <> n) d) m = if decide (m = n) then None else get d m.
Proof.
induction d as [|[k v] d IH]; [simpl; by case_decide|].
rewrite filter_cons. simpl.
destruct (decide (k <> n)) as [Hk|Hk]; cbn [get]; rewrite IH.
- repeat case_decide; subst; congruence.
- apply dec_stable in Hk. subst k. repeat case_decide; congruence.
Qed.


End WithValue.

Lemma get_fmap_snd {V W} (g : V -> W) (d : list (string * V)) k :
  get ((fun kv : string * V => (kv.1, g kv.2)) <$> d) k = g <$> get d k.
Proof. induction d as [|[k' v] d IH]; simpl; [done|]. by case_decide. Qed.

End Dict.

(** ** Conversions *)

Section Conversions.
Context `{FloatRepr}.

Definition digit_of (c : ascii) : option Z :=
  let n := nat_of_ascii c in
  if bool_decide (48 <= n <= 57)%nat then Some (Z.of_nat n - 48)%Z else None.

(** The value of a non-empty run of decimal digits read most significant
    first, accumulated in [acc]. *)
Fixpoint parse_digits (s : string) (acc : Z) : option Z :=
  match s with
  | EmptyString => Some acc
  | String c s' => match digit_of c with
                   | Some d => parse_digits s' (10 * acc + d)
                   | None => None
                   end
  end.

(** [int(s)] on a string: surrounding whitespace, then an optional sign
    and at least one digit (digit-group underscores are not modelled). *)
Definition parse_int (s : string) : option Z :=
  match strip s with
  | String "-" (String c r) => Z.opp <$> parse_digits (String c r) 0
  | String "+" (String c r) => parse_digits (String c r) 0
  | String c r => parse_digits (String c r) 0
  | EmptyString => None
  end.

(** [int(v)] on a cell: floats are truncated toward zero; [nan], [None]
    and a string that is not an integer literal raise. *)
Definition py_int (v : scalar) : outcome Z :=
  match v with
  | SBool b => Ret (if b then 1 else 0)%Z
  | SInt z => Ret z
  | SFloat q => Ret (Z.quot (Qnum q) (Zpos (Qden q)))
  | SNaN => Raise (Exn "ValueError" "cannot convert float NaN to integer")
  | SNone => Raise (Exn "TypeError" "int() argument must be a string, a bytes-like object or a real number, not 'NoneType'")
  | SStr s => match parse_int s with
              | Some z => Ret z
              | None => Raise (Exn "ValueError" ("invalid literal for int() with base 10: '" ++ s ++ "'"))
              end
  end.

(** [float(s)] on a string.  After the surrounding whitespace: an
    optional sign, then digits with an optional fraction (at least one
    digit in all), then an optional exponent; a single [_] may separate two
    digits.  [nan], [inf] and [infinity] in any case, signed or not, give
    a value that is not finite, [FPSpecial]. *)
Inductive float_parse := FPNum (q : Q) | FPSpecial | FPError.

(** A run of digits with single underscores between digits: its value
    accumulated on [acc], its number of digits and the rest. *)
Fixpoint take_digits (l : list ascii) (acc : Z) (n : nat) : Z * nat * list ascii :=
  match l with
  | c :: l' =>
      match digit_of c with
      | Some d => take_digits l' (10 * acc + d) (S n)
      | None =>
          match l' with
          | c2 :: _ => if bool_decide (c = "_"%char) && bool_decide (0 < n)%nat
                         && bool_decide (is_Some (digit_of c2))
                       then take_digits l' acc n else (acc, n, l)
          | [] => (acc, n, l)
          end
      end
  | [] => (acc, n, l)
  end.

Definition pow10 (k : nat) : Z := (10 ^ Z.of_nat k)%Z.

(** [m * 10^e] for an integer exponent. *)
Definition scale10 (m : Z) (e : Z) : Q :=
  if decide (0 <= e)%Z then inject_Z (m * 10 ^ e) else m # Z.to_pos (10 ^ (- e)).

Definition sign_of (l : list ascii) : Z * list ascii :=
  match l with
  | "-"%char :: l' => (-1, l')%Z
  | "+"%char :: l' => (1, l')%Z
  | _ => (1%Z, l)
  end.

(** The optional exponent: [Some (e, rest)], [None] when an [e] has no digits. *)
Definition take_exponent (l : list ascii) : option (Z * list ascii) :=
  match l with
  | c :: l' =>
      if bool_decide (c = "e"%char) || bool_decide (c = "E"%char) then
        let '(sg, l'') := sign_of l' in
        let '(v, n, r) := take_digits l'' 0 0 in
        if bool_decide (0 < n)%nat then Some ((sg * v)%Z, r) else None
      else Some (0%Z, l)
  | [] => Some (0%Z, [])
  end.

Definition lower_ascii (c : ascii) : ascii :=
  let n := nat_of_ascii c in if bool_decide (65 <= n <= 90)%nat then ascii_of_nat (n + 32) else c.

Definition parse_float_body (l : list ascii) : float_parse :=
  let '(sg, l1) := sign_of l in
  let w := String.string_of_list_ascii (lower_ascii <$> l1) in
  if bool_decide (w = "nan") || bool_decide (w = "inf") || bool_decide (w = "infinity") then FPSpecial
  else
    let '(ip, ni, l2) := take_digits l1 0 0 in
    let '(fp, nf, l3) := match l2 with
                         | "."%char :: l2' => take_digits l2' 0 0
                         | _ => (0%Z, 0%nat, l2)
                         end in
    let has_dot := match l2 with "."%char :: _ => true | _ => false end in
    if bool_decide (ni + nf = 0)%nat then FPError else
    if negb has_dot && bool_decide (nf <> 0)%nat then FPError else
    match take_exponent l3 with
    | Some (e, []) => FPNum (scale10 (sg * (ip * pow10 nf + fp)) (e - Z.of_nat nf))
    | _ => FPError
    end.

Definition parse_float (s : string) : float_parse :=
  parse_float_body (String.list_ascii_of_string (strip s)).

End Conversions.
