(* ===== verification/Profile.v ===== *)
(** * Profile builder: [row_to_text] of health/serving/generate_assets.py

    A county row of the joined DataFrame becomes one paragraph.  The
    paragraph is the header, the risk alert (only when [composite_risk] is
    not null), five fixed sections, and the optional context sections.
    [row.get(label, default)] on a pandas [Series] returns the cell when
    the label is a column, [nan] included, and the default only when the
    column is absent: the "N/A" placeholder therefore shows for missing
    columns, while a missing value in a present column prints as [nan]. *)

From S2P Require Import Prelude PyData.

Module Profile.

(** A row ([Series]): its column labels and cells, in column order. *)
Definition row : Type := list (string * scalar).

(** [row.get(label, default)] *)
Definition rget (r : row) (k : string) (dflt : scalar) : scalar := Dict.get_or r k dflt.

Definition NA : scalar := SStr "N/A".

Section WithRepr.
Context `{FloatRepr}.

(** Lines 15-16 and 37. *)
Definition header (r : row) : string :=
  "Comprehensive Profile for " ++ py_str (rget r "County" (SStr "Unknown County"))
  ++ ", " ++ py_str (rget r "State" (SStr "Unknown State")) ++ ":" ++ nl.

Definition alert_prefix : string := "!!! ALERT: ".

(** Lines 39-44: present iff [pd.notna(row.get('composite_risk'))]. *)
Definition risk_section (r : row) : string :=
  if notna (rget r "composite_risk" SNone) then
    alert_prefix ++ "This county is identified as a Highest Composite Health Risk area (Cluster "
    ++ py_str (rget r "Cluster" SNone) ++ ")." ++ nl
    ++ "- Composite Health Risk Score: " ++ py_str (rget r "composite_risk" SNone) ++ "." ++ nl
  else "".

(** Lines 18-35 and 46-51: every field defaults to "N/A". *)
Definition body (r : row) : string :=
  let g k := py_str (rget r k NA) in
  "- Demographics: Population: " ++ g "Population" ++ ", Poverty Rate: " ++ g "Poverty_Rate"
  ++ "%, Median Income: $" ++ g "Median_Income" ++ "." ++ nl
  ++ "- Health Outcomes: Adult Obesity Rate: " ++ g "Adult_Obesity_Rate13"
  ++ "%, Adult Diabetes Rate: " ++ g "Adult_Diabetes_Rate13" ++ "%." ++ nl
  ++ "- Food Environment: " ++ g "Grocery_Stores_Per1000"
  ++ " grocery stores per 1k residents, " ++ g "Farmers_Markets_Count_16" ++ " farmers markets. "
  ++ "Fast food density: " ++ g "FFRPTH14" ++ "/1k residents." ++ nl
  ++ "- Food Security: Food insecurity: " ++ g "FOODINSEC_13_15" ++ "%. "
  ++ g "PCT_LACCESS_POP15" ++ "% of pop. has low food access." ++ nl
  ++ "- Physical Activity: Gym density: " ++ g "GYMs_Per_1000_Count_14" ++ "/1k residents." ++ nl.

(** Lines 53-57. *)
Definition context_section (r : row) : string :=
  (if notna (rget r "Description" SNone)
   then "- Environmental Context: " ++ py_str (rget r "Description" SNone) ++ nl else "")
  ++ (if notna (rget r "Rule_Description" SNone)
      then "- Policy Context: " ++ py_str (rget r "Rule_Description" SNone) ++ nl else "").

(** Lines 10-59. *)
Definition row_to_text (r : row) : string :=
  header r ++ risk_section r ++ body r ++ context_section r.

(** ** Properties *)

(** C7: the alert line is the first line after the header exactly when
    the row's [composite_risk] is not null. *)
Theorem row_to_text_alert_iff_risk (r : row) :
  startswith (row_to_text r) (header r ++ alert_prefix) = notna (rget r "composite_risk" SNone).
Proof.
  unfold row_to_text. rewrite startswith_app. unfold risk_section.
  destruct (notna _).
  - rewrite <- !str_app_assoc. apply startswith_refl_app.
  - reflexivity.
Qed.

End WithRepr.

(** A float rendering for the examples: the exact fraction. *)
Definition demo_repr : FloatRepr := fun q => pretty (Qnum q) ++ "/" ++ pretty (Zpos (Qden q)).

Definition alpha_row : row :=
  [("County", SStr "Alpha"); ("State", SStr "CA"); ("composite_risk", SFloat (82 # 10));
   ("Cluster", SInt 1); ("Poverty_Rate", SInt 20)].

Definition beta_row : row := [("County", SStr "Beta"); ("State", SStr "TX"); ("Poverty_Rate", SInt 5)].

(** The two records of spec section 8. *)
Example alpha_has_alert :
  contains (@row_to_text demo_repr alpha_row) "Highest Composite Health Risk area (Cluster 1)" = true.
Proof. vm_compute. reflexivity. Qed.

Example beta_has_no_alert :
  contains (@row_to_text demo_repr beta_row) "Highest Composite Health Risk area" = false.
Proof. vm_compute. reflexivity. Qed.

(** A column that is present with a missing value prints as [nan], not
    as the "N/A" placeholder of spec section 4.1. *)
Example missing_value_prints_nan :
  let r := [("County", SStr "Gamma"); ("State", SStr "NY"); ("Poverty_Rate", SNaN)] in
  contains (@row_to_text demo_repr r) "Poverty Rate: nan%" = true /\
  contains (@row_to_text demo_repr r) "Poverty Rate: N/A%" = false.
Proof. vm_compute. split; reflexivity. Qed.

End Profile.
