(* ===== verification/Pandas.v ===== *)
(** * pandas DataFrames as the code uses them

    A frame is its column labels and its rows; [iterrows] pairs each row
    with its position (the default [RangeIndex]) and a [Series] that is the
    row's cells keyed by label.  [row[label]] raises [KeyError] on a
    missing label, [row.get(label, default)] falls back to the default. *)

From S2P Require Import Prelude PyData Profile.

Module Frame.

(** A DataFrame: column labels and rows of cells, one per label. *)
Record frame := mk_frame { columns : list string; rows : list (list scalar) }.

Definition wf (f : frame) : Prop := Forall (fun r => length r = length (columns f)) (rows f).

(** The [Series] of one row. *)
Definition row_of (f : frame) (vals : list scalar) : Profile.row := zip (columns f) vals.

(** [df.iterrows()] on a frame with the default [RangeIndex]. *)
Definition iterrows (f : frame) : list (nat * Profile.row) := enumerate (row_of f <$> rows f).

Fixpoint col_index (cols : list string) (c : string) : option nat :=
  match cols with
  | [] => None
  | c' :: cols' => if decide (c = c') then Some 0%nat else S <$> col_index cols' c
  end.

(** [df[cols]]: a [KeyError] names the missing labels. *)
Definition pick (idx : list nat) (r : list scalar) : list scalar :=
  (fun j => default SNone (r !! j)) <$> idx.

Definition select (f : frame) (cols : list string) : outcome frame :=
  match mapM (M:=option) (col_index (columns f)) cols with
  | Some idx => Ret (mk_frame cols (pick idx <$> rows f))
  | None => Raise (Exn "KeyError" (py_join ", " (filter (fun c => col_index (columns f) c = None) cols)))
  end.

(** Key equality of a pandas join: values compare with [==], and [nan]
    keys match each other. *)
Definition key_eq (a b : scalar) : bool :=
  py_eq a b || (bool_decide (a = SNaN) && bool_decide (b = SNaN)).

(** [row[label]] on a [Series]. *)
Definition rindex (r : Profile.row) (k : string) : outcome scalar :=
  match Dict.get r k with
  | Some v => Ret v
  | None => Raise (Exn "KeyError" k)
  end.

End Frame.
