(* ===== verification/FlatIndex.v ===== *)
(** * The vector index: [faiss.IndexFlatIP] and [faiss.normalize_L2]

    The code only calls faiss, so this file models the library at the
    interface the spec gives it (section 4.4): an exact inner-product index
    holding its vectors in insertion order, whose [search] returns, for a
    query and a [k], exactly [k] labels and distances: the hits ordered by
    decreasing score, ties to the smaller id, then padding [(-1, -FLT_MAX)]
    when [k] exceeds the number of vectors.  Scores are exact rationals:
    float rounding is not modelled.

    The search is written twice: [search_ref] sorts every hit and cuts the
    list, [search] keeps a bounded list of the best [k] seen so far, the way
    faiss's result heap does.  [topk_correct] proves them equal. *)

From S2P Require Import Prelude.

Definition vec : Type := list Q.

Fixpoint dot (u v : vec) : Q :=
  match u, v with
  | x :: u', y :: v' => x * y + dot u' v'
  | _, _ => 0
  end.

(** [faiss.normalize_L2] and the embedding model are interfaces: the model
    depends only on these laws. *)
Class L2Normalize := {
  normalize_L2 : vec -> vec;
  normalize_L2_length : forall v, length (normalize_L2 v) = length v
}.

(** The normaliser of the examples: the identity, which is [normalize_L2]
    on vectors of norm 1. *)
Definition demo_norm : L2Normalize := {| normalize_L2 := id; normalize_L2_length := fun v => eq_refl |}.

Module FlatIP.

Record index := mk_index { dim : nat; xb : list vec }.

Definition ntotal (ix : index) : nat := length (xb ix).

(** [faiss.IndexFlatIP(d)] *)
Definition create (d : nat) : index := mk_index d [].

(** [index.add(x)]: faiss checks the row width against [d]. *)
Definition add (ix : index) (xs : list vec) : outcome index :=
  if forallb (fun v => bool_decide (length v = dim ix)) xs
  then Ret (mk_index (dim ix) (xb ix ++ xs)%list)
  else Raise (Exn "AssertionError" "x.shape[1] == d").

(** A hit is a label and its score. *)
Definition hit : Type := (nat * Q)%type.

(** [a] ranks strictly before [b]: higher score, or equal score and
    smaller label. *)
Definition before (a b : hit) : bool :=
  negb (Qle_bool a.2 b.2) || (Qeq_bool a.2 b.2 && bool_decide (a.1 < b.1)%nat).

(** [a] ranks at or before [b]. *)
Definition ranks (a b : hit) : Prop := before b a = false.

Fixpoint insert (h : hit) (l : list hit) : list hit :=
  match l with
  | [] => [h]
  | h' :: l' => if before h h' then h :: l else h' :: insert h l'
  end.

(** Every stored vector's score against the query, in insertion order. *)
Definition scores (ix : index) (q : vec) : list hit :=
  imap (fun i v => (i, dot q v)) (xb ix).

Definition sort_hits (l : list hit) : list hit := foldl (fun acc h => insert h acc) [] l.

(** The bounded selection: never more than [k] candidates are kept. *)
Definition topk (k : nat) (l : list hit) : list hit :=
  foldl (fun acc h => take k (insert h acc)) [] l.

(** [-FLT_MAX], the distance faiss reports for a padding slot. *)
Definition neg_flt_max : Q := - inject_Z (340282346638528859811704183484516925440%Z).

Definition pad_hit : hit := (0%nat, neg_flt_max).

Definition pad (k n : nat) : list hit := replicate (k - n)%nat pad_hit.

(** The result arrays of one query: labels ([-1] for padding) and distances. *)
Definition result (hits : list hit) (k : nat) : list Z * list Q :=
  (((fun h => Z.of_nat h.1) <$> hits) ++ ((fun _ => (-1)%Z) <$> pad k (length hits)),
   ((fun h => h.2) <$> hits) ++ ((fun h => h.2) <$> pad k (length hits)))%list.

(** [index.search(q, k)]: faiss checks [k > 0] and the query width. *)
Definition search_with (sel : nat -> list hit -> list hit) (ix : index) (q : vec) (k : nat)
  : outcome (list Z * list Q) :=
  if decide (k = 0%nat) then Raise (Exn "AssertionError" "k > 0")
  else if decide (length q = dim ix) then Ret (result (sel k (scores ix q)) k)
  else Raise (Exn "AssertionError" "d == index.d").

Definition search_ref := search_with (fun k l => take k (sort_hits l)).
Definition search := search_with topk.

End FlatIP.

(** ** The ranking order *)

Module FlatIPFacts.
Import FlatIP.

Lemma before_spec (a b : hit) :
  before a b = true <-> (b.2 < a.2 \/ (a.2 == b.2 /\ (a.1 < b.1)%nat)).
Proof.
  unfold before. rewrite orb_true_iff, andb_true_iff, negb_true_iff, Qeq_bool_iff,
    bool_decide_eq_true.
  split; intros [H|H]; auto.
  - left. apply Qnot_le_lt. intros Hle. apply Qle_bool_iff in Hle. congruence.
  - left. destruct (Qle_bool a.2 b.2) eqn:E; [|done]. apply Qle_bool_iff in E. lra.
Qed.

Lemma before_false (a b : hit) :
  before a b = false <-> (a.2 <= b.2 /\ (a.2 == b.2 -> (b.1 <= a.1)%nat)).
Proof.
  destruct (before a b) eqn:E.
  - apply before_spec in E. split; [done|]. intros [H1 H2]. exfalso.
    destruct E as [E|[E1 E2]]; [lra|]. specialize (H2 E1). lia.
  - split; [intros _|done]. split.
    + apply Qnot_lt_le. intros Hlt. assert (before a b = true) by (apply before_spec; auto).
      congruence.
    + intros Heq. apply Nat.nlt_ge. intros Hlt.
      assert (before a b = true) by (apply before_spec; auto). congruence.
Qed.

Lemma before_asym (a b : hit) : before a b = true -> before b a = false.
Proof.
  rewrite before_spec, before_false. intros [H|[H1 H2]]; split; try lra.
  intros. lia.
Qed.

Lemma ranks_score (a b : hit) : ranks a b -> b.2 <= a.2.
Proof. unfold ranks. rewrite before_false. tauto. Qed.

Lemma ranks_trans (a b c : hit) : ranks a b -> ranks b c -> ranks a c.
Proof.
  unfold ranks. rewrite !before_false. intros [H1 H2] [H3 H4]. split; [lra|].
  intros Heq. assert (c.2 == b.2) by lra. assert (b.2 == a.2) by lra.
  specialize (H2 ltac:(lra)). specialize (H4 ltac:(lra)). lia.
Qed.

#[export] Hint Resolve before_asym ranks_trans ranks_score : foodscope.

(** ** Insertion *)

Lemma insert_perm h l : insert h l ≡ₚ h :: l.
Proof.
  induction l as [|h' l IH]; simpl; [done|].
  destruct (before h h'); [done|]. rewrite IH. apply perm_swap.
Qed.

Lemma insert_sorted h l : Sorted ranks l -> Sorted ranks (insert h l).
Proof.
  induction 1 as [|h' l Hs IH Hhd]; simpl; [repeat constructor|].
  destruct (before h h') eqn:E.
  - constructor; [by constructor|]. constructor. by apply before_asym.
  - constructor; [exact IH|]. destruct l as [|h'' l]; simpl.
    + constructor. exact E.
    + inversion Hhd; subst. destruct (before h h''); constructor; done.
Qed.

Lemma take_insert k h l : take k (insert h (take k l)) = take k (insert h l).
Proof.
  revert k. induction l as [|h' l IH]; intros [|k]; simpl; try done.
  destruct (before h h'); simpl.
  - f_equal. destruct k; simpl; [done|]. rewrite take_take, Nat.min_l by lia. done.
  - by rewrite IH.
Qed.

Lemma sort_hits_perm l : sort_hits l ≡ₚ l.
Proof.
  unfold sort_hits. cut (forall acc, foldl (fun acc h => insert h acc) acc l ≡ₚ acc ++ l).
  { intros H. apply H. }
  induction l as [|h l IH]; intros acc; simpl; [by rewrite app_nil_r|].
  rewrite IH, insert_perm. by rewrite <- Permutation_middle.
Qed.

Lemma sort_hits_sorted l : Sorted ranks (sort_hits l).
Proof.
  unfold sort_hits. cut (forall acc, Sorted ranks acc ->
    Sorted ranks (foldl (fun acc h => insert h acc) acc l)).
  { intros H. apply H. constructor. }
  induction l as [|h l IH]; intros acc Hacc; simpl; [done|]. apply IH, insert_sorted, Hacc.
Qed.

(** The bounded selection computes the first [k] of the full sort. *)
Lemma topk_sort k l : topk k l = take k (sort_hits l).
Proof.
  unfold topk, sort_hits.
  cut (forall acc, foldl (fun acc h => take k (insert h acc)) (take k acc) l
                   = take k (foldl (fun acc h => insert h acc) acc l)).
  { intros H. rewrite <- H. by rewrite take_nil. }
  induction l as [|h l IH]; intros acc; simpl; [done|].
  by rewrite take_insert, IH.
Qed.

Lemma search_search_ref ix q k : search ix q k = search_ref ix q k.
Proof. unfold search, search_ref, search_with. by rewrite topk_sort. Qed.

Lemma sort_hits_strongly l : StronglySorted ranks (sort_hits l).
Proof. apply Sorted_StronglySorted; [intros ???; apply ranks_trans|apply sort_hits_sorted]. Qed.

Lemma elem_of_sort_hits h l : h ∈ sort_hits l <-> h ∈ l.
Proof. apply elem_of_Permutation_proper, sort_hits_perm. Qed.

Lemma scores_lookup ix q j : scores ix q !! j = (fun v => (j, dot q v)) <$> xb ix !! j.
Proof. unfold scores. by rewrite list_lookup_imap. Qed.

Lemma scores_length ix q : length (scores ix q) = ntotal ix.
Proof. unfold scores, ntotal. apply length_imap. Qed.

Lemma elem_of_scores ix q h : h ∈ scores ix q -> (h.1 < ntotal ix)%nat /\
  exists v, xb ix !! h.1 = Some v /\ h.2 = dot q v.
Proof.
  intros (j & Hj)%list_elem_of_lookup. rewrite scores_lookup in Hj.
  destruct (xb ix !! j) as [v|] eqn:Hv; simplify_eq/=. split; [|eauto].
  apply lookup_lt_Some in Hv. exact Hv.
Qed.

(** What a successful search returns. *)
Lemma search_ret ix q k res :
  search ix q k = Ret res ->
  k <> 0%nat /\ length q = dim ix /\ res = result (take k (sort_hits (scores ix q))) k.
Proof.
  rewrite search_search_ref. unfold search_ref, search_with.
  repeat case_decide; intros; simplify_eq; auto.
Qed.

Lemma search_ok ix q k :
  k <> 0%nat -> length q = dim ix ->
  search ix q k = Ret (result (take k (sort_hits (scores ix q))) k).
Proof.
  intros Hk Hq. rewrite search_search_ref. unfold search_ref, search_with.
  by rewrite decide_False, decide_True.
Qed.

End FlatIPFacts.
