(* ===== verification/Assets.v ===== *)
(** * Offline build: [generate_assets] of health/serving/generate_assets.py

    The main CSV is left-joined with the worst-cluster CSV on
    [(County, State)], each joined row becomes a [Chunk] whose id is its
    position, the texts are embedded, normalised and added to a fresh
    [IndexFlatIP], and the index and the pickled chunk list are written to
    two files, one after the other.  The file system is a [gmap] from paths
    to artifacts; the embedding model is the [EmbeddingModel] interface. *)

From S2P Require Import Prelude PyData Profile Pandas FlatIndex.

(** [@dataclass class Chunk] of rag_service.py *)
(** The metadata dict only ever holds scalars: county, state, risk flag. *)
Record Chunk := mk_chunk { text : string; metadata : list (string * scalar); chunk_id : nat }.

(** The sentence-transformer's [encode] on a batch: one vector per text, in
    order, of the model's width.  [encode_app] is the batch contract of
    spec section 4.3: encoding a concatenation is concatenating the encodings. *)
Class EmbeddingModel := {
  em_dim : nat;
  encode : list string -> list vec;
  encode_app : forall a b, encode (a ++ b)%list = (encode a ++ encode b)%list;
  encode_one : forall t, exists v, encode [t] = [v] /\ length v = em_dim
}.

(** [pd.merge(df_main, df_worst[['County', 'State', 'composite_risk']],
    on=['County', 'State'], how='left')] (lines 69-74).  Left rows keep
    their order; a left row with several matches is repeated once per
    match, in the right frame's order; a left row with none gets [nan].
    A [composite_risk] column already in [df_main] clashes: pandas then
    suffixes the two columns with [_x] and [_y]. *)
Definition merge_left_risk (main worst : Frame.frame) : outcome Frame.frame :=
  match Frame.col_index (Frame.columns main) "County", Frame.col_index (Frame.columns main) "State" with
  | Some ic, Some ist =>
      let clash := bool_decide ("composite_risk" ∈ Frame.columns main) in
      let lcols := (fun c => if decide (c = "composite_risk") then "composite_risk_x" else c)
                   <$> Frame.columns main in
      let rcol := if clash then "composite_risk_y" else "composite_risk" in
      let cell r j := default SNone (r !! j) in
      let joined l :=
        match filter (fun w => Frame.key_eq (cell l ic) (cell w 0%nat)
                               && Frame.key_eq (cell l ist) (cell w 1%nat)) (Frame.rows worst) with
        | [] => [l ++ [SNaN]]
        | ms => (fun w => l ++ [cell w 2%nat]) <$> ms
        end%list in
      Ret (Frame.mk_frame (lcols ++ [rcol])%list (Frame.rows main ≫= joined))
  | None, _ => Raise (Exn "KeyError" "County")
  | _, None => Raise (Exn "KeyError" "State")
  end.

(** The files the build reads and writes. *)
Inductive artifact : Type :=
| ACsv (f : Frame.frame)
| AIndex (ix : FlatIP.index)
| AChunks (cs : list Chunk)
| ACorrupt.

Abbreviation files := (gmap string artifact).

Section Build.
Context `{FloatRepr} `{EmbeddingModel} `{L2Normalize}.

(** What the build cannot control: whether the model downloads and which
    writes fail. *)
Record build_env := mk_build_env { model_loads : bool; write_fails : string -> bool }.

Definition exists_path (path : string) : PyM files bool :=
  fun fs => (Ret (bool_decide (is_Some (fs !! path))), fs).

(** [pd.read_csv(path)] *)
Definition read_csv (path : string) : PyM files Frame.frame :=
  fun fs => match fs !! path with
            | Some (ACsv f) => (Ret f, fs)
            | Some _ => (Raise (Exn "ParserError" path), fs)
            | None => (Raise (Exn "FileNotFoundError" path), fs)
            end.

(** [faiss.write_index] and [pickle.dump] into a file opened with ['wb']:
    the file is truncated first, so a failed write leaves it corrupt. *)
Definition write_artifact (E : build_env) (path : string) (a : artifact) : PyM files unit :=
  fun fs => if write_fails E path then (Raise (Exn "OSError" path), <[path := ACorrupt]> fs)
            else (Ret tt, <[path := a]> fs).

(** The chunk of row [i] (lines 84-90). *)
Definition chunk_of (ir : nat * Profile.row) : Chunk :=
  let '(i, row) := ir in
  mk_chunk (Profile.row_to_text row)
    (Dict.of_list [("county", Profile.rget row "County" SNone);
                   ("state", Profile.rget row "State" SNone);
                   ("is_high_risk", SBool (notna (Profile.rget row "composite_risk" SNone)))])
    i.

Definition build_chunks (df : Frame.frame) : list Chunk := chunk_of <$> Frame.iterrows df.

(** [generate_assets(main_csv, worst_csv, output_index, output_chunks)]
    (lines 61-110). *)
Definition generate_assets (E : build_env) (main_csv worst_csv output_index output_chunks : string)
  : PyM files unit :=
  let* df_main := read_csv main_csv in
  let* has_worst := exists_path worst_csv in
  let* df_combined :=
    (if has_worst then
       let* df_worst := read_csv worst_csv in
       let* sel := lift (Frame.select df_worst ["County"; "State"; "composite_risk"]) in
       lift (merge_left_risk df_main sel)
     else pret df_main) in
  let chunks := build_chunks df_combined in
  let texts := text <$> chunks in
  (if model_loads E then pret tt else praise (Exn "OSError" "all-MiniLM-L6-v2")) ;;;
  let embeddings := normalize_L2 <$> encode texts in
  (if decide (texts = []) then praise (Exn "IndexError" "tuple index out of range") else pret tt) ;;;
  let* index := lift (FlatIP.add (FlatIP.create em_dim) embeddings) in
  write_artifact E output_index (AIndex index) ;;;
  write_artifact E output_chunks (AChunks chunks).

End Build.

(** ** Embedding a batch is embedding each text *)

Section Embed.
Context `{EmbeddingModel}.

Definition embed (t : string) : vec := default [] (head (encode [t])).

Lemma encode_nil : encode [] = [].
Proof.
  pose proof (encode_app [] []) as E. simpl in E.
  destruct (encode []) as [|v vs] eqn:Hn; [done|].
  apply (f_equal length) in E. rewrite length_app in E. simpl in E. lia.
Qed.

Lemma encode_map ts : encode ts = embed <$> ts.
Proof.
  induction ts as [|t ts IH]; [apply encode_nil|].
  pose proof (encode_app [t] ts) as E. simpl in E. rewrite E, IH.
  destruct (encode_one t) as [v [Hv _]]. unfold embed. simpl. by rewrite Hv.
Qed.

Lemma embed_length t : length (embed t) = em_dim.
Proof. destruct (encode_one t) as [v [Hv Hl]]. unfold embed. by rewrite Hv. Qed.

End Embed.

#[export] Hint Rewrite @encode_map : foodscope_rw.

(** ** Chunks are numbered by position *)

Section BuildFacts.
Context `{FloatRepr} `{EmbeddingModel} `{L2Normalize}.

Lemma build_chunks_length df : length (build_chunks df) = length (Frame.rows df).
Proof. unfold build_chunks, Frame.iterrows. by rewrite length_fmap, enumerate_length, length_fmap. Qed.

Lemma build_chunks_lookup df i c :
  build_chunks df !! i = Some c ->
  exists vals, Frame.rows df !! i = Some vals /\
               c = chunk_of (i, Frame.row_of df vals).
Proof.
  unfold build_chunks, Frame.iterrows. rewrite list_lookup_fmap, enumerate_lookup, list_lookup_fmap.
  destruct (Frame.rows df !! i) as [vals|]; simpl; [|done].
  intros [= <-]. by exists vals.
Qed.

Lemma add_create_xb d vs ix :
  FlatIP.add (FlatIP.create d) vs = Ret ix -> FlatIP.xb ix = vs.
Proof. unfold FlatIP.add. by case_match; intros [= <-]. Qed.

(** A successful build writes the index built from the chunk texts, then
    the chunk list, and touches no other file. *)
Lemma generate_assets_ok E m w oi oc fs fs' :
  generate_assets E m w oi oc fs = (Ret tt, fs') ->
  exists df ix,
    FlatIP.add (FlatIP.create em_dim) (normalize_L2 <$> encode (text <$> build_chunks df)) = Ret ix /\
    fs' = <[oc := AChunks (build_chunks df)]> (<[oi := AIndex ix]> fs).
Proof.
  intros Hrun. unfold generate_assets in Hrun. run_inv Hrun.
  unfold read_csv, exists_path, write_artifact, lift, pret, praise in *.
  repeat case_match; simplify_eq.
  all: try (run_inv Hstep1; repeat case_match; simplify_eq).
  all: eauto.
Qed.

(** C1: after a successful build the [i]-th chunk has id [i] and the
    [i]-th vector of the index is the normalised embedding of its text;
    the index and the chunk list have the same length. *)
Theorem generate_assets_positional E m w oi oc fs fs' :
  oi <> oc ->
  generate_assets E m w oi oc fs = (Ret tt, fs') ->
  exists ix cs,
    fs' !! oi = Some (AIndex ix) /\ fs' !! oc = Some (AChunks cs) /\
    FlatIP.ntotal ix = length cs /\
    forall i c, cs !! i = Some c ->
      chunk_id c = i /\ FlatIP.xb ix !! i = Some (normalize_L2 (embed (text c))).
Proof.
  intros Hne Hrun. apply generate_assets_ok in Hrun as (df & ix & Hadd & ->).
  apply add_create_xb in Hadd. exists ix, (build_chunks df).
  rewrite lookup_insert_ne by done. rewrite !lookup_insert_eq.
  do 2 (split; [done|]). unfold FlatIP.ntotal. rewrite Hadd, encode_map. split.
  - by rewrite !length_fmap.
  - intros i c Hc. split; [by destruct (build_chunks_lookup _ _ _ Hc) as (? & _ & ->)|].
    by rewrite !list_lookup_fmap, Hc.
Qed.

End BuildFacts.

(** ** A concrete build *)

(** The embedding of the examples: one coordinate per keyword. *)
Definition demo_feat (t : string) : vec :=
  (fun w => if contains t w then 1 else 0) <$> ["high"; "obesity"; "low"; "moderate"].

Program Definition demo_model : EmbeddingModel := {| em_dim := 4; encode := fmap demo_feat |}.
Next Obligation. intros. apply fmap_app. Qed.
Next Obligation. intros. eexists; split; reflexivity. Qed.

Definition demo_env : build_env := mk_build_env true (fun _ => false).

Definition demo_main : Frame.frame :=
  Frame.mk_frame ["County"; "State"; "Adult_Obesity_Rate13"]
    [[SStr "Alpha"; SStr "CA"; SInt 40]; [SStr "Beta"; SStr "TX"; SInt 10];
     [SStr "Gamma"; SStr "NY"; SInt 25]].

Definition demo_worst : Frame.frame :=
  Frame.mk_frame ["County"; "State"; "composite_risk"; "Cluster"] [[SStr "Alpha"; SStr "CA"; SFloat (82 # 10); SInt 1]].

Definition demo_fs : files :=
  <["rag_df.csv" := ACsv demo_main]> (<["worst_cluster_counties.csv" := ACsv demo_worst]> ∅).

Definition demo_build : outcome unit * files :=
  @generate_assets Profile.demo_repr demo_model demo_norm demo_env
    "rag_df.csv" "worst_cluster_counties.csv" "faiss_index.bin" "chunks.pkl" demo_fs.

Lemma generate_assets_positional_witness :
  exists ix cs,
    snd demo_build !! "faiss_index.bin" = Some (AIndex ix) /\
    snd demo_build !! "chunks.pkl" = Some (AChunks cs) /\
    FlatIP.ntotal ix = length cs /\
    forall i c, cs !! i = Some c ->
      chunk_id c = i /\ FlatIP.xb ix !! i = Some (@normalize_L2 demo_norm (@embed demo_model (text c))).
Proof.
  apply (@generate_assets_positional Profile.demo_repr demo_model demo_norm demo_env
    "rag_df.csv" "worst_cluster_counties.csv" "faiss_index.bin" "chunks.pkl" demo_fs).
  - discriminate.
  - vm_compute. reflexivity.
Defined.
