(* ===== verification/RagService.v ===== *)
(** * The online service: [RAGService] of health/serving/rag_service.py

    The service object keeps the embedding model, the faiss index, the
    chunk list, the Groq client and an [initialized] flag.  [initialize]
    loads them in that order without any [try], so an exception leaves
    whatever was assigned before it.  [retrieve] searches the index;
    [ask] initialises lazily, refuses without a client, retrieves ten
    chunks, builds the prompt and calls the completion endpoint inside a
    [try] that turns every exception into an [{"error": ...}] dict.

    The process around the object (files on disk, the [GROQ_API_KEY]
    variable, whether the model downloads, what the completion endpoint
    answers to a prompt) is a read-only [world]. *)

From S2P Require Import Prelude PyData Profile FlatIndex Assets.

Module Rag.

(** The constructor arguments (lines 23-31). *)
Record config := mk_config {
  csv_path : string; index_path : string; chunks_path : string; model_name : string
}.

Definition default_config : config :=
  mk_config "rag_df.csv" "faiss_index.bin" "chunks.pkl" "all-MiniLM-L6-v2".

(** The attributes of [self] that change (lines 32-36): [model] records
    whether [SentenceTransformer(...)] returned, [client] the key the
    Groq client was built with. *)
Record state := mk_state {
  model : bool;
  index : option FlatIP.index;
  chunks : list Chunk;
  client : option string;
  initialized : bool
}.

Definition init_state : state := mk_state false None [] None false.

Record world := mk_world {
  w_files : files;
  w_groq_key : option string;
  w_model_ok : bool;
  (** [client.chat.completions.create(model, messages, temperature,
      max_tokens)] for the client built with a key: the answer text, or the
      exception the SDK raises. *)
  w_complete : string -> string -> string -> Q -> nat -> outcome string
}.

Definition set_model (s : state) : state :=
  mk_state true (index s) (chunks s) (client s) (initialized s).
Definition set_index (ix : FlatIP.index) (s : state) : state :=
  mk_state (model s) (Some ix) (chunks s) (client s) (initialized s).
Definition set_chunks (cs : list Chunk) (s : state) : state :=
  mk_state (model s) (index s) cs (client s) (initialized s).
Definition set_client (k : string) (s : state) : state :=
  mk_state (model s) (index s) (chunks s) (Some k) (initialized s).
Definition set_initialized (s : state) : state :=
  mk_state (model s) (index s) (chunks s) (client s) true.

Section Service.
Context `{FloatRepr} `{EmbeddingModel} `{L2Normalize}.
Variable cfg : config.
Variable W : world.

Definition path_exists (p : string) : bool := bool_decide (is_Some (w_files W !! p)).

(** [faiss.read_index]: anything but an index file is a [RuntimeError]. *)
Definition read_index (p : string) : outcome FlatIP.index :=
  match w_files W !! p with
  | Some (AIndex ix) => Ret ix
  | _ => Raise (Exn "RuntimeError" p)
  end.

(** [pickle.load] of the chunk file. *)
Definition load_chunks (p : string) : outcome (list Chunk) :=
  match w_files W !! p with
  | Some (AChunks cs) => Ret cs
  | _ => Raise (Exn "UnpicklingError" p)
  end.

(** [initialize] (lines 38-69).  [if api_key:] is false for an empty
    string. *)
Definition initialize : PyM state unit :=
  let* s := pget in
  if initialized s then pret tt else
  (if w_model_ok W then pmodify set_model
   else praise (Exn "OSError" (model_name cfg))) ;;;
  (if path_exists (index_path cfg)
   then let* ix := lift (read_index (index_path cfg)) in pmodify (set_index ix)
   else pret tt) ;;;
  (if path_exists (chunks_path cfg)
   then let* cs := lift (load_chunks (chunks_path cfg)) in pmodify (set_chunks cs)
   else pret tt) ;;;
  (match w_groq_key W with
   | Some k => if decide (k = "") then pret tt else pmodify (set_client k)
   | None => pret tt
   end) ;;;
  pmodify set_initialized.

(** Line 87: [max(0.0, min(1.0, float(dist)))]. *)
Definition similarity (dist : Q) : Q := py_clamp 0 1 dist.

(** The loop of lines 81-88 over [zip(indices[0], distances[0])]: a
    label outside the chunk list is skipped; the distance is clamped. *)
Definition collect (cs : list Chunk) (labels : list Z) (dists : list Q) : list (Chunk * Q) :=
  omap (fun '(idx, dist) =>
          if decide (0 <= idx < Z.of_nat (length cs))%Z
          then (fun c => (c, similarity dist)) <$> cs !! Z.to_nat idx
          else None)
       (zip labels dists).

(** [retrieve] (lines 71-90).  [self.model.encode] on a model that is
    [None] raises [AttributeError]. *)
Definition retrieve (query : string) (top_k : nat) : PyM state (list (Chunk * Q)) :=
  let* s := pget in
  match index s with
  | None => pret []
  | Some ix =>
      if decide (chunks s = []) then pret [] else
      if negb (model s) then praise (Exn "AttributeError" "'NoneType' object has no attribute 'encode'") else
      let q := normalize_L2 (embed query) in
      let* res := lift (FlatIP.search ix q top_k) in
      pret (collect (chunks s) res.1 res.2)
  end.

(** Lines 101: one [[Source: county, state] text] block per chunk. *)
Definition source_tag (c : Chunk) : string :=
  "[Source: " ++ py_str (Dict.get_or (metadata c) "county" (SStr "Unknown")) ++ ", "
  ++ py_str (Dict.get_or (metadata c) "state" (SStr "Unknown")) ++ "] " ++ text c.

Definition context_of (rs : list (Chunk * Q)) : string :=
  py_join (nl ++ nl) ((fun p => source_tag p.1) <$> rs).

(** The f-string of lines 104-122, indentation included. *)
Definition ind (l : string) : string := "        " ++ l ++ nl.

Definition prompt_head : string :=
  nl
  ++ ind "You are an expert in U.S. food environment and health analysis. "
  ++ ind "Use the following retrieved context to answer the user's question accurately."
  ++ ind ""
  ++ ind "FORMATTING & STYLE RULES:"
  ++ ind ("1. NEVER mention words like " ++ dq ++ "context" ++ dq ++ ", " ++ dq ++ "provided data"
          ++ dq ++ ", " ++ dq ++ "the text above" ++ dq ++ ", or " ++ dq
          ++ "based on the information" ++ dq ++ " in your response.")
  ++ ind "2. Speak directly as an expert performing the analysis."
  ++ ind "3. Use **bold text** for key metrics like percentages or scores."
  ++ ind "4. Use bullet points for lists of facts or recommendations."
  ++ ind "5. Use Markdown TABLES when comparing data for two or more counties."
  ++ ind "6. Keep your tone professional, authoritative, and data-driven."
  ++ ind ""
  ++ ind "Context:"
  ++ "        ".

Definition build_prompt (context query : string) : string :=
  prompt_head ++ context ++ nl ++ ind "" ++ "        User Question: " ++ query ++ nl
  ++ ind "" ++ ind "Answer:" ++ "        ".

Definition groq_model : string := "llama-3.3-70b-versatile".

(** Lines 134-138: the chunk's metadata with its score added. *)
Definition source_of (p : Chunk * Q) : list (string * scalar) :=
  Dict.set (metadata p.1) "similarity" (SFloat p.2).

Definition py_of_scalars (d : list (string * scalar)) : pyval :=
  PDict ((fun kv => (kv.1, PScalar kv.2)) <$> d).

Definition error_dict (msg : string) : pydict := [("error", PScalar (SStr msg))].

Definition no_client_msg : string :=
  "Groq client not initialized. Set GROQ_API_KEY environment variable.".

(** [ask] (lines 92-146). *)
Definition ask (query : string) : PyM state pydict :=
  let* s := pget in
  (if initialized s then pret tt else initialize) ;;;
  let* s := pget in
  match client s with
  | None => pret (error_dict no_client_msg)
  | Some key =>
      let* relevant := retrieve query 10 in
      let context := context_of relevant in
      let prompt := build_prompt context query in
      ptry (fun _ => true)
        (let* response_text := lift (w_complete W key groq_model prompt (2 # 10) 1024) in
         pret [("answer", PScalar (SStr response_text));
               ("sources", PList (py_of_scalars <$> (source_of <$> relevant)));
               ("context_used", PScalar (SStr context))])
        (fun e => pret (error_dict (exn_msg e)))
  end.

End Service.

(** ** The HTTP layer *)

(** What FastAPI sends back: a JSON body, or an error status and detail. *)
Inductive http_response : Type :=
| HttpOk (body : pyval)
| HttpError (status : Z) (detail : string).

(** An exception no handler catches becomes a 500 response. *)
Definition handle {S} (c : PyM S http_response) : PyM S http_response :=
  ptry (fun _ => true) c (fun _ => pret (HttpError 500 "Internal Server Error")).

Section Endpoint.
Context `{FloatRepr} `{EmbeddingModel} `{L2Normalize}.
Variable cfg : config.
Variable W : world.

(** [@app.post("/ask")] of health/serving/app.py (lines 257-270). *)
Definition ask_endpoint (query : string) : PyM state http_response :=
  handle (
    let* s := pget in
    (if initialized s then pret tt else initialize cfg W) ;;;
    let* result := ask cfg W query in
    match Dict.get result "error" with
    | Some (PScalar e) => pret (HttpError 500 (py_str e))
    | Some _ => pret (HttpError 500 "")
    | None => pret (HttpOk (PDict [("answer", Dict.get_or result "answer" (PScalar SNone));
                                   ("sources", Dict.get_or result "sources" (PScalar SNone))]))
    end).

(** Step 5 of [load_artifacts] of health/serving/app.py (lines 131-136): a failed [initialize] is
    printed and the server starts anyway. *)
Definition startup : PyM state unit :=
  ptry (fun _ => true) (initialize cfg W) (fun _ => pret tt).

End Endpoint.

(** ** The Django side: [RemoteRAGService] of rag/services.py *)

Definition HF_API_URL : string := "https://edamhakim-us-foodscope.hf.space".

Definition fallback_msg : string := "The AI assistant is currently unavailable. Please try again later.".

(** [str(e)] of the [HTTPError] that [raise_for_status] raises. *)
Definition http_error_msg (status : Z) (url : string) : string :=
  pretty status ++ (if decide (status < 500)%Z then " Client Error: " else " Server Error: ")
  ++ (if decide (status = 500%Z) then "Internal Server Error" else "") ++ " for url: " ++ url.

(** [generate_response] (lines 19-45): the POST either fails to connect
    ([Raise]) or returns the endpoint's response. *)
Definition generate_response (posted : outcome http_response) : outcome pydict :=
  let endpoint := HF_API_URL ++ "/ask" in
  let fallback msg := Ret [("response", PScalar (SStr fallback_msg)); ("sources", PList []);
                           ("error", PScalar (SStr msg))] in
  match posted with
  | Raise e => fallback (exn_msg e)
  | Ret (HttpError st _) =>
      if decide (400 <= st)%Z then fallback (http_error_msg st endpoint)
      else Ret [("response", PScalar SNone); ("sources", PList []); ("error", PScalar SNone)]
  | Ret (HttpOk (PDict d)) =>
      Ret [("response", Dict.get_or d "answer" (PScalar SNone));
           ("sources", Dict.get_or d "sources" (PList []));
           ("error", PScalar SNone)]
  | Ret (HttpOk _) => Raise (Exn "AttributeError" "object has no attribute 'get'")
  end.

(** [get_rag_service] (lines 47-54): the module-level singleton. *)
Definition get_rag_service (g : option unit) : unit * option unit :=
  match g with Some x => (x, Some x) | None => (tt, Some tt) end.

(** ** Retrieval *)

(** The chunk and clamped score of each hit whose label is a chunk. *)
Definition lookup_hits (cs : list Chunk) (hits : list FlatIP.hit) : list (Chunk * Q) :=
  omap (fun h => (fun c => (c, similarity h.2)) <$> cs !! h.1) hits.

Lemma collect_pad cs (P : list FlatIP.hit) :
  collect cs ((fun _ => (-1)%Z) <$> P) ((fun h => h.2) <$> P) = [].
Proof.
  induction P as [|p P IH]; [done|]. exact IH.
Qed.

(** Skipping the padding of a search result leaves exactly the hits. *)
Lemma collect_result cs hits k :
  collect cs (FlatIP.result hits k).1 (FlatIP.result hits k).2 = lookup_hits cs hits.
Proof.
  unfold FlatIP.result. simpl. generalize (FlatIP.pad k (length hits)) as P. intros P.
  induction hits as [|h hits IH]; simpl; [apply collect_pad|].
  unfold collect, lookup_hits in *. csimpl. rewrite IH. f_equal.
  case_decide as Hin.
  - by rewrite Nat2Z.id.
  - rewrite (lookup_ge_None_2 cs h.1); [done|]. lia.
Qed.

Section RetrieveFacts.
Context `{FloatRepr} `{EmbeddingModel} `{L2Normalize}.

(** [retrieve] never changes the service. *)
Lemma retrieve_state q k s : snd (retrieve q k s) = s.
Proof.
  unfold retrieve, lift. py_unfold.
  repeat case_match; simplify_eq/=; try done.
Qed.

(** What a normal return of [retrieve] is: nothing when no index or no
    chunk is loaded, otherwise the chunks of the first [k] hits of the
    full ranking of the normalised query. *)
Lemma retrieve_ret q k s rs s' :
  retrieve q k s = (Ret rs, s') ->
  s' = s /\
  (rs = [] /\ (index s = None \/ chunks s = []) \/
   exists ix, index s = Some ix /\ chunks s <> [] /\ model s = true /\ k <> 0%nat /\
     rs = lookup_hits (chunks s)
            (take k (FlatIP.sort_hits (FlatIP.scores ix (normalize_L2 (embed q)))))).
Proof.
  unfold retrieve, lift. py_unfold.
  destruct (index s) as [ix|]; [|intros; simplify_eq; auto].
  case_decide; [intros; simplify_eq; auto|].
  destruct (model s) eqn:Hm; simpl; [|done].
  destruct (FlatIP.search ix _ k) as [res|] eqn:Hs; [|done]. intros; simplify_eq.
  apply FlatIPFacts.search_ret in Hs as (Hk & _ & ->).
  rewrite collect_result. split; [done|]. right. eauto 10.
Qed.

Lemma lookup_hits_sorted cs hits :
  StronglySorted FlatIP.ranks hits ->
  StronglySorted (fun a b : Chunk * Q => b.2 <= a.2) (lookup_hits cs hits).
Proof.
  apply StronglySorted_omap. intros a b fa fb Hab Ha Hb.
  destruct (cs !! a.1), (cs !! b.1); simplify_eq/=.
  unfold similarity. by apply py_clamp_mono, FlatIPFacts.ranks_score.
Qed.

Lemma lookup_hits_length cs hits :
  Forall (fun h : FlatIP.hit => (h.1 < length cs)%nat) hits ->
  length (lookup_hits cs hits) = length hits.
Proof.
  induction 1 as [|h hits Hh _ IH]; [done|]. unfold lookup_hits in *. csimpl.
  destruct (lookup_lt_is_Some_2 cs h.1 Hh) as [c ->]. simpl. by rewrite IH.
Qed.

Lemma elem_of_lookup_hits cs hits p :
  p ∈ lookup_hits cs hits <->
  exists h, h ∈ hits /\ cs !! h.1 = Some p.1 /\ p.2 = similarity h.2.
Proof.
  unfold lookup_hits. rewrite list_elem_of_omap. split.
  - intros (h & Hh & E). destruct (cs !! h.1) eqn:Hc; simplify_eq/=. eauto.
  - intros (h & Hh & Hc & E). exists h. split; [done|]. rewrite Hc. destruct p; simpl in *.
    by subst.
Qed.

(** With everything loaded, [retrieve] returns the chunks of the first
    [k] hits of the full ranking. *)
Lemma retrieve_loaded q k s ix :
  index s = Some ix -> chunks s <> [] -> model s = true -> k <> 0%nat ->
  FlatIP.dim ix = em_dim ->
  retrieve q k s =
    (Ret (lookup_hits (chunks s)
            (take k (FlatIP.sort_hits (FlatIP.scores ix (normalize_L2 (embed q)))))), s).
Proof.
  intros Hix Hcs Hm Hk Hd. unfold retrieve, lift. py_unfold. rewrite Hix.
  rewrite ?decide_False by done. rewrite Hm. simpl.
  rewrite FlatIPFacts.search_ok; [|done|by rewrite normalize_L2_length, embed_length].
  cbn -[collect FlatIP.result]. by rewrite collect_result.
Qed.

End RetrieveFacts.

Section RetrieveTheorems.
Context `{FloatRepr} `{EmbeddingModel} `{L2Normalize}.

(** C2: every similarity score [retrieve] returns lies in [0, 1]. *)
Theorem retrieve_scores_bounded q k s rs s' :
  retrieve q k s = (Ret rs, s') -> forall p, p ∈ rs -> 0 <= p.2 <= 1.
Proof.
  intros Hr p Hp. apply retrieve_ret in Hr as [_ [[-> _]|(ix & _ & _ & _ & _ & ->)]].
  - by apply elem_of_nil in Hp.
  - apply list_elem_of_omap in Hp as (h & _ & Hh).
    destruct (chunks s !! h.1); simplify_eq/=. by apply py_clamp_bounds.
Qed.

(** C3: the results of [retrieve] are ordered by non-increasing
    similarity. *)
Theorem retrieve_sorted q k s rs s' :
  retrieve q k s = (Ret rs, s') -> Sorted (fun a b : Chunk * Q => b.2 <= a.2) rs.
Proof.
  intros Hr. apply retrieve_ret in Hr as [_ [[-> _]|(ix & _ & _ & _ & _ & ->)]]; [constructor|].
  apply StronglySorted_Sorted, lookup_hits_sorted, StronglySorted_take,
    FlatIPFacts.sort_hits_strongly.
Qed.

(** C6: with no index or no chunk loaded, [retrieve] returns the empty
    list and raises nothing. *)
Theorem retrieve_unloaded_empty q k s :
  index s = None \/ chunks s = [] -> retrieve q k s = (Ret [], s).
Proof.
  intros Hs. unfold retrieve. py_unfold.
  destruct (index s); [|done]. destruct Hs as [Hs|Hs]; [done|]. by rewrite decide_True.
Qed.

(** C5: when the index and the chunk list have the same length, a
    [retrieve] for [k] results returns [min k n] of them: asking for
    more than there are is not an error. *)
Theorem retrieve_count q k s ix :
  index s = Some ix -> chunks s <> [] -> model s = true -> k <> 0%nat ->
  FlatIP.dim ix = em_dim -> FlatIP.ntotal ix = length (chunks s) ->
  exists rs, retrieve q k s = (Ret rs, s) /\ length rs = Nat.min k (length (chunks s)).
Proof.
  intros Hix Hcs Hm Hk Hd Hn. eexists. split; [by apply retrieve_loaded|].
  rewrite lookup_hits_length.
  - by rewrite length_take, FlatIPFacts.sort_hits_perm, FlatIPFacts.scores_length, Hn.
  - apply Forall_forall. intros h Hh%(subseteq_take k).
    apply FlatIPFacts.elem_of_sort_hits, FlatIPFacts.elem_of_scores in Hh as [Hh _]. lia.
Qed.

(** C4: [retrieve] returns a best [k]: a chunk of the index that is not
    among the results scores no higher than any result.  Chunk ids are
    positions, as [generate_assets] builds them. *)
Theorem retrieve_top_k q k s ix rs :
  index s = Some ix -> retrieve q k s = (Ret rs, s) ->
  (forall i c, chunks s !! i = Some c -> chunk_id c = i) ->
  forall p, p ∈ rs -> forall j v, FlatIP.xb ix !! j = Some v -> (j < length (chunks s))%nat ->
  (forall p', p' ∈ rs -> chunk_id p'.1 <> j) ->
  similarity (dot (normalize_L2 (embed q)) v) <= p.2.
Proof.
  intros Hix Hr Hpos p Hp j v Hv Hj Hnot.
  apply retrieve_ret in Hr as [_ [[-> _]|(ix' & Hix' & _ & _ & _ & ->)]];
    [by apply elem_of_nil in Hp|].
  rewrite Hix in Hix'. injection Hix' as <-.
  set (S := FlatIP.sort_hits (FlatIP.scores ix (normalize_L2 (embed q)))).
  set (hj := (j, dot (normalize_L2 (embed q)) v)).
  assert (hj ∈ S) as HjS.
  { apply FlatIPFacts.elem_of_sort_hits, list_elem_of_lookup. exists j.
    by rewrite FlatIPFacts.scores_lookup, Hv. }
  assert (hj ∉ take k S) as HjT.
  { intros HT. destruct (lookup_lt_is_Some_2 (chunks s) j Hj) as [c Hc].
    apply (Hnot (c, similarity hj.2)); [|by apply Hpos].
    apply elem_of_lookup_hits. exists hj. auto. }
  assert (hj ∈ drop k S) as HjD.
  { rewrite <- (take_drop k S) in HjS. apply elem_of_app in HjS as [?|?]; [done|done]. }
  apply elem_of_lookup_hits in Hp as (h & Hh & _ & Hp2). rewrite Hp2.
  unfold similarity. apply py_clamp_mono. apply (FlatIPFacts.ranks_score h hj).
  exact (StronglySorted_take_drop _ k S h hj (FlatIPFacts.sort_hits_strongly _) Hh HjD).
Qed.

End RetrieveTheorems.

End Rag.

(** ** The service lifecycle *)

Module RagLifecycle.
Import Rag.

Section Lifecycle.
Context `{FloatRepr} `{EmbeddingModel} `{L2Normalize}.
Variable cfg : config.
Variable W : world.

(** C8: [initialize] on an initialised service does nothing. *)
Theorem initialize_idempotent s :
  initialized s = true -> initialize cfg W s = (Ret tt, s).
Proof. intros Hi. unfold initialize. py_unfold. by rewrite Hi. Qed.

(** [initialize] either leaves the state as it was or ends with the
    model loaded: everything it assigns comes after the model. *)
Lemma initialize_final s :
  snd (initialize cfg W s) = s \/ model (snd (initialize cfg W s)) = true.
Proof.
  unfold initialize, lift. py_unfold.
  repeat (case_match; simplify_eq/=); by (left + right).
Qed.

(** After its lazy initialisation, [ask] reads the state only. *)
Lemma ask_state q s :
  snd (ask cfg W q s) = if initialized s then s else snd (initialize cfg W s).
Proof.
  unfold ask. cbv [pbind pget pret].
  assert (forall s', snd (match client s' with
               | None => pret (error_dict no_client_msg)
               | Some key =>
                   let* relevant := retrieve q 10 in
                   ptry (fun _ => true)
                     (let* response_text := lift (w_complete W key groq_model
                          (build_prompt (context_of relevant) q) (2 # 10) 1024) in
                      pret [("answer", PScalar (SStr response_text));
                            ("sources", PList (py_of_scalars <$> (source_of <$> relevant)));
                            ("context_used", PScalar (SStr (context_of relevant)))])
                     (fun e => pret (error_dict (exn_msg e)))
               end s') = s') as Hcont.
  { intros s'. destruct (client s') as [key|]; [|reflexivity]. unfold pbind.
    pose proof (retrieve_state q 10 s') as Hr.
    destruct (retrieve q 10 s') as [[rs|e] s''] eqn:E; simpl in Hr; subst; [|done].
    unfold ptry, lift, pret. by destruct (w_complete _ _ _ _ _ _). }
  destruct (initialized s); [apply Hcont|].
  destruct (initialize cfg W s) as [[[]|e] s'] eqn:E; [apply Hcont|done].
Qed.

Lemma initialize_ret_initialized s s' :
  initialize cfg W s = (Ret tt, s') -> initialized s' = true.
Proof.
  unfold initialize, lift. py_unfold.
  intros Hrun. repeat (case_match; simplify_eq/=); done.
Qed.

(** The [/ask] handler changes the service only through [initialize]. *)
Lemma ask_endpoint_state q s :
  snd (ask_endpoint cfg W q s) = if initialized s then s else snd (initialize cfg W s).
Proof.
  assert (Hk : forall s', initialized s' = true ->
    snd (pbind (ask cfg W q) (fun result =>
      match Dict.get result "error" with
      | Some (PScalar e) => pret (HttpError 500 (py_str e))
      | Some _ => pret (HttpError 500 "")
      | None => pret (HttpOk (PDict [("answer", Dict.get_or result "answer" (PScalar SNone));
                                     ("sources", Dict.get_or result "sources" (PScalar SNone))]))
      end) s') = s').
  { intros s' Hi. rewrite snd_pbind_pure, ask_state, Hi; [done|].
    intros r. by destruct (Dict.get r "error") as [[]|]. }
  unfold ask_endpoint, handle. rewrite snd_ptry_pure by (intros; apply pure_state_pret).
  unfold pbind at 1, pget. destruct (initialized s) eqn:Hi; [exact (Hk s Hi)|].
  unfold pbind at 1. destruct (initialize cfg W s) as [[[]|e] s'] eqn:E; [|done].
  apply initialize_ret_initialized in E. exact (Hk s' E).
Qed.

Lemma startup_state s : snd (startup cfg W s) = snd (initialize cfg W s).
Proof. unfold startup, ptry. by destruct (initialize cfg W s) as [[]?]. Qed.

(** The server's life: startup, then requests to [/ask], in any order. *)
Inductive svc_step : state -> state -> Prop :=
| step_startup s : svc_step s (snd (startup cfg W s))
| step_ask s q : svc_step s (snd (ask_endpoint cfg W q s)).

Definition reachable (s : state) : Prop := rtc svc_step init_state s.

(** What the service guarantees at every point of its life: the index
    and the chunks are only loaded once the model is, and an
    initialised service has its model. *)
Definition svc_inv (s : state) : Prop :=
  (model s = false -> index s = None /\ chunks s = []) /\
  (initialized s = true -> model s = true).

Lemma svc_inv_initialize s : svc_inv s -> svc_inv (snd (initialize cfg W s)).
Proof.
  intros Hs. destruct (initialize_final s) as [->|Hm]; [done|].
  split; [by rewrite Hm|done].
Qed.

Lemma svc_inv_step s s' : svc_step s s' -> svc_inv s -> svc_inv s'.
Proof.
  destruct 1 as [s|s q]; [rewrite startup_state; apply svc_inv_initialize|].
  rewrite ask_endpoint_state. destruct (initialized s); [done|apply svc_inv_initialize].
Qed.

Lemma svc_inv_rtc s1 s2 : rtc svc_step s1 s2 -> svc_inv s1 -> svc_inv s2.
Proof.
  induction 1 as [|x y z Hxy _ IH]; [done|]. intros Hx. apply IH, (svc_inv_step x y Hxy Hx).
Qed.

(** C12: every reachable state of the service satisfies [svc_inv]. *)
Theorem reachable_svc_inv s : reachable s -> svc_inv s.
Proof.
  intros Hr. apply (svc_inv_rtc init_state s Hr). split; simpl; intros; [auto|discriminate].
Qed.

(** C13: once initialised, the service never changes again, whatever
    sequence of requests follows. *)
Theorem initialized_immutable s s' :
  initialized s = true -> rtc svc_step s s' -> s' = s.
Proof.
  intros Hi Hr. induction Hr as [|x y z Hxy _ IH]; [done|].
  assert (y = x) as ->.
  { destruct Hxy as [x|x q]; [rewrite startup_state|by rewrite ask_endpoint_state, Hi].
    unfold initialize. py_unfold. by rewrite Hi. }
  by apply IH.
Qed.

(** ** [ask] on each branch *)

Definition answer_dict (txt context : string) (rs : list (Chunk * Q)) : pydict :=
  [("answer", PScalar (SStr txt));
   ("sources", PList (py_of_scalars <$> (source_of <$> rs)));
   ("context_used", PScalar (SStr context))].

(** The [i]-th source is the [i]-th chunk's metadata with its score
    added under ["similarity"]. *)
Lemma sources_lookup (rs : list (Chunk * Q)) i c sc :
  rs !! i = Some (c, sc) ->
  exists d, (py_of_scalars <$> (source_of <$> rs)) !! i = Some (PDict d) /\
    Dict.get d "similarity" = Some (PScalar (SFloat sc)) /\
    forall k, k <> "similarity" -> Dict.get d k = PScalar <$> Dict.get (metadata c) k.
Proof.
  intros Hi. rewrite !list_lookup_fmap, Hi. eexists. split; [reflexivity|].
  unfold source_of. split.
  - rewrite (Dict.get_fmap_snd PScalar), Dict.get_set_eq. reflexivity.
  - intros k Hk. rewrite (Dict.get_fmap_snd PScalar), Dict.get_set_ne by congruence. reflexivity.
Qed.

(** C11: on an initialised service with a client, [ask] retrieves ten
    chunks and sends one prompt to the completion endpoint (model
    llama-3.3-70b-versatile, temperature 0.2, at most 1024 tokens).  That
    prompt holds the context and the user's question; the context holds
    every retrieved chunk's text behind its "[Source: county, state]" tag;
    the answer comes back with the context and one source per retrieved
    chunk, in retrieval order, each the chunk's metadata with its score
    under "similarity".  A failure of the endpoint becomes an
    [{"error": str(e)}] dict. *)
Theorem ask_grounded q s key rs :
  initialized s = true -> client s = Some key -> retrieve q 10 s = (Ret rs, s) ->
  exists prompt ctx srcs,
    ask cfg W q s =
      (Ret (match w_complete W key "llama-3.3-70b-versatile" prompt (2 # 10) 1024 with
            | Ret txt => [("answer", PScalar (SStr txt)); ("sources", PList srcs);
                          ("context_used", PScalar (SStr ctx))]
            | Raise e => [("error", PScalar (SStr (exn_msg e)))]
            end), s) /\
    infix ctx prompt /\ infix ("User Question: " ++ q ++ nl) prompt /\
    (forall c sc, (c, sc) ∈ rs ->
       infix ("[Source: " ++ py_str (Dict.get_or (metadata c) "county" (SStr "Unknown")) ++ ", "
              ++ py_str (Dict.get_or (metadata c) "state" (SStr "Unknown")) ++ "] " ++ text c) ctx) /\
    length srcs = length rs /\
    (forall i c sc, rs !! i = Some (c, sc) ->
       exists d, srcs !! i = Some (PDict d) /\ Dict.get d "similarity" = Some (PScalar (SFloat sc)) /\
         forall k, k <> "similarity" -> Dict.get d k = PScalar <$> Dict.get (metadata c) k).
Proof.
  intros Hi Hc Hr.
  exists (build_prompt (context_of rs) q), (context_of rs), (py_of_scalars <$> (source_of <$> rs)).
  split.
  { unfold ask. cbv [pbind pget pret]. rewrite Hi, Hc, Hr.
    unfold ptry, lift, pret. by destruct (w_complete _ _ _ _ _ _). }
  split; [by apply infix_app_l, infix_prefix|].
  split.
  { unfold build_prompt. do 4 apply infix_app_l.
    exists "        ", (ind "" ++ ind "Answer:" ++ "        "). by rewrite <- !str_app_assoc. }
  split; [intros c sc Hin; apply infix_join, list_elem_of_fmap; by exists (c, sc)|].
  split; [by rewrite !length_fmap|].
  exact (sources_lookup rs).
Qed.

(** C9: without a Groq client, [ask] returns the error dict, [/ask]
    answers 500 with its message, and the web front-end shows the
    fallback message with no sources. *)
Theorem ask_no_client q s :
  initialized s = true -> client s = None ->
  ask cfg W q s = (Ret (error_dict no_client_msg), s) /\
  ask_endpoint cfg W q s = (Ret (HttpError 500 no_client_msg), s) /\
  generate_response (Ret (HttpError 500 no_client_msg)) =
    Ret [("response", PScalar (SStr fallback_msg)); ("sources", PList []);
         ("error", PScalar (SStr (http_error_msg 500 (HF_API_URL ++ "/ask"))))].
Proof.
  intros Hi Hc.
  assert (ask cfg W q s = (Ret (error_dict no_client_msg), s)) as Ha.
  { unfold ask. cbv [pbind pget pret]. by rewrite Hi, Hc. }
  split; [exact Ha|]. split; [|reflexivity].
  unfold ask_endpoint, handle, ptry. cbv [pbind pget pret]. rewrite Hi.
  unfold pbind. rewrite Ha. reflexivity.
Qed.

(** The states of spec section 4.7. *)
Inductive status := UNINITIALIZED | READY | DEGRADED.

Definition status_of (s : state) : status :=
  if negb (initialized s) then UNINITIALIZED
  else if model s && bool_decide (is_Some (index s)) && negb (bool_decide (chunks s = []))
       then READY else DEGRADED.

(** C10: with the model available but no index file, the first request
    initialises the service into the degraded state; the answer is
    still generated, from a prompt with an empty context, and comes back
    with no sources. *)
Theorem degraded_first_ask q key cs txt :
  w_model_ok W = true -> path_exists W (index_path cfg) = false ->
  (path_exists W (chunks_path cfg) = false /\ cs = [] \/
   path_exists W (chunks_path cfg) = true /\ load_chunks W (chunks_path cfg) = Ret cs) ->
  w_groq_key W = Some key -> key <> "" ->
  w_complete W key groq_model (build_prompt "" q) (2 # 10) 1024 = Ret txt ->
  let s' := mk_state true None cs (Some key) true in
  ask_endpoint cfg W q init_state =
    (Ret (HttpOk (PDict [("answer", PScalar (SStr txt)); ("sources", PList [])])), s') /\
  status_of s' = DEGRADED.
Proof.
  intros Hm Hix Hcs Hk Hne Hc s'. split; [|reflexivity].
  assert (initialize cfg W init_state = (Ret tt, s')) as Hinit.
  { unfold initialize, lift. py_unfold. rewrite Hm, Hix, Hk, decide_False by done.
    destruct Hcs as [[-> ->]|[-> ->]]; reflexivity. }
  assert (ask cfg W q s' = (Ret (answer_dict txt "" []), s')) as Hask.
  { unfold ask, retrieve. cbv [pbind pget pret]. simpl.
    assert (context_of [] = "") as -> by reflexivity.
    unfold ptry, lift, pret. by rewrite Hc. }
  unfold ask_endpoint, handle, ptry. cbv [pbind pget pret]. simpl.
  unfold pbind. rewrite Hinit. simpl. unfold pbind. rewrite Hask. reflexivity.
Qed.

End Lifecycle.
End RagLifecycle.

(** ** The end-to-end scenario of spec section 8, and witnesses *)

Module RagDemo.
Import Rag RagLifecycle.
#[local] Existing Instances Profile.demo_repr demo_model demo_norm.

Definition demo_chunk (name st txt : string) (i : nat) : Chunk :=
  mk_chunk txt [("county", SStr name); ("state", SStr st); ("is_high_risk", SBool false)] i.

Definition demo_chunks : list Chunk :=
  [demo_chunk "Alpha" "CA" "Alpha, CA: high obesity 40%" 0;
   demo_chunk "Beta" "TX" "Beta, TX: low obesity 10%" 1;
   demo_chunk "Gamma" "NY" "Gamma, NY: moderate obesity 25%" 2].

Definition demo_index : FlatIP.index :=
  FlatIP.mk_index 4 ((fun c => normalize_L2 (embed (text c))) <$> demo_chunks).

Definition demo_files : files :=
  <["faiss_index.bin" := AIndex demo_index]> (<["chunks.pkl" := AChunks demo_chunks]> ∅).

Definition demo_world : world :=
  mk_world demo_files (Some "gsk-demo") true
    (fun _ _ _ _ _ => Ret "Alpha, CA has the highest adult obesity rate.").

Definition demo_state : state := snd (startup default_config demo_world init_state).

Definition demo_query : string := "which county has the highest obesity rate".

Definition demo_results (k : nat) : list (Chunk * Q) :=
  match retrieve demo_query k demo_state with (Ret rs, _) => rs | _ => [] end.

(** The scenario: the top-ranked chunk is Alpha's. *)
Example e2e_alpha_first :
  (fun p : Chunk * Q => Dict.get (metadata p.1) "county") <$> head (demo_results 10)
  = Some (Some (SStr "Alpha")).
Proof. vm_compute. reflexivity. Qed.

Lemma retrieve_scores_bounded_witness :
  Forall (fun p : Chunk * Q => 0 <= p.2 <= 1) (demo_results 10).
Proof.
  apply Forall_forall. intros p Hp.
  apply (retrieve_scores_bounded demo_query 10 demo_state (demo_results 10) demo_state);
    [vm_compute; reflexivity | exact Hp].
Defined.

Lemma retrieve_sorted_witness :
  Sorted (fun a b : Chunk * Q => b.2 <= a.2) (demo_results 10).
Proof.
  apply (retrieve_sorted demo_query 10 demo_state (demo_results 10) demo_state).
  vm_compute. reflexivity.
Defined.

Lemma retrieve_unloaded_empty_witness :
  retrieve demo_query 10 init_state = (Ret [], init_state).
Proof. apply retrieve_unloaded_empty. left. reflexivity. Defined.

Lemma retrieve_count_witness :
  exists rs, retrieve demo_query 10 demo_state = (Ret rs, demo_state) /\ length rs = 3%nat.
Proof.
  apply (retrieve_count demo_query 10 demo_state demo_index);
    vm_compute; try reflexivity; discriminate.
Defined.

Lemma retrieve_top_k_witness :
  similarity (dot (normalize_L2 (embed demo_query)) (normalize_L2 (embed "Beta, TX: low obesity 10%")))
  <= similarity 2.
Proof.
  apply (retrieve_top_k demo_query 1 demo_state demo_index
           [(demo_chunk "Alpha" "CA" "Alpha, CA: high obesity 40%" 0, similarity 2)]
           ltac:(vm_compute; reflexivity) ltac:(vm_compute; reflexivity))
    with (p := (demo_chunk "Alpha" "CA" "Alpha, CA: high obesity 40%" 0, similarity 2))
         (j := 1%nat).
  - intros i c Hc. do 3 (destruct i as [|i]; [by vm_compute in Hc; injection Hc as <-|]).
    by vm_compute in Hc.
  - apply list_elem_of_singleton. reflexivity.
  - vm_compute. reflexivity.
  - vm_compute. lia.
  - intros p' ->%list_elem_of_singleton. discriminate.
Defined.

Lemma initialize_idempotent_witness :
  initialize default_config demo_world demo_state = (Ret tt, demo_state).
Proof. apply initialize_idempotent. vm_compute. reflexivity. Defined.

Lemma ask_grounded_witness :
  exists prompt ctx srcs,
    ask default_config demo_world demo_query demo_state =
      (Ret [("answer", PScalar (SStr "Alpha, CA has the highest adult obesity rate."));
            ("sources", PList srcs); ("context_used", PScalar (SStr ctx))], demo_state) /\
    infix ctx prompt /\ length srcs = 3%nat.
Proof.
  destruct (ask_grounded default_config demo_world demo_query demo_state "gsk-demo" (demo_results 10)
              ltac:(vm_compute; reflexivity) ltac:(vm_compute; reflexivity) ltac:(vm_compute; reflexivity))
    as (prompt & ctx & srcs & Ha & Hctx & _ & _ & Hlen & _).
  exists prompt, ctx, srcs. split; [rewrite Ha; reflexivity|]. split; [exact Hctx|].
  rewrite Hlen. vm_compute. reflexivity.
Defined.

Definition nokey_world : world :=
  mk_world demo_files None true (fun _ _ _ _ _ => Ret "").

Definition nokey_state : state := snd (startup default_config nokey_world init_state).

Lemma ask_no_client_witness :
  ask_endpoint default_config nokey_world demo_query nokey_state =
    (Ret (HttpError 500 no_client_msg), nokey_state).
Proof.
  apply (ask_no_client default_config nokey_world demo_query nokey_state);
    vm_compute; reflexivity.
Defined.

Definition noindex_world : world :=
  mk_world (<["chunks.pkl" := AChunks demo_chunks]> ∅) (Some "gsk-demo") true
    (fun _ _ _ _ _ => Ret "No data.").

Lemma degraded_first_ask_witness :
  ask_endpoint default_config noindex_world demo_query init_state =
    (Ret (HttpOk (PDict [("answer", PScalar (SStr "No data.")); ("sources", PList [])])),
     mk_state true None demo_chunks (Some "gsk-demo") true).
Proof.
  apply (degraded_first_ask default_config noindex_world demo_query "gsk-demo" demo_chunks "No data.");
    try reflexivity; try discriminate.
  right. split; reflexivity.
Defined.

Lemma reachable_svc_inv_witness : svc_inv demo_state.
Proof.
  apply (reachable_svc_inv default_config demo_world demo_state).
  apply rtc_once. apply step_startup.
Defined.

Lemma initialized_immutable_witness :
  snd (ask_endpoint default_config demo_world demo_query demo_state) = demo_state.
Proof.
  apply (initialized_immutable default_config demo_world demo_state); [vm_compute; reflexivity|].
  apply rtc_once. apply step_ask.
Defined.

End RagDemo.
