(* ===== verification/AccessControl.v ===== *)
(** * Roles and section access: users/models.py, users/decorators.py,
    dashboard/views.py

    A [CustomUser] carries a [role] string.  Two tables say which roles may
    open which prediction section: [CustomUser.can_access_section], which the
    templates use to show or hide the menu entries, and [ROLE_PERMISSIONS]
    of the decorators, which guards the views themselves.  The first
    grants everything to [ADMIN] before looking the section up, the second
    lists [ADMIN] in every row and defaults to [['ADMIN']] for an unknown
    section.  [section_tables_agree] proves the two give the same answer on
    every role and every section name. *)

From S2P Require Import Prelude PyData.

Module Roles.

(** [ROLE_CHOICES] (users/models.py, lines 7-13): stored value and label. *)
Definition ROLE_CHOICES : list (string * string) :=
  [("ADMIN", "Admin");
   ("ACCESS_INSECURITY_MANAGER", "Access Insecurity Manager");
   ("HEALTH_MANAGER", "Health Manager");
   ("FINANCE_MANAGER", "Finance Manager");
   ("LOCAL_ENVIRONMENT_MANAGER", "Local Environment Manager")].

(** The fields of [CustomUser] the code reads: its primary key and
    names, and [role], a [CharField] with [choices]: the database accepts
    any string, only forms check it. *)
Record user := mk_user { pk : nat; role : string; first_name : string; last_name : string }.

(** [get_role_display()]: the label of the stored value, or the value
    itself when it is not one of the choices. *)
Definition get_role_display (u : user) : string := Dict.get_or ROLE_CHOICES (role u) (role u).

(** [AbstractUser.get_full_name()] *)
Definition get_full_name (u : user) : string := strip (first_name u ++ " " ++ last_name u).

(** [__str__] (lines 37-38). *)
Definition user_str (u : user) : string := get_full_name u ++ " (" ++ get_role_display u ++ ")".

(** Lines 40-58. *)
Definition is_admin (u : user) : bool := bool_decide (role u = "ADMIN").
Definition is_access_insecurity_manager (u : user) : bool :=
  bool_decide (role u = "ACCESS_INSECURITY_MANAGER").
Definition is_health_manager (u : user) : bool := bool_decide (role u = "HEALTH_MANAGER").
Definition is_finance_manager (u : user) : bool := bool_decide (role u = "FINANCE_MANAGER").
Definition is_local_environment_manager (u : user) : bool :=
  bool_decide (role u = "LOCAL_ENVIRONMENT_MANAGER").

(** [role_permissions] of [can_access_section] (lines 67-74). *)
Definition role_permissions : list (string * list string) :=
  [("access", ["ACCESS_INSECURITY_MANAGER"]);
   ("insecurity", ["ACCESS_INSECURITY_MANAGER"]);
   ("health", ["HEALTH_MANAGER"]);
   ("finance", ["FINANCE_MANAGER"]);
   ("local", ["LOCAL_ENVIRONMENT_MANAGER"]);
   ("food_env", ["LOCAL_ENVIRONMENT_MANAGER"])].

(** [x in xs] on a list of strings. *)
Definition py_in (x : string) (xs : list string) : bool := bool_decide (x ∈ xs).

(** [can_access_section(section_name)] (lines 60-77). *)
Definition can_access_section (u : user) (section_name : string) : bool :=
  if is_admin u then true
  else py_in (role u) (Dict.get_or role_permissions section_name []).

(** The [@property] shortcuts of lines 79-107. *)
Definition can_access_access u := can_access_section u "access".
Definition can_access_insecurity u := can_access_section u "insecurity".
Definition can_access_health u := can_access_section u "health".
Definition can_access_finance u := can_access_section u "finance".
Definition can_access_local u := can_access_section u "local".
Definition can_access_food_env u := can_access_section u "food_env".

End Roles.

Module Guard.
Import Roles.

(** [ROLE_PERMISSIONS] of users/decorators.py (lines 6-13). *)
Definition ROLE_PERMISSIONS : list (string * list string) :=
  [("access", ["ADMIN"; "ACCESS_INSECURITY_MANAGER"]);
   ("insecurity", ["ADMIN"; "ACCESS_INSECURITY_MANAGER"]);
   ("health", ["ADMIN"; "HEALTH_MANAGER"]);
   ("finance", ["ADMIN"; "FINANCE_MANAGER"]);
   ("local", ["ADMIN"; "LOCAL_ENVIRONMENT_MANAGER"]);
   ("food_env", ["ADMIN"; "LOCAL_ENVIRONMENT_MANAGER"])].

(** [request.user]: the anonymous user, or a signed-in user; [NoRole] is
    a user object without a [role] attribute. *)
Inductive req_user : Type :=
| Anonymous
| NoRole
| Member (u : user).

(** What a guarded view answers: [login_required]'s redirect to the login
    page with the requested path as [next], a rendered [access_denied.html]
    with status 403 and its context, or the view's own response. *)
Inductive response (R : Type) : Type :=
| RedirectLogin (next : string)
| Denied (message : string) (shown_user : option user)
| Served (r : R).
Arguments RedirectLogin {R} next.
Arguments Denied {R} message shown_user.
Arguments Served {R} r.

(** [role_required(allowed_roles)(view_func)] (lines 16-43), with the
    [login_required] applied inside [wraps]. *)
Definition role_required {R} (allowed_roles : list string) (view_func : user -> R)
  (path : string) (ru : req_user) : response R :=
  match ru with
  | Anonymous => RedirectLogin path
  | NoRole => Denied "User role not found." None
  | Member u =>
      if py_in (role u) allowed_roles || is_admin u then Served (view_func u)
      else Denied ("Your role (" ++ get_role_display u
                   ++ ") does not have permission to access this page.") (Some u)
  end.

(** [prediction_access_required(section_name)] (lines 46-56). *)
Definition prediction_access_required {R} (section_name : string) : (user -> R) -> string -> req_user -> response R :=
  role_required (Dict.get_or ROLE_PERMISSIONS section_name ["ADMIN"]).

(** Whether the decorator lets [u] through to the section's views. *)
Definition guard_allows (section_name : string) (u : user) : bool :=
  py_in (role u) (Dict.get_or ROLE_PERMISSIONS section_name ["ADMIN"]) || is_admin u.

End Guard.

Module Dashboard.
Import Roles.

Definition powerbi (report : string) : string :=
  "https://app.powerbi.com/reportEmbed?reportId=" ++ report
  ++ "&autoAuth=true&ctid=604f1a96-cbe8-43f8-abbf-f8eaf5d85730".

(** [iframe_urls] of [dashboard_view] (dashboard/views.py, lines 9-15). *)
Definition iframe_urls : list (string * string) :=
  [("ADMIN", powerbi "4562eb1f-6168-4f87-acc0-3a57273cde06");
   ("ACCESS_INSECURITY_MANAGER", powerbi "026ea629-39c4-4730-88e6-f66374a74efb");
   ("HEALTH_MANAGER", powerbi "0b16b581-157b-4099-977e-60b660cd847a");
   ("FINANCE_MANAGER", powerbi "0ca0c787-6379-472b-8b9d-52a8b72307e3");
   ("LOCAL_ENVIRONMENT_MANAGER", powerbi "199f11f5-cd64-4c3b-810b-b4c956b82ea4")].

(** The template context of [dashboard_view] (lines 5-23), for a signed-in
    user ([@login_required] redirects the others). *)
Record dashboard_ctx := mk_dashboard_ctx { iframe_url : option string; has_permission : bool }.

Definition dashboard_view (u : user) : dashboard_ctx :=
  let url := Dict.get iframe_urls (role u) in
  mk_dashboard_ctx url (bool_decide (is_Some url)).

End Dashboard.

(** ** The access policy the two tables implement *)

Module Policy.
Import Roles.

(** The sections each role manages: a role outside [ROLE_CHOICES] manages none. *)
Definition scope (r : string) : list string :=
  if decide (r = "ACCESS_INSECURITY_MANAGER") then ["access"; "insecurity"]
  else if decide (r = "HEALTH_MANAGER") then ["health"]
  else if decide (r = "FINANCE_MANAGER") then ["finance"]
  else if decide (r = "LOCAL_ENVIRONMENT_MANAGER") then ["local"; "food_env"]
  else [].

(** An administrator opens every section, anyone else the sections of
    their role. *)
Definition policy (r s : string) : bool := bool_decide (r = "ADMIN") || bool_decide (s ∈ scope r).

Lemma py_in_cons x y ys : py_in x (y :: ys) = bool_decide (x = y) || py_in x ys.
Proof. unfold py_in. repeat case_bool_decide; rewrite ?elem_of_cons in *; naive_solver. Qed.

Lemma py_in_nil x : py_in x [] = false.
Proof. unfold py_in. apply bool_decide_eq_false_2, not_elem_of_nil. Qed.

Lemma elem_of_cons_dec (x y : string) ys :
  bool_decide (x ∈ y :: ys) = bool_decide (x = y) || bool_decide (x ∈ ys).
Proof. apply (py_in_cons x y ys). Qed.

End Policy.

(** Case analysis on which literal a string equals. *)
Ltac string_cases :=
  unfold Dict.get_or in *; cbn [Dict.get] in *;
  repeat (first [ rewrite Policy.py_in_cons | rewrite Policy.py_in_nil
                | rewrite Policy.elem_of_cons_dec
                | rewrite (bool_decide_eq_false_2 (_ ∈ [])) by apply not_elem_of_nil
                | case_decide | case_bool_decide ]; subst; simpl; try congruence).

Module AccessFacts.
Import Roles Guard Policy.

Lemma can_access_policy u s : can_access_section u s = policy (role u) s.
Proof.
  unfold can_access_section, policy, is_admin, scope, role_permissions.
  destruct u as [i r f l]; simpl. string_cases.
Qed.

Lemma guard_allows_policy u s : guard_allows s u = policy (role u) s.
Proof.
  unfold guard_allows, policy, is_admin, scope, ROLE_PERMISSIONS.
  destruct u as [i r f l]; simpl. string_cases.
Qed.

End AccessFacts.

Module AccessTheorems.
Import Roles Guard Dashboard Policy AccessFacts.

(** C14: the two permission tables agree: for every role and every
    section name, [ROLE_PERMISSIONS] lets a user through the decorator
    exactly when [CustomUser.can_access_section] says the section is open
    to them, unknown sections included. *)
Theorem section_tables_agree (u : user) (section_name : string) :
  guard_allows section_name u = can_access_section u section_name.
Proof. by rewrite guard_allows_policy, can_access_policy. Qed.

(** C15: a view decorated with [prediction_access_required(section)]
    runs exactly for a signed-in user whose role the policy admits to the
    section; an anonymous request is redirected to the login page with
    the requested path, a user without a role gets the 403 page with
    "User role not found.", and any other user gets the 403 page naming
    their role. *)
Theorem prediction_access_served_iff {R} (section_name : string) (v : user -> R) p ru :
  prediction_access_required section_name v p ru =
    match ru with
    | Anonymous => RedirectLogin p
    | NoRole => Denied "User role not found." None
    | Member u =>
        if policy (role u) section_name then Served (v u)
        else Denied ("Your role (" ++ get_role_display u
                     ++ ") does not have permission to access this page.") (Some u)
    end.
Proof.
  unfold prediction_access_required, role_required. destruct ru as [| |u]; [done|done|].
  rewrite <- guard_allows_policy. unfold guard_allows. by destruct (_ || _).
Qed.

(** C16: the dashboard shows a report exactly to the roles of
    [ROLE_CHOICES]; a role string outside them gets [has_permission =
    False] and no iframe. *)
Theorem dashboard_permission_iff (u : user) :
  has_permission (dashboard_view u) = bool_decide (role u ∈ Dict.keys ROLE_CHOICES) /\
  (has_permission (dashboard_view u) = false -> iframe_url (dashboard_view u) = None).
Proof.
  unfold dashboard_view, ROLE_CHOICES, iframe_urls, Dict.keys. simpl.
  destruct u as [i r f l]; simpl. string_cases; naive_solver.
Qed.

End AccessTheorems.
