(* ===== verification/DjangoForms.v ===== *)
(** * Django forms: field cleaning and [Form.full_clean]

    The prediction pages validate their input with [django.forms].  This
    file models the part of Django the forms of the repository use:
    [FloatField], [CharField] and [ChoiceField] with their [required],
    [min_value] and [max_value] options, the per-field hooks
    [clean_<name>], the form-level [clean] and [add_error].  A form is the
    list of its fields in declaration order; its state while cleaning is
    the ordered [cleaned_data] and [errors] dicts.

    Cleaning runs in Django's order: for each field, [field.clean(value)]
    ([to_python] and [validate] stop at their first failure, the
    validators then report every failure together), then the
    field's hook if the form has one; a [ValidationError] of either becomes
    an error of that field and removes it from [cleaned_data].  Then the
    form-level [clean] runs on the resulting state. *)

From S2P Require Import Prelude PyData.

Module Forms.

(** A cleaned value: [None], a float or a string. *)
Inductive cval : Type :=
| VNone
| VFloat (q : Q)
| VStr (s : string).

#[export] Instance cval_eq_dec : EqDecision cval.
Proof. solve_decision. Defined.

(** A limit of [min_value]/[max_value], an [int] or a [float] as the
    form's declaration or its JSON configuration gives it. *)
Inductive num : Type :=
| NInt (z : Z)
| NFloat (q : Q).

Definition num_val (n : num) : Q := match n with NInt z => inject_Z z | NFloat q => q end.

Inductive kind : Type :=
| KFloat (min_value max_value : option num)
| KChar
| KChoice (choices : list string).

(** A declared field: its name, kind, [required] flag, label and the
    HTML attributes of its widget (rendered only: the browser may check
    them, the server does not). *)
Record field := mk_field {
  f_name : string;
  f_kind : kind;
  f_required : bool;
  f_label : string;
  f_help_text : string;
  f_widget : string;
  f_widget_attrs : list (string * string)
}.

(** The submitted data, [request.POST]: absent names are [None]. *)
Definition form_data : Type := list (string * string).

Section Clean.
Context `{FloatRepr}.

Definition num_str (n : num) : string := match n with NInt z => pretty z | NFloat q => float_repr q end.

Definition msg_required : string := "This field is required.".
Definition msg_number : string := "Enter a number.".
Definition msg_min (n : num) : string :=
  "Ensure this value is greater than or equal to " ++ num_str n ++ ".".
Definition msg_max (n : num) : string :=
  "Ensure this value is less than or equal to " ++ num_str n ++ ".".
Definition msg_choice (v : string) : string :=
  "Select a valid choice. " ++ v ++ " is not one of the available choices.".
Definition msg_null : string := "Null characters are not allowed.".

(** The validators of a [FloatField], in the order Django appends them
    ([MaxValueValidator] first); every failing one contributes its message. *)
Definition bound_errors (lo hi : option num) (q : Q) : list string :=
  (match hi with Some M => if Qlt_le_dec (num_val M) q then [msg_max M] else [] | None => [] end ++
   match lo with Some m => if Qlt_le_dec q (num_val m) then [msg_min m] else [] | None => [] end)%list.

(** [FloatField.clean]: [to_python] ([None] for an empty value, [float()]
    otherwise), [validate] (required; finite), then the validators. *)
Definition clean_float (req : bool) (lo hi : option num) (raw : option string) : list string + cval :=
  match raw with
  | None | Some "" => if req then inl [msg_required] else inr VNone
  | Some s =>
      match parse_float s with
      | FPNum q => match bound_errors lo hi q with
                   | [] => inr (VFloat q)
                   | es => inl es
                   end
      | FPSpecial | FPError => inl [msg_number]
      end
  end.

(** [CharField.clean] with [strip=True]: surrounding whitespace goes, an
    empty result is [''], and a NUL character is refused. *)
Definition clean_char (req : bool) (raw : option string) : list string + cval :=
  let v := match raw with None => "" | Some s => strip s end in
  if bool_decide (v = "") then (if req then inl [msg_required] else inr (VStr ""))
  else if contains v (String "000"%char EmptyString) then inl [msg_null]
  else inr (VStr v).

(** [ChoiceField.clean]: the value must be one of the choices' values. *)
Definition clean_choice (req : bool) (choices : list string) (raw : option string) : list string + cval :=
  let v := match raw with None => "" | Some s => s end in
  if bool_decide (v = "") then (if req then inl [msg_required] else inr (VStr ""))
  else if bool_decide (v ∈ choices) then inr (VStr v) else inl [msg_choice v].

Definition clean_value (f : field) (raw : option string) : list string + cval :=
  match f_kind f with
  | KFloat lo hi => clean_float (f_required f) lo hi raw
  | KChar => clean_char (f_required f) raw
  | KChoice cs => clean_choice (f_required f) cs raw
  end.

End Clean.

(** The form while it is cleaned: [cleaned_data] and [errors]. *)
Record fstate := mk_fstate {
  cleaned_data : list (string * cval);
  errors : list (string * list string)
}.

(** [self.add_error(name, error)]: the messages are appended to the
    field's list of errors and the field leaves [cleaned_data]. *)
Definition add_errors (name : string) (msgs : list string) (st : fstate) : fstate :=
  mk_fstate (filter (fun kv => kv.1 <> name) (cleaned_data st))
            (Dict.set (errors st) name (Dict.get_or (errors st) name [] ++ msgs)%list).

Definition add_error (name msg : string) (st : fstate) : fstate := add_errors name [msg] st.

Definition set_cleaned (name : string) (v : cval) (st : fstate) : fstate :=
  mk_fstate (Dict.set (cleaned_data st) name v) (errors st).

(** [self.cleaned_data.get(name)] *)
Definition get_clean (st : fstate) (name : string) : option cval := Dict.get (cleaned_data st) name.

(** A form class: its fields, its [clean_<name>] hooks (which read the
    state and return the value or raise a [ValidationError] message) and
    its form-level [clean]. *)
Record form_class := mk_form_class {
  fc_fields : list field;
  fc_hooks : string -> option (fstate -> list string + cval);
  fc_clean : fstate -> fstate
}.

Definition no_hooks : string -> option (fstate -> list string + cval) := fun _ => None.

Section FullClean.
Context `{FloatRepr}.

(** [_clean_fields] for one field. *)
Definition clean_one (fc : form_class) (data : form_data) (st : fstate) (f : field) : fstate :=
  match clean_value f (Dict.get data (f_name f)) with
  | inl msgs => add_errors (f_name f) msgs st
  | inr v =>
      let st' := set_cleaned (f_name f) v st in
      match fc_hooks fc (f_name f) with
      | None => st'
      | Some hook => match hook st' with
                     | inl msgs => add_errors (f_name f) msgs st'
                     | inr v' => set_cleaned (f_name f) v' st'
                     end
      end
  end.

(** [form.full_clean()] on a bound form. *)
Definition full_clean (fc : form_class) (data : form_data) : fstate :=
  fc_clean fc (foldl (clean_one fc data) (mk_fstate [] []) (fc_fields fc)).

(** [form.is_valid()] *)
Definition is_valid (fc : form_class) (data : form_data) : bool :=
  bool_decide (errors (full_clean fc data) = []).

End FullClean.

(** ** What cleaning computes for one field *)

Section FullCleanFacts.
Context `{FloatRepr}.

(** A hook is local when it reads nothing of the state but its own
    field's cleaned value: [self.cleaned_data.get(name)]. *)
Definition hooks_local (fc : form_class) : Prop :=
  forall n h st st', fc_hooks fc n = Some h -> get_clean st n = get_clean st' n -> h st = h st'.

Definition field_names (fc : form_class) : list string := f_name <$> fc_fields fc.

(** The result of one field on its own: its error messages or its value. *)
Definition field_outcome (fc : form_class) (data : form_data) (f : field) : list string + cval :=
  match clean_value f (Dict.get data (f_name f)) with
  | inl es => inl es
  | inr v => match fc_hooks fc (f_name f) with
             | None => inr v
             | Some h => h (set_cleaned (f_name f) v (mk_fstate [] []))
             end
  end.

Lemma get_clean_add_errors st n m es :
  get_clean (add_errors n es st) m = if decide (m = n) then None else get_clean st m.
Proof. apply Dict.get_filter_key. Qed.

Lemma get_clean_set st n m v :
  get_clean (set_cleaned n v st) m = if decide (m = n) then Some v else get_clean st m.
Proof.
  unfold get_clean, set_cleaned. simpl. case_decide; subst.
  - apply Dict.get_set_eq.
  - by apply Dict.get_set_ne.
Qed.

Lemma get_error_add_errors st n m es :
  Dict.get (errors (add_errors n es st)) m =
    if decide (m = n) then Some (Dict.get_or (errors st) n [] ++ es)%list else Dict.get (errors st) m.
Proof.
  unfold add_errors. simpl. case_decide; subst; [apply Dict.get_set_eq|by apply Dict.get_set_ne].
Qed.

Lemma get_error_set st n m v : Dict.get (errors (set_cleaned n v st)) m = Dict.get (errors st) m.
Proof. done. Qed.

#[local] Hint Rewrite get_clean_add_errors get_clean_set get_error_add_errors get_error_set : foodscope_rw.

(** A field only writes its own entries. *)
Lemma clean_one_other fc data st f m :
  m <> f_name f ->
  get_clean (clean_one fc data st f) m = get_clean st m /\
  Dict.get (errors (clean_one fc data st f)) m = Dict.get (errors st) m.
Proof.
  intros Hm. unfold clean_one.
  destruct (clean_value _ _); [|destruct (fc_hooks fc _) as [h|]; [destruct (h _)|]];
    autorewrite with foodscope_rw; rewrite ?decide_False by done; auto.
Qed.

Lemma foldl_clean_other fc data st fs m :
  m ∉ f_name <$> fs ->
  get_clean (foldl (clean_one fc data) st fs) m = get_clean st m /\
  Dict.get (errors (foldl (clean_one fc data) st fs)) m = Dict.get (errors st) m.
Proof.
  revert st. induction fs as [|f fs IH]; intros st Hm; simpl; [done|].
  rewrite fmap_cons, elem_of_cons in Hm.
  destruct (IH (clean_one fc data st f)) as [-> ->]; [tauto|].
  apply clean_one_other. tauto.
Qed.

(** On a field that has not been cleaned yet, [clean_one] records the
    field's own outcome: its value, or its messages and no value. *)
Lemma clean_one_self fc data st f :
  hooks_local fc -> get_clean st (f_name f) = None -> Dict.get (errors st) (f_name f) = None ->
  get_clean (clean_one fc data st f) (f_name f) =
    match field_outcome fc data f with inr v => Some v | inl _ => None end /\
  Dict.get (errors (clean_one fc data st f)) (f_name f) =
    match field_outcome fc data f with inl es => Some es | inr _ => None end.
Proof.
  intros Hloc Hc He. unfold clean_one, field_outcome.
  destruct (clean_value _ _) as [es|v].
  - autorewrite with foodscope_rw. rewrite !decide_True by done. unfold Dict.get_or. by rewrite He.
  - destruct (fc_hooks fc (f_name f)) as [h|] eqn:Hh.
    + rewrite (Hloc _ h _ (set_cleaned (f_name f) v (mk_fstate [] [])) Hh)
        by (rewrite !get_clean_set; by rewrite !decide_True).
      destruct (h _); autorewrite with foodscope_rw; rewrite ?decide_True by done;
        unfold Dict.get_or; cbn [errors set_cleaned]; rewrite ?He; auto.
    + autorewrite with foodscope_rw. rewrite decide_True by done. auto.
Qed.

(** After the fields are cleaned, each field holds exactly its own
    outcome: the order of the fields and the other fields' values do not
    matter, as long as names are distinct and hooks are local. *)
Lemma clean_fields_outcome fc data f :
  NoDup (field_names fc) -> hooks_local fc -> f ∈ fc_fields fc ->
  let st := foldl (clean_one fc data) (mk_fstate [] []) (fc_fields fc) in
  get_clean st (f_name f) = match field_outcome fc data f with inr v => Some v | inl _ => None end /\
  Dict.get (errors st) (f_name f) = match field_outcome fc data f with inl es => Some es | inr _ => None end.
Proof.
  unfold field_names. intros Hnd Hloc Hf. simpl.
  assert (Hgen : forall fs st0, NoDup (f_name <$> fs) -> f ∈ fs ->
    get_clean st0 (f_name f) = None -> Dict.get (errors st0) (f_name f) = None ->
    get_clean (foldl (clean_one fc data) st0 fs) (f_name f) =
      match field_outcome fc data f with inr v => Some v | inl _ => None end /\
    Dict.get (errors (foldl (clean_one fc data) st0 fs)) (f_name f) =
      match field_outcome fc data f with inl es => Some es | inr _ => None end).
  { induction fs as [|g fs IH]; intros st0 Hnd' Hf' Hc He; [by apply elem_of_nil in Hf'|].
    rewrite fmap_cons in Hnd'. apply NoDup_cons in Hnd' as [Hg Hnd']. simpl.
    apply elem_of_cons in Hf' as [Heq|Hf'].
    - subst g. destruct (foldl_clean_other fc data (clean_one fc data st0 f) fs (f_name f) Hg) as [-> ->].
      by apply clean_one_self.
    - assert (f_name f <> f_name g) as Hne.
      { intros Heq. apply Hg. rewrite <- Heq. by apply list_elem_of_fmap_2. }
      destruct (clean_one_other fc data st0 g (f_name f) Hne) as [H1 H2].
      apply IH; [done|done|congruence|congruence]. }
  by apply Hgen.
Qed.

(** The field cleaned without error. *)
Definition cleans (o : list string + cval) : Prop := match o with inr _ => True | inl _ => False end.

Lemma errors_nil_iff (st : fstate) : errors st = [] <-> forall n, Dict.get (errors st) n = None.
Proof.
  split; [intros ->; done|]. destruct (errors st) as [|[k es] d]; [done|].
  intros Hn. specialize (Hn k). simpl in Hn. by rewrite decide_True in Hn.
Qed.

(** [is_valid()] is the absence of errors after [full_clean]. *)
Lemma is_valid_errors fc data : is_valid fc data = true <-> errors (full_clean fc data) = [].
Proof. unfold is_valid. apply bool_decide_eq_true. Qed.

(** A form whose [clean] is the inherited one is valid exactly when every
    field cleans without error on its own. *)
Lemma is_valid_plain fc data :
  NoDup (field_names fc) -> hooks_local fc -> (forall st, fc_clean fc st = st) ->
  is_valid fc data = true <-> Forall (fun f => cleans (field_outcome fc data f)) (fc_fields fc).
Proof.
  intros Hnd Hloc Hcl. unfold is_valid, full_clean. rewrite Hcl, bool_decide_eq_true, errors_nil_iff.
  rewrite Forall_forall. split.
  - intros Hn f Hf. destruct (clean_fields_outcome fc data f Hnd Hloc Hf) as [_ He].
    rewrite Hn in He. by destruct (field_outcome fc data f).
  - intros Hall n. destruct (decide (n ∈ field_names fc)) as [Hin|Hout].
    + apply list_elem_of_fmap in Hin as (f & -> & Hf).
      destruct (clean_fields_outcome fc data f Hnd Hloc Hf) as [_ ->].
      specialize (Hall f Hf). by destruct (field_outcome fc data f).
    + by destruct (foldl_clean_other fc data (mk_fstate [] []) (fc_fields fc) n Hout) as [_ ->].
Qed.

End FullCleanFacts.

End Forms.
