(* ===== verification/History.v ===== *)
(** * Prediction history tables: the [PredictionHistory] models

    Every prediction app stores its results in a table keyed to the user
    (finance/models.py, health/models.py, insecurity/models.py,
    local/models.py, access/models.py).  The views use three queries on
    it: [objects.create(...)], [objects.filter(user=...)] newest first
    (the tables are ordered by [-created_at], which [auto_now_add] makes
    the insertion order) and [objects.get(id=..., user=...)].  A table is
    modelled as the list of its rows in insertion order with the next
    primary key; a row is its id, its owner and its columns, of a type that
    depends on the table.  [create] runs the conversion of the columns
    ([FloatField.get_prep_value], the NOT NULL constraints) and raises as
    the database does when it fails. *)

From S2P Require Import Prelude PyData.

Module History.

Record row (R : Type) := mk_row { h_id : nat; h_user : nat; h_data : R }.
Arguments mk_row {R} h_id h_user h_data.
Arguments h_id {R} r.
Arguments h_user {R} r.
Arguments h_data {R} r.

Record table (R : Type) := mk_table { rows : list (row R); next_id : nat }.
Arguments mk_table {R} rows next_id.
Arguments rows {R} t.
Arguments next_id {R} t.

Definition empty {R} : table R := mk_table [] 1.

Section Queries.
Context {R : Type}.

(** [Model.objects.create(user=u, ...)]: [prep] converts the arguments
    into the columns for the database and raises [IntegrityError],
    [ValueError] or [TypeError] when it cannot. *)
Definition create {A} (prep : A -> outcome R) (u : nat) (d : A) : PyM (table R) unit :=
  fun t => match prep d with
           | Ret d' => (Ret tt, mk_table (rows t ++ [mk_row (next_id t) u d'])%list (S (next_id t)))
           | Raise e => (Raise e, t)
           end.

(** [Model.objects.filter(user=u)] in the model's order, [-created_at]. *)
Definition filter_user (u : nat) (t : table R) : list (row R) :=
  reverse (filter (fun r => h_user r = u) (rows t)).

(** [...order_by('-created_at')[:5]] *)
Definition recent (u : nat) (t : table R) : list (row R) := take 5 (filter_user u t).

(** [Model.objects.get(id=i, user=u)]: [DoesNotExist] when the row is
    missing or belongs to someone else. *)
Definition get (i u : nat) (t : table R) : outcome (row R) :=
  match filter (fun r => h_id r = i /\ h_user r = u) (rows t) with
  | r :: _ => Ret r
  | [] => Raise (Exn "DoesNotExist" "PredictionHistory matching query does not exist.")
  end.

End Queries.

(** [FloatField.get_prep_value] on the value a view passes: [None]
    violates the NOT NULL constraint, and so does [nan], which SQLite,
    Django's default database, stores as NULL; a string must spell a number.  The
    views pass numbers, [None] or [str()] of an [int], so a string spelling
    an infinity never reaches this function; it is refused here. *)
Definition prep_float (column : string) (v : scalar) : outcome Q :=
  match v with
  | SNone => Raise (Exn "IntegrityError" ("NOT NULL constraint failed: " ++ column))
  | SBool b => Ret (if b then 1 else 0)
  | SInt z => Ret (inject_Z z)
  | SFloat q => Ret q
  | SNaN => Raise (Exn "IntegrityError" ("NOT NULL constraint failed: " ++ column))
  | SStr s => match parse_float s with
              | FPNum q => Ret q
              | _ => Raise (Exn "ValueError" ("Field 'prediction_value' expected a number but got '" ++ s ++ "'."))
              end
  end.

End History.
