(* ===== verification/Http.v ===== *)
(** * HTTP clients: the [requests] calls of the Django services

    The Django apps call their inference servers with [requests.post] and
    [requests.get].  A call either fails before a response arrives (a
    [ConnectionError] or [Timeout], both [RequestException]s) or returns a
    response: a status code, a reason phrase and a body that is JSON or
    not.  [raise_for_status] raises [HTTPError] for 4xx and 5xx, and
    [response.json()] raises [requests.exceptions.JSONDecodeError]; both
    are [RequestException]s too.  The server side is a function of the
    world, an oracle from URL and payload to outcome. *)

From S2P Require Import Prelude PyData.

Module Requests.

Record response := mk_response {
  status_code : Z;
  reason : string;
  body : option pyval
}.

(** [requests.post(url, json=payload, timeout=...)] as the world answers it. *)
Definition oracle : Type := string -> pyval -> outcome response.

(** The exception classes below [requests.exceptions.RequestException]. *)
Definition request_exceptions : list string :=
  ["RequestException"; "ConnectionError"; "Timeout"; "ConnectTimeout"; "ReadTimeout";
   "HTTPError"; "TooManyRedirects"; "InvalidURL"; "JSONDecodeError"].

Definition is_request_exception (e : exn) : bool := bool_decide (exn_type e ∈ request_exceptions).

(** [response.raise_for_status()] *)
Definition raise_for_status (r : response) (url : string) : outcome unit :=
  let st := status_code r in
  if decide (400 <= st < 500)%Z then
    Raise (Exn "HTTPError" (pretty st ++ " Client Error: " ++ reason r ++ " for url: " ++ url))
  else if decide (500 <= st < 600)%Z then
    Raise (Exn "HTTPError" (pretty st ++ " Server Error: " ++ reason r ++ " for url: " ++ url))
  else Ret tt.

(** [response.json()] *)
Definition json (r : response) : outcome pyval :=
  match body r with
  | Some v => Ret v
  | None => Raise (Exn "JSONDecodeError" "Expecting value: line 1 column 1 (char 0)")
  end.

End Requests.

(** ** Python operations on JSON values *)

Module PyOps.

Definition type_name (v : pyval) : string :=
  match v with
  | PScalar SNone => "NoneType"
  | PScalar (SBool _) => "bool"
  | PScalar (SInt _) => "int"
  | PScalar (SFloat _) | PScalar SNaN => "float"
  | PScalar (SStr _) => "str"
  | PList _ => "list"
  | PDict _ => "dict"
  end.

(** [v[0]] *)
Definition getitem0 (v : pyval) : outcome pyval :=
  match v with
  | PList (x :: _) => Ret x
  | PList [] => Raise (Exn "IndexError" "list index out of range")
  | PScalar (SStr (String c _)) => Ret (PScalar (SStr (String c EmptyString)))
  | PScalar (SStr EmptyString) => Raise (Exn "IndexError" "string index out of range")
  | PDict _ => Raise (Exn "KeyError" "0")   (* JSON keys are strings: the int 0 is never one *)
  | _ => Raise (Exn "TypeError" ("'" ++ type_name v ++ "' object is not subscriptable"))
  end.

(** [len(v)] *)
Definition len (v : pyval) : outcome Z :=
  match v with
  | PList l => Ret (Z.of_nat (length l))
  | PDict d => Ret (Z.of_nat (length d))
  | PScalar (SStr s) => Ret (Z.of_nat (String.length s))
  | _ => Raise (Exn "TypeError" ("object of type '" ++ type_name v ++ "' has no len()"))
  end.

(** [d.get(k, default)] on a JSON value known to be a dict. *)
Definition get_or (d : pydict) (k : string) (dflt : pyval) : pyval := Dict.get_or d k dflt.

(** Truthiness of a JSON value: [None], [False], zero and empty
    containers are false. *)
Definition truthy (v : pyval) : bool :=
  match v with
  | PScalar SNone => false
  | PScalar (SBool b) => b
  | PScalar (SInt z) => negb (Z.eqb z 0)
  | PScalar (SFloat q) => negb (Qeq_bool q 0)
  | PScalar SNaN => true
  | PScalar (SStr s) => negb (String.eqb s "")
  | PList l => negb (bool_decide (l = []))
  | PDict d => negb (bool_decide (d = []))
  end.

End PyOps.
