(* ===== verification/Views.v ===== *)
(** * What the prediction views share

    The prediction views of the finance and health apps
    (finance/views.py, health/views.py) follow one pattern.  A GET may
    reload the inputs of an earlier prediction from the app's
    [PredictionHistory] table through [?load_id=...].  A POST binds the
    app's form, turns its [cleaned_data] into the plain dict sent to the
    inference service, and reads the service's JSON answer with Python's
    [in], [.get] and f-string formatting, which behave differently on a
    dict, a list, a string or a number.  This file holds those shared
    pieces. *)

From S2P Require Import Prelude PyData DjangoForms History Http AccessControl.

Module ViewCommon.
Import Forms Roles PyOps.

(** [{k: v for k, v in form.cleaned_data.items()}] as JSON values. *)
Definition py_of_cval (v : cval) : pyval :=
  match v with VNone => PScalar SNone | VFloat q => PScalar (SFloat q) | VStr s => PScalar (SStr s) end.

Definition raw_inputs_of (st : fstate) : pydict := (fun kv => (kv.1, py_of_cval kv.2)) <$> cleaned_data st.

(** [x or ""] *)
Definition or_empty (v : pyval) : pyval := if truthy v then v else PScalar (SStr "").

(** The request: a GET with its optional [load_id], or a POST with its data. *)
Inductive request : Type :=
| GET (load_id : option string)
| POST (data : form_data).

(** [PredictionHistory.objects.get(id=load_id, user=request.user)] and
    its [input_data]: the id is converted with [int()], and the views
    catch only [DoesNotExist].  [input_of] reads the column of the app's
    row type. *)
Definition load_initial {R} (input_of : R -> pydict) (u : user) (load_id : option string)
  : PyM (History.table R) pydict :=
  match load_id with
  | None | Some "" => pret []
  | Some lid =>
      match parse_int lid with
      | None => praise (Exn "ValueError" ("Field 'id' expected a number but got '" ++ lid ++ "'."))
      | Some z =>
          if decide (z < 0)%Z then pret [] else
          let* t := pget in
          match History.get (Z.to_nat z) (pk u) t with
          | Ret r => pret (input_of (History.h_data r))
          | Raise _ => pret []
          end
      end
  end.

(** [k in v] on a decoded JSON value: a key of a dict, an element of a
    list, a substring of a string; a number or [None] raises. *)
Definition py_in_json (k : string) (v : pyval) : outcome bool :=
  match v with
  | PDict d => Ret (Dict.has d k)
  | PList l => Ret (existsb (fun x => match x with PScalar (SStr s) => String.eqb s k | _ => false end) l)
  | PScalar (SStr s) => Ret (contains s k)
  | _ => Raise (Exn "TypeError" ("argument of type '" ++ type_name v ++ "' is not iterable"))
  end.

(** [v.get(k, default)] on a decoded JSON value: only a dict has [get]. *)
Definition py_get (v : pyval) (k : string) (dflt : pyval) : outcome pyval :=
  match v with
  | PDict d => Ret (Dict.get_or d k dflt)
  | _ => Raise (Exn "AttributeError" ("'" ++ type_name v ++ "' object has no attribute 'get'"))
  end.

Section Format.
Context `{FloatRepr}.

(** [f"{v}"] for a scalar; the [repr] of a list or a dict is not
    modelled and prints as the empty string. *)
Definition py_fstr (v : pyval) : string := match v with PScalar s => py_str s | _ => "" end.

End Format.

(** [raw_inputs] holds the cleaned values as Python values. *)
Lemma raw_inputs_get st n : Dict.get (raw_inputs_of st) n = py_of_cval <$> get_clean st n.
Proof. apply Dict.get_fmap_snd. Qed.

End ViewCommon.
