(* ===== verification/Finance.v ===== *)
(** * Finance predictions: finance/forms.py, finance/services.py,
    finance/views.py

    The finance pages post a [FinancePredictionForm] whose hidden
    [model_type] chooses between the tax-rate regressor and the state
    clustering.  Every field is optional for Django; the form's [clean]
    then requires the fields of the chosen model, and ten [clean_<name>]
    hooks check ranges.  The view sends the cleaned data to a Gradio space
    through [FinancePredictionService.predict], which extracts the number
    from the Markdown the space answers, and stores the result in the
    finance [PredictionHistory] table. *)

From S2P Require Import Prelude PyData Profile DjangoForms History Http AccessControl Views.

Module FinanceForm.
Import Forms.

(** [model_type] (lines 13-17). *)
Definition model_type : field :=
  mk_field "model_type" KChar false
    "Model type"
    ""
    "HiddenInput" [].

(** [Adult_Obesity_Rate_08] (lines 23-33). *)
Definition Adult_Obesity_Rate_08 : field :=
  mk_field "Adult_Obesity_Rate_08" (KFloat None None) false
    "Adult Obesity Rate 2008"
    ""
    "NumberInput" [("class", "form-control"); ("placeholder", "Enter rate (e.g., 25.5)"); ("step", "0.1"); ("min", "0"); ("max", "100")].

(** [Adult_Diabetes_Rate_08] (lines 35-45). *)
Definition Adult_Diabetes_Rate_08 : field :=
  mk_field "Adult_Diabetes_Rate_08" (KFloat None None) false
    "Adult Diabetes Rate 2008"
    ""
    "NumberInput" [("class", "form-control"); ("placeholder", "Enter rate (e.g., 10.2)"); ("step", "0.1"); ("min", "0"); ("max", "100")].

(** [Adult_Obesity_Rate13] (lines 47-57). *)
Definition Adult_Obesity_Rate13 : field :=
  mk_field "Adult_Obesity_Rate13" (KFloat None None) false
    "Adult Obesity Rate 2013"
    ""
    "NumberInput" [("class", "form-control"); ("placeholder", "Enter rate (e.g., 28.3)"); ("step", "0.1"); ("min", "0"); ("max", "100")].

(** [Adult_Diabetes_Rate13] (lines 59-69). *)
Definition Adult_Diabetes_Rate13 : field :=
  mk_field "Adult_Diabetes_Rate13" (KFloat None None) false
    "Adult Diabetes Rate 2013"
    ""
    "NumberInput" [("class", "form-control"); ("placeholder", "Enter rate (e.g., 11.5)"); ("step", "0.1"); ("min", "0"); ("max", "100")].

(** [SODATAX_STORES14] (lines 71-80). *)
Definition SODATAX_STORES14 : field :=
  mk_field "SODATAX_STORES14" (KFloat None None) false
    "Soda Tax Stores 2014"
    ""
    "NumberInput" [("class", "form-control"); ("placeholder", "Enter value (e.g., 150)"); ("step", "0.1"); ("min", "0")].

(** [CHIPSTAX_VENDM14] (lines 82-91). *)
Definition CHIPSTAX_VENDM14 : field :=
  mk_field "CHIPSTAX_VENDM14" (KFloat None None) false
    "Chips Tax Vending 2014"
    ""
    "NumberInput" [("class", "form-control"); ("placeholder", "Enter value (e.g., 75)"); ("step", "0.1"); ("min", "0")].

(** [PCT_LOCLFARM12] (lines 93-103). *)
Definition PCT_LOCLFARM12 : field :=
  mk_field "PCT_LOCLFARM12" (KFloat None None) false
    "Percent Local Farms 2012"
    ""
    "NumberInput" [("class", "form-control"); ("placeholder", "Enter percentage (e.g., 15.5)"); ("step", "0.1"); ("min", "0"); ("max", "100")].

(** [VLFOODSEC_10_12] (lines 105-114). *)
Definition VLFOODSEC_10_12 : field :=
  mk_field "VLFOODSEC_10_12" (KFloat None None) false
    "Very Low Food Security 2010-12"
    ""
    "NumberInput" [("class", "form-control"); ("placeholder", "Enter value (e.g., 5.2)"); ("step", "0.1"); ("min", "0")].

(** [Median_Income] (lines 120-129). *)
Definition Median_Income : field :=
  mk_field "Median_Income" (KFloat None None) false
    "Median Income"
    ""
    "NumberInput" [("class", "form-control"); ("placeholder", "Enter median income (e.g., 55000)"); ("step", "1"); ("min", "0")].

(** [FOODINSEC_13_15] (lines 131-141). *)
Definition FOODINSEC_13_15 : field :=
  mk_field "FOODINSEC_13_15" (KFloat None None) false
    "Food Insecurity 2013-15"
    ""
    "NumberInput" [("class", "form-control"); ("placeholder", "Enter value (e.g., 12.5)"); ("step", "0.1"); ("min", "0"); ("max", "100")].


Definition fields : list field :=
  [model_type; Adult_Obesity_Rate_08; Adult_Diabetes_Rate_08; Adult_Obesity_Rate13;
   Adult_Diabetes_Rate13; SODATAX_STORES14; CHIPSTAX_VENDM14; PCT_LOCLFARM12;
   VLFOODSEC_10_12; Median_Income; FOODINSEC_13_15].

(** The body shared by the [clean_<name>] hooks: [value =
    self.cleaned_data.get(name)], refused when [bad value] holds, returned
    otherwise ([None] stays [None]; a [FloatField] never holds a string). *)
Definition check_hook (name msg : string) (bad : Q -> bool) (st : fstate) : list string + cval :=
  match get_clean st name with
  | Some (VFloat q) => if bad q then inl [msg] else inr (VFloat q)
  | Some v => inr v
  | None => inr VNone
  end.

(** [value < 0 or value > 100] and [value < 0] *)
Definition out_of_0_100 (q : Q) : bool := bool_decide (q < 0) || bool_decide (100 < q).
Definition negative (q : Q) : bool := bool_decide (q < 0).

(** Lines 206-274. *)
Definition clean_Adult_Obesity_Rate_08 := check_hook "Adult_Obesity_Rate_08" "Rate must be between 0 and 100" out_of_0_100.
Definition clean_Adult_Diabetes_Rate_08 := check_hook "Adult_Diabetes_Rate_08" "Rate must be between 0 and 100" out_of_0_100.
Definition clean_Adult_Obesity_Rate13 := check_hook "Adult_Obesity_Rate13" "Rate must be between 0 and 100" out_of_0_100.
Definition clean_Adult_Diabetes_Rate13 := check_hook "Adult_Diabetes_Rate13" "Rate must be between 0 and 100" out_of_0_100.
Definition clean_PCT_LOCLFARM12 := check_hook "PCT_LOCLFARM12" "Percentage must be between 0 and 100" out_of_0_100.
Definition clean_FOODINSEC_13_15 := check_hook "FOODINSEC_13_15" "Value must be between 0 and 100" out_of_0_100.
Definition clean_Median_Income := check_hook "Median_Income" "Median income cannot be negative" negative.
Definition clean_SODATAX_STORES14 := check_hook "SODATAX_STORES14" "Value cannot be negative" negative.
Definition clean_CHIPSTAX_VENDM14 := check_hook "CHIPSTAX_VENDM14" "Value cannot be negative" negative.
Definition clean_VLFOODSEC_10_12 := check_hook "VLFOODSEC_10_12" "Value cannot be negative" negative.

(** [hasattr(self, 'clean_%s' % name)] *)
Definition hooks (n : string) : option (fstate -> list string + cval) :=
  Dict.get [("Adult_Obesity_Rate_08", clean_Adult_Obesity_Rate_08);
            ("Adult_Diabetes_Rate_08", clean_Adult_Diabetes_Rate_08);
            ("Adult_Obesity_Rate13", clean_Adult_Obesity_Rate13);
            ("Adult_Diabetes_Rate13", clean_Adult_Diabetes_Rate13);
            ("PCT_LOCLFARM12", clean_PCT_LOCLFARM12);
            ("FOODINSEC_13_15", clean_FOODINSEC_13_15);
            ("Median_Income", clean_Median_Income);
            ("SODATAX_STORES14", clean_SODATAX_STORES14);
            ("CHIPSTAX_VENDM14", clean_CHIPSTAX_VENDM14);
            ("VLFOODSEC_10_12", clean_VLFOODSEC_10_12)] n.

Definition tax_rate_fields : list string :=
  ["Adult_Obesity_Rate_08"; "Adult_Diabetes_Rate_08"; "Adult_Obesity_Rate13"; "Adult_Diabetes_Rate13";
   "SODATAX_STORES14"; "CHIPSTAX_VENDM14"; "PCT_LOCLFARM12"; "VLFOODSEC_10_12"].

Definition clustering_fields : list string := ["Median_Income"; "FOODINSEC_13_15"; "Adult_Obesity_Rate13"].

(** The loops of lines 170-174 and 190-194: [value is None or value == '']
    adds the message to the field. *)
Definition require_fields (names : list string) (msg : string) (st : fstate) : fstate :=
  foldl (fun st n => match get_clean st n with
                     | None | Some VNone | Some (VStr "") => add_error n msg st
                     | Some _ => st
                     end) st names.

(** [clean] (lines 147-204): [cleaned_data.get('model_type', 'tax_rate')]
    picks the rule set; any other value, the empty string included, adds
    no error. *)
Definition clean (st : fstate) : fstate :=
  let mt := match get_clean st "model_type" with Some v => v | None => VStr "tax_rate" end in
  if decide (mt = VStr "tax_rate") then
    require_fields tax_rate_fields "This field is required for tax rate predictions." st
  else if decide (mt = VStr "clustering") then
    require_fields clustering_fields "This field is required for clustering." st
  else st.

Definition form : form_class := mk_form_class fields hooks clean.

End FinanceForm.

(** ** [FinancePredictionService] (finance/services.py) *)

Module FinanceService.
Import Requests PyOps.

(** [re.search] with the patterns of lines 97 and 118: the phrase, a
    lazy [.*?], then a group of digits, followed on line 97 by an optional
    dot and more digits.  The match is the leftmost occurrence of the
    phrase that a digit follows on the same line ([.] does not match a
    newline); the group is the first run of digits after it, with its
    fraction when [frac] holds.  [\d] is an ASCII digit here. *)
Definition is_digit (c : ascii) : bool := bool_decide (is_Some (digit_of c)).

Fixpoint first_digit_on_line (l : list ascii) : option (list ascii) :=
  match l with
  | [] => None
  | c :: l' => if is_digit c then Some l
               else if bool_decide (c = "010"%char) then None else first_digit_on_line l'
  end.

Fixpoint digit_run (l : list ascii) : list ascii :=
  match l with
  | c :: l' => if is_digit c then c :: digit_run l' else []
  | [] => []
  end.

(** [\d+\.?\d*] on a list that starts with a digit. *)
Definition capture (frac : bool) (l : list ascii) : list ascii :=
  let d := digit_run l in
  if frac then
    match drop (length d) l with
    | "."%char :: r => (d ++ "."%char :: digit_run r)%list
    | _ => d
    end
  else d.

Definition lprefix (p l : list ascii) : bool := bool_decide (take (length p) l = p).

Fixpoint search_from (phrase : list ascii) (frac : bool) (l : list ascii) : option (list ascii) :=
  let here := if lprefix phrase l
              then capture frac <$> first_digit_on_line (drop (length phrase) l) else None in
  match here with
  | Some g => Some g
  | None => match l with [] => None | _ :: l' => search_from phrase frac l' end
  end.

Definition re_group (phrase : string) (frac : bool) (s : string) : option string :=
  String.string_of_list_ascii <$>
    search_from (String.list_ascii_of_string phrase) frac (String.list_ascii_of_string s).

Definition HF_FINANCE_SPACE_URL : string := "https://mariem08-fml-models.hf.space".

(** [_get_mock_cluster_data] (lines 167-185). *)
Definition get_mock_cluster_data : pyval :=
  PList [
    PDict [("name", PScalar (SStr "California")); ("lat", PScalar (SFloat (36.7783))); ("lng", PScalar (SFloat (-119.4179))); ("cluster", PScalar (SInt 1)); ("score", PScalar (SFloat (0.95)))];
    PDict [("name", PScalar (SStr "Texas")); ("lat", PScalar (SFloat (31.9686))); ("lng", PScalar (SFloat (-99.9018))); ("cluster", PScalar (SInt 2)); ("score", PScalar (SFloat (0.85)))];
    PDict [("name", PScalar (SStr "Florida")); ("lat", PScalar (SFloat (27.6648))); ("lng", PScalar (SFloat (-81.5158))); ("cluster", PScalar (SInt 2)); ("score", PScalar (SFloat (0.80)))];
    PDict [("name", PScalar (SStr "New York")); ("lat", PScalar (SFloat (42.1657))); ("lng", PScalar (SFloat (-74.9481))); ("cluster", PScalar (SInt 1)); ("score", PScalar (SFloat (0.90)))];
    PDict [("name", PScalar (SStr "Illinois")); ("lat", PScalar (SFloat (40.6331))); ("lng", PScalar (SFloat (-89.3985))); ("cluster", PScalar (SInt 3)); ("score", PScalar (SFloat (0.70)))];
    PDict [("name", PScalar (SStr "Arizona")); ("lat", PScalar (SFloat (34.0489))); ("lng", PScalar (SFloat (-111.0937))); ("cluster", PScalar (SInt 3)); ("score", PScalar (SFloat (0.65)))];
    PDict [("name", PScalar (SStr "Washington")); ("lat", PScalar (SFloat (47.7511))); ("lng", PScalar (SFloat (-120.7401))); ("cluster", PScalar (SInt 3)); ("score", PScalar (SFloat (0.60)))];
    PDict [("name", PScalar (SStr "Pennsylvania")); ("lat", PScalar (SFloat (41.2033))); ("lng", PScalar (SFloat (-77.1945))); ("cluster", PScalar (SInt 2)); ("score", PScalar (SFloat (0.75)))];
    PDict [("name", PScalar (SStr "Ohio")); ("lat", PScalar (SFloat (40.4173))); ("lng", PScalar (SFloat (-82.9071))); ("cluster", PScalar (SInt 2)); ("score", PScalar (SFloat (0.72)))];
    PDict [("name", PScalar (SStr "Georgia")); ("lat", PScalar (SFloat (32.1656))); ("lng", PScalar (SFloat (-82.9001))); ("cluster", PScalar (SInt 1)); ("score", PScalar (SFloat (0.88)))];
    PDict [("name", PScalar (SStr "North Carolina")); ("lat", PScalar (SFloat (35.7596))); ("lng", PScalar (SFloat (-79.0193))); ("cluster", PScalar (SInt 2)); ("score", PScalar (SFloat (0.78)))];
    PDict [("name", PScalar (SStr "Michigan")); ("lat", PScalar (SFloat (44.3148))); ("lng", PScalar (SFloat (-85.6024))); ("cluster", PScalar (SInt 3)); ("score", PScalar (SFloat (0.68)))];
    PDict [("name", PScalar (SStr "New Jersey")); ("lat", PScalar (SFloat (40.0583))); ("lng", PScalar (SFloat (-74.4057))); ("cluster", PScalar (SInt 1)); ("score", PScalar (SFloat (0.92)))];
    PDict [("name", PScalar (SStr "Virginia")); ("lat", PScalar (SFloat (37.4316))); ("lng", PScalar (SFloat (-78.6569))); ("cluster", PScalar (SInt 3)); ("score", PScalar (SFloat (0.63)))];
    PDict [("name", PScalar (SStr "Massachusetts")); ("lat", PScalar (SFloat (42.4072))); ("lng", PScalar (SFloat (-71.3824))); ("cluster", PScalar (SInt 3)); ("score", PScalar (SFloat (0.58)))]].

(** [_get_mock_priority_states] (lines 188-196). *)
Definition get_mock_priority_states : pyval :=
  PList [
    PDict [("name", PScalar (SStr "California")); ("cluster", PScalar (SInt 1)); ("score", PScalar (SStr "0.95"))];
    PDict [("name", PScalar (SStr "New York")); ("cluster", PScalar (SInt 1)); ("score", PScalar (SStr "0.90"))];
    PDict [("name", PScalar (SStr "Georgia")); ("cluster", PScalar (SInt 1)); ("score", PScalar (SStr "0.88"))];
    PDict [("name", PScalar (SStr "New Jersey")); ("cluster", PScalar (SInt 1)); ("score", PScalar (SStr "0.92"))];
    PDict [("name", PScalar (SStr "Texas")); ("cluster", PScalar (SInt 2)); ("score", PScalar (SStr "0.85"))]].

Definition tax_default : pydict := [("prediction", PScalar (SFloat 0)); ("probability", PScalar (SStr "N/A"))].

Definition cluster_result (p : pyval) (prob : string) : pydict :=
  [("prediction", p); ("probability", PScalar (SStr prob));
   ("cluster_data", get_mock_cluster_data); ("priority_states", get_mock_priority_states)].

Definition error_result (details : string) : pydict :=
  [("error", PScalar (SBool true)); ("details", PScalar (SStr details))].

(** [re.search] on a value that is not a string. *)
Definition not_a_string (v : pyval) : exn :=
  Exn "TypeError" ("expected string or bytes-like object, got '" ++ type_name v ++ "'").

(** Lines 89-107: the tax rate is the number after "Predicted Tax Rate". *)
Definition process_tax (result : pyval) : outcome pydict :=
  match result with
  | PDict d =>
      if Dict.has d "data" then
        let! rt := getitem0 (Dict.get_or d "data" (PScalar SNone)) in
        match rt with
        | PScalar (SStr txt) =>
            match re_group "Predicted Tax Rate" true txt with
            | Some g => match parse_float g with
                        | FPNum q => Ret [("prediction", PScalar (SFloat q)); ("probability", PScalar (SStr "85%"))]
                        | _ => Raise (Exn "ValueError" ("could not convert string to float: '" ++ g ++ "'"))
                        end
            | None => Ret tax_default
            end
        | v => Raise (not_a_string v)
        end
      else Ret tax_default
  | _ => Ret tax_default
  end.

(** Lines 109-132: the cluster is the number after "State Cluster". *)
Definition process_cluster (result : pyval) : outcome pydict :=
  match result with
  | PDict d =>
      if Dict.has d "data" then
        let rd := Dict.get_or d "data" (PScalar SNone) in
        let! n := len rd in
        if decide (1 <= n)%Z then
          let! rt := getitem0 rd in
          match rt with
          | PScalar (SStr txt) =>
              match re_group "State Cluster" false txt with
              | Some g => match parse_int g with
                          | Some z => Ret (cluster_result (PScalar (SInt z)) "90%")
                          | None => Raise (Exn "ValueError" ("invalid literal for int() with base 10: '" ++ g ++ "'"))
                          end
              | None => Ret (cluster_result (PScalar (SInt 1)) "N/A")
              end
          | v => Raise (not_a_string v)
          end
        else Ret (cluster_result (PScalar (SInt 1)) "N/A")
      else Ret (cluster_result (PScalar (SInt 1)) "N/A")
  | _ => Ret (cluster_result (PScalar (SInt 1)) "N/A")
  end.

(** The [except requests.exceptions.RequestException] branch (lines
    136-156): made-up results shaped like real ones. *)
Definition mock_result (model_type : string) (e : exn) : pydict :=
  if decide (model_type = "tax_rate") then
    [("prediction", PScalar (SFloat 25.5)); ("probability", PScalar (SStr "85%"))]
  else if decide (model_type = "clustering") then cluster_result (PScalar (SInt 1)) "90%"
  else error_result ("API request failed: " ++ exn_msg e).

(** [FinancePredictionService.predict(model_type, input_data)] (lines
    16-164).  It never raises: the two handlers turn every exception into
    a result. *)
Definition predict (post : oracle) (model_type : string) (input_data : pydict) : pydict :=
  let g k := Dict.get_or input_data k (PScalar (SInt 0)) in
  let target :=
    if decide (model_type = "tax_rate") then
      Some (HF_FINANCE_SPACE_URL ++ "/api/predict_tax", HF_FINANCE_SPACE_URL ++ "/predict_tax",
            [g "Adult_Obesity_Rate_08"; g "Adult_Diabetes_Rate_08"; g "Adult_Obesity_Rate13";
             g "Adult_Diabetes_Rate13"; g "SODATAX_STORES14"; g "CHIPSTAX_VENDM14";
             g "PCT_LOCLFARM12"; g "VLFOODSEC_10_12"])
    else if decide (model_type = "clustering") then
      Some (HF_FINANCE_SPACE_URL ++ "/api/predict_cluster", HF_FINANCE_SPACE_URL ++ "/predict_cluster",
            [g "Median_Income"; g "FOODINSEC_13_15"; g "Adult_Obesity_Rate13"])
    else None in
  match target with
  | None => error_result ("Unknown model type: " ++ model_type)
  | Some (url, alt_url, data) =>
      let payload := PDict [("data", PList data)] in
      let run :=
        let! r := post url payload in
        let! r_url := (if decide (status_code r = 404%Z) then (let! r' := post alt_url payload in Ret (r', alt_url))
                       else Ret (r, url)) in
        let! _ := raise_for_status r_url.1 r_url.2 in
        let! result := json r_url.1 in
        if decide (model_type = "tax_rate") then process_tax result
        else if decide (model_type = "clustering") then process_cluster result
        else Ret (error_result "Invalid response format") in
      match run with
      | Ret d => d
      | Raise e => if is_request_exception e then mock_result model_type e
                   else error_result ("Unexpected error: " ++ exn_msg e)
      end
  end.

End FinanceService.

(** ** [finance_view] and [clustering_view] (finance/views.py) *)

Module FinanceViews.
Import Forms Roles PyOps ViewCommon.

(** A row of the finance [PredictionHistory] table (finance/models.py,
    lines 10-31): model type, value, inputs and confidence string. *)
Record fin_row := mk_fin_row {
  fr_model_type : string;
  fr_prediction_value : Q;
  fr_input_data : pydict;
  fr_confidence_interval : string
}.

Abbreviation fin_table := (History.table fin_row).

(** What [objects.create] receives before the column conversions. *)
Record fin_args := mk_fin_args {
  fa_model_type : string;
  fa_prediction_value : pyval;
  fa_input_data : pydict;
  fa_confidence_interval : pyval
}.

(** The database side of [PredictionHistory.objects.create]: the value
    column is a NOT NULL [FloatField], the confidence a [CharField]. *)
Definition prep_fin `{FloatRepr} (a : fin_args) : outcome fin_row :=
  let! v := match fa_prediction_value a with
            | PScalar s => History.prep_float "finance_predictionhistory.prediction_value" s
            | v => Raise (Exn "TypeError" ("float() argument must be a string or a real number, not '"
                                           ++ type_name v ++ "'"))
            end in
  let ci := match fa_confidence_interval a with PScalar s => py_str s | _ => "" end in
  Ret (mk_fin_row (fa_model_type a) v (fa_input_data a) ci).

(** The template context of [finance/finance.html]; [form_state] is the
    bound form's cleaning result on a POST, [initial] the data a GET
    reloads from history. *)
Record fin_ctx := mk_fin_ctx {
  form_state : option fstate;
  initial : pydict;
  prediction_result : pyval;
  prediction_probability : pyval;
  selected_model : option string;
  error_message : option string;
  prediction_history : list (History.row fin_row)
}.

Definition tax_history (u : user) (t : fin_table) : list (History.row fin_row) :=
  take 5 (filter (fun r => fr_model_type (History.h_data r) = "tax_rate") (History.filter_user (pk u) t)).

Section Views.
Context `{FloatRepr}.
Variable post : Requests.oracle.

(** [FinancePredictionForm(request.POST)] *)
Definition bound (data : form_data) : fstate := full_clean FinanceForm.form data.

(** The history write of lines 72-83: a failure is printed and ignored. *)
Definition save_history (u : user) (a : fin_args) : PyM fin_table unit :=
  ptry (fun _ => true) (History.create prep_fin (pk u) a) (fun _ => pret tt).

(** [finance_view] (lines 15-126) for a user the decorator let in. *)
Definition finance_view (u : user) (req : request) : PyM fin_table fin_ctx :=
  match req with
  | POST data =>
      let st := bound data in
      let* res :=
        (if is_valid FinanceForm.form data then
           ptry (fun _ => true)
             (let raw_inputs := raw_inputs_of st in
              let model_type := match Dict.get raw_inputs "model_type" with
                                | Some (PScalar (SStr s)) => s
                                | Some _ => ""
                                | None => "tax_rate"
                                end in
              let api_response := FinanceService.predict post model_type raw_inputs in
              if Dict.has api_response "error" then
                pret (PScalar SNone, PScalar SNone,
                      Some ("Remote Inference Error: "
                            ++ match Dict.get_or api_response "details" (PScalar (SStr "Unknown error")) with
                               | PScalar s => py_str s | _ => "" end))
              else
                let pr := Dict.get_or api_response "prediction" (PScalar SNone) in
                let pp := Dict.get_or api_response "probability" (PScalar SNone) in
                save_history u (mk_fin_args model_type pr raw_inputs (or_empty pp)) ;;;
                pret (pr, pp, None))
             (fun e => pret (PScalar SNone, PScalar SNone, Some ("Application Error: " ++ exn_msg e)))
         else pret (PScalar SNone, PScalar SNone, Some "Please correct the errors in the form.")) in
      let* t := pget in
      let '(pr, pp, err) := res in
      pret (mk_fin_ctx (Some st) [] pr pp
              (if is_valid FinanceForm.form data then Some "Tax Rate" else None) err (tax_history u t))
  | GET load_id =>
      let* init := load_initial fr_input_data u load_id in
      let* t := pget in
      pret (mk_fin_ctx None init (PScalar SNone) (PScalar SNone) None None (tax_history u t))
  end.

(** The template context of [finance/clustering.html]; [cluster_data]
    is what [json.dumps(cluster_data) if cluster_data else 'null'] renders. *)
Record clu_ctx := mk_clu_ctx {
  c_form_state : option fstate;
  c_initial : pydict;
  cluster_result : pyval;
  c_prediction_probability : pyval;
  c_error_message : option string;
  cluster_data : option pyval;
  priority_states : pyval
}.

(** [clustering_view] (lines 129-238): the form is validated with the
    posted [model_type], then the call is made for [clustering]. *)
Definition clustering_view (u : user) (req : request) : PyM fin_table clu_ctx :=
  match req with
  | POST data =>
      let st := bound data in
      let* res :=
        (if is_valid FinanceForm.form data then
           ptry (fun _ => true)
             (let raw_inputs := Dict.set (raw_inputs_of st) "model_type" (PScalar (SStr "clustering")) in
              let api_response := FinanceService.predict post "clustering" raw_inputs in
              if Dict.has api_response "error" then
                pret (PScalar SNone, PScalar SNone,
                      Some ("Remote Inference Error: "
                            ++ match Dict.get_or api_response "details" (PScalar (SStr "Unknown error")) with
                               | PScalar s => py_str s | _ => "" end),
                      PScalar SNone, PScalar SNone)
              else
                let cr := Dict.get_or api_response "prediction" (PScalar SNone) in
                let pp := Dict.get_or api_response "probability" (PScalar SNone) in
                let cd := Dict.get_or api_response "cluster_data" (PList []) in
                let ps := Dict.get_or api_response "priority_states" (PList []) in
                save_history u (mk_fin_args "clustering"
                                  (match cr with PScalar s => PScalar (SStr (py_str s)) | v => v end)
                                  raw_inputs (or_empty pp)) ;;;
                pret (cr, pp, None, cd, ps))
             (fun e => pret (PScalar SNone, PScalar SNone, Some ("Application Error: " ++ exn_msg e),
                             PScalar SNone, PScalar SNone))
         else pret (PScalar SNone, PScalar SNone, Some "Please correct the errors in the form.",
                    PScalar SNone, PScalar SNone)) in
      let '(cr, pp, err, cd, ps) := res in
      pret (mk_clu_ctx (Some st) [] cr pp err (if truthy cd then Some cd else None) ps)
  | GET load_id =>
      let* init := load_initial fr_input_data u load_id in
      pret (mk_clu_ctx None init (PScalar SNone) (PScalar SNone) None None (PScalar SNone))
  end.

(** [clustering_data_api] (lines 241-250). *)
Definition clustering_data_api : pydict := [("states", PList [])].

End Views.

End FinanceViews.

(** ** What a valid finance form guarantees *)

Module FinanceFacts.
Import Forms FinanceForm.

Lemma names_nodup : NoDup (field_names form).
Proof. apply (bool_decide_unpack _). vm_compute. reflexivity. Qed.

Lemma check_hook_local n msg bad st st' :
  get_clean st n = get_clean st' n -> check_hook n msg bad st = check_hook n msg bad st'.
Proof. unfold check_hook. by intros ->. Qed.

(** Every hook of the form is [check_hook] on its own field. *)
Lemma hooks_spec n h :
  hooks n = Some h -> exists msg bad, h = check_hook n msg bad.
Proof.
  unfold hooks. cbn [Dict.get].
  repeat (case_decide; [subst; intros [= <-]; eexists _, _; reflexivity|]). done.
Qed.

Lemma form_hooks_local : hooks_local form.
Proof.
  intros n h st st' Hh Heq. destruct (hooks_spec n h Hh) as (msg & bad & ->).
  by apply check_hook_local.
Qed.

(** A [FloatField] with a [check_hook] cleans to [None] or to a float the
    hook accepts. *)
Lemma float_hook_outcome `{FloatRepr} data f msg bad v :
  f_kind f = KFloat None None -> hooks (f_name f) = Some (check_hook (f_name f) msg bad) ->
  field_outcome form data f = inr v ->
  v = VNone \/ exists q, v = VFloat q /\ bad q = false.
Proof.
  intros Hk Hh. unfold field_outcome, clean_value. rewrite Hk. simpl fc_hooks. rewrite Hh.
  unfold clean_float, check_hook.
  destruct (Dict.get data (f_name f)) as [[|c s']|];
    [destruct (f_required f) | destruct (parse_float _) as [q| |] | destruct (f_required f)];
    intros Hv; cbn [bound_errors app] in Hv; simplify_eq;
    try (rewrite get_clean_set, decide_True in Hv by done);
    simplify_eq; auto.
  destruct (bad _) eqn:Hb; simplify_eq. right. eauto.
Qed.

Lemma add_error_nonempty n msg st : errors (add_error n msg st) <> [].
Proof.
  unfold add_error, add_errors. simpl. destruct (errors st) as [|[k v] d]; simpl; [done|].
  by case_decide.
Qed.

(** A field counts as missing for [require_fields]. *)
Definition missing (o : option cval) : bool :=
  match o with None | Some VNone | Some (VStr "") => true | Some _ => false end.

Lemma require_fields_step ns msg st :
  require_fields ns msg st =
    match ns with
    | [] => st
    | n :: ns' => require_fields ns' msg (if missing (get_clean st n) then add_error n msg st else st)
    end.
Proof.
  destruct ns as [|n ns]; [done|]. unfold require_fields. simpl. f_equal.
  by destruct (get_clean st n) as [[| |[|]]|].
Qed.

Lemma require_fields_nonempty ns msg st :
  errors st <> [] -> errors (require_fields ns msg st) <> [].
Proof.
  revert st. induction ns as [|n ns IH]; intros st Hne; rewrite require_fields_step; [done|].
  apply IH. destruct (missing _); [apply add_error_nonempty|done].
Qed.

(** The required-fields loop adds an error for each missing field and
    touches nothing when none is missing. *)
Lemma require_fields_errors ns msg st :
  errors (require_fields ns msg st) = [] ->
  require_fields ns msg st = st /\ Forall (fun n => missing (get_clean st n) = false) ns.
Proof.
  revert st. induction ns as [|n ns IH]; intros st Hnil; rewrite require_fields_step in *; [done|].
  destruct (missing (get_clean st n)) eqn:Hm.
  - exfalso. exact (require_fields_nonempty ns msg _ (add_error_nonempty n msg st) Hnil).
  - destruct (IH st Hnil) as [Heq Hall]. split; [done|]. by constructor.
Qed.

Lemma out_of_0_100_false q : out_of_0_100 q = false -> 0 <= q <= 100.
Proof.
  unfold out_of_0_100. rewrite orb_false_iff, !bool_decide_eq_false.
  intros [H1 H2]. split; by apply Qnot_lt_le.
Qed.

Lemma negative_false q : negative q = false -> 0 <= q.
Proof. unfold negative. rewrite bool_decide_eq_false. apply Qnot_lt_le. Qed.

(** [model_type] has no hook: its cleaned value is its [CharField] cleaning. *)
Lemma model_type_outcome `{FloatRepr} data :
  field_outcome form data model_type = clean_char false (Dict.get data "model_type").
Proof.
  unfold field_outcome.
  change (fc_hooks form (f_name model_type)) with (@None (fstate -> list string + cval)).
  change (clean_value model_type) with (clean_char false).
  change (f_name model_type) with "model_type".
  by destruct (clean_char _ _).
Qed.

Lemma full_clean_form `{FloatRepr} data :
  full_clean form data = clean (foldl (clean_one form data) (mk_fstate [] []) (fc_fields form)).
Proof.
  assert (fc_clean form = clean) as Hc by reflexivity.
  unfold full_clean. by rewrite Hc.
Qed.

(** On a valid form whose [model_type] is [tax_rate], the form-level
    [clean] changed nothing, [model_type] is kept and no tax field is
    missing. *)
Lemma tax_clean_state `{FloatRepr} data :
  Dict.get data "model_type" = Some "tax_rate" -> is_valid form data = true ->
  full_clean form data = foldl (clean_one form data) (mk_fstate [] []) (fc_fields form) /\
  get_clean (full_clean form data) "model_type" = Some (VStr "tax_rate") /\
  Forall (fun n => missing (get_clean (full_clean form data) n) = false) tax_rate_fields.
Proof.
  intros Hmt Hvalid%is_valid_errors.
  rewrite full_clean_form in *.
  destruct (clean_fields_outcome form data model_type names_nodup form_hooks_local
              ltac:(by left)) as [Hc _].
  cbv zeta in Hc. change (f_name model_type) with "model_type" in Hc.
  revert Hc Hvalid. generalize (foldl (clean_one form data) (mk_fstate [] []) (fc_fields form)).
  intros st0 Hc Hvalid.
  assert (get_clean st0 "model_type" = Some (VStr "tax_rate")) as Hmt0.
  { rewrite Hc, model_type_outcome, Hmt. reflexivity. }
  assert (clean st0 = require_fields tax_rate_fields
            "This field is required for tax rate predictions." st0) as Hfc.
  { unfold clean. rewrite Hmt0. by rewrite decide_True. }
  rewrite Hfc in Hvalid |- *.
  destruct (require_fields_errors _ _ _ Hvalid) as [Heq Hall].
  rewrite Heq. auto.
Qed.

(** On such a form every tax field holds the value its own cleaning
    produced, and that value is present. *)
Lemma tax_valid_field `{FloatRepr} data f :
  Dict.get data "model_type" = Some "tax_rate" -> is_valid form data = true ->
  f ∈ fields -> f_name f ∈ tax_rate_fields ->
  exists v, field_outcome form data f = inr v /\ missing (Some v) = false /\
            get_clean (full_clean form data) (f_name f) = Some v.
Proof.
  intros Hmt Hvalid Hf Hn.
  destruct (tax_clean_state data Hmt Hvalid) as (Hst & _ & Hall).
  rewrite Forall_forall in Hall. specialize (Hall _ Hn).
  destruct (clean_fields_outcome form data f names_nodup form_hooks_local Hf) as [Hc _].
  rewrite Hst, Hc in *. destruct (field_outcome form data f) as [es|v]; [done|eauto].
Qed.

(** A tax field guarded by a [check_hook] holds a float the hook accepted. *)
Lemma tax_hook_value `{FloatRepr} data f msg bad :
  Dict.get data "model_type" = Some "tax_rate" -> is_valid form data = true ->
  f ∈ fields -> f_name f ∈ tax_rate_fields -> f_kind f = KFloat None None ->
  hooks (f_name f) = Some (check_hook (f_name f) msg bad) ->
  exists q, get_clean (full_clean form data) (f_name f) = Some (VFloat q) /\ bad q = false.
Proof.
  intros Hmt Hvalid Hf Hn Hk Hh.
  destruct (tax_valid_field data f Hmt Hvalid Hf Hn) as (v & Ho & Hm & Hc).
  destruct (float_hook_outcome data f msg bad v Hk Hh Ho) as [->|(q & -> & Hb)]; [done|eauto].
Qed.

(** Membership in a concrete list of fields. *)
Ltac field_in := repeat (first [apply list_elem_of_here | apply list_elem_of_further]).

End FinanceFacts.

Module FinanceTheorems.
Import Forms FinanceForm FinanceFacts.

(** C17: a valid finance submission for the tax-rate model carries all
    four rates and the local-farm percentage as floats between 0 and 100,
    and the three other tax inputs as non-negative floats: the form-level
    [clean] requires them and the [clean_<name>] hooks bound them. *)
Theorem finance_tax_inputs_in_range `{FloatRepr} data :
  Dict.get data "model_type" = Some "tax_rate" -> is_valid form data = true ->
  (forall n, n ∈ ["Adult_Obesity_Rate_08"; "Adult_Diabetes_Rate_08"; "Adult_Obesity_Rate13";
                  "Adult_Diabetes_Rate13"; "PCT_LOCLFARM12"] ->
     exists q, get_clean (full_clean form data) n = Some (VFloat q) /\ 0 <= q <= 100) /\
  (forall n, n ∈ ["SODATAX_STORES14"; "CHIPSTAX_VENDM14"; "VLFOODSEC_10_12"] ->
     exists q, get_clean (full_clean form data) n = Some (VFloat q) /\ 0 <= q).
Proof.
  intros Hmt Hvalid.
  assert (Hr : forall f msg, f ∈ fields -> f_name f ∈ tax_rate_fields -> f_kind f = KFloat None None ->
             hooks (f_name f) = Some (check_hook (f_name f) msg out_of_0_100) ->
             exists q, get_clean (full_clean form data) (f_name f) = Some (VFloat q) /\ 0 <= q <= 100).
  { intros f msg Hf Hn Hk Hh. destruct (tax_hook_value data f msg out_of_0_100 Hmt Hvalid Hf Hn Hk Hh)
      as (q & Hq & Hb%out_of_0_100_false). eauto. }
  assert (Hp : forall f msg, f ∈ fields -> f_name f ∈ tax_rate_fields -> f_kind f = KFloat None None ->
             hooks (f_name f) = Some (check_hook (f_name f) msg negative) ->
             exists q, get_clean (full_clean form data) (f_name f) = Some (VFloat q) /\ 0 <= q).
  { intros f msg Hf Hn Hk Hh. destruct (tax_hook_value data f msg negative Hmt Hvalid Hf Hn Hk Hh)
      as (q & Hq & Hb%negative_false). eauto. }
  split; intros n Hn; repeat (apply elem_of_cons in Hn as [->|Hn]); try by apply elem_of_nil in Hn.
  - apply (Hr Adult_Obesity_Rate_08 "Rate must be between 0 and 100"); [field_in|unfold tax_rate_fields; field_in|done..].
  - apply (Hr Adult_Diabetes_Rate_08 "Rate must be between 0 and 100"); [field_in|unfold tax_rate_fields; field_in|done..].
  - apply (Hr Adult_Obesity_Rate13 "Rate must be between 0 and 100"); [field_in|unfold tax_rate_fields; field_in|done..].
  - apply (Hr Adult_Diabetes_Rate13 "Rate must be between 0 and 100"); [field_in|unfold tax_rate_fields; field_in|done..].
  - apply (Hr PCT_LOCLFARM12 "Percentage must be between 0 and 100"); [field_in|unfold tax_rate_fields; field_in|done..].
  - apply (Hp SODATAX_STORES14 "Value cannot be negative"); [field_in|unfold tax_rate_fields; field_in|done..].
  - apply (Hp CHIPSTAX_VENDM14 "Value cannot be negative"); [field_in|unfold tax_rate_fields; field_in|done..].
  - apply (Hp VLFOODSEC_10_12 "Value cannot be negative"); [field_in|unfold tax_rate_fields; field_in|done..].
Qed.

End FinanceTheorems.

Module FinanceBugs.
Import Forms FinanceForm FinanceFacts FinanceService FinanceViews ViewCommon Roles.

(** With every request failing, [predict] for the tax model returns the
    made-up result of the [RequestException] handler. *)
Lemma predict_unreachable post input e :
  (forall url p, post url p = Raise e) -> Requests.is_request_exception e = true ->
  predict post "tax_rate" input =
    [("prediction", PScalar (SFloat 25.5)); ("probability", PScalar (SStr "85%"))].
Proof.
  intros Hpost He. unfold predict. rewrite decide_True by done. cbn zeta iota.
  rewrite Hpost. cbn [obind]. rewrite He. unfold mock_result. by rewrite decide_True.
Qed.

(** C18: when the Gradio space cannot be reached, a valid tax-rate
    submission is answered with the fabricated prediction 25.5 at "85%",
    with no error message, and that result is stored in the user's
    history as if the model had produced it. *)
Theorem finance_unreachable_space_reports_mock `{FloatRepr} post u data t e :
  (forall url p, post url p = Raise e) -> Requests.is_request_exception e = true ->
  Dict.get data "model_type" = Some "tax_rate" -> is_valid FinanceForm.form data = true ->
  exists ctx,
    finance_view post u (POST data) t =
      (Ret ctx, History.mk_table
                  (History.rows t ++ [History.mk_row (History.next_id t) (pk u)
                     (mk_fin_row "tax_rate" 25.5 (raw_inputs_of (bound data)) "85%")])%list
                  (S (History.next_id t))) /\
    prediction_result ctx = PScalar (SFloat 25.5) /\
    prediction_probability ctx = PScalar (SStr "85%") /\ error_message ctx = None.
Proof.
  intros Hpost He Hmt Hvalid.
  assert (Dict.get (raw_inputs_of (bound data)) "model_type" = Some (PScalar (SStr "tax_rate"))) as Hraw.
  { rewrite raw_inputs_get. destruct (tax_clean_state data Hmt Hvalid) as (_ & Hm & _).
    unfold bound. by rewrite Hm. }
  unfold finance_view. rewrite Hvalid. remember (bound data) as st eqn:Hst. clear Hst.
  cbv [pbind pget pret ptry]. rewrite Hraw.
  rewrite (predict_unreachable post _ e Hpost He). simpl.
  eexists. split; [reflexivity|]. auto.
Qed.

End FinanceBugs.

Module FinanceDemo.
Import Forms FinanceForm FinanceViews ViewCommon FinanceTheorems FinanceBugs Roles.

(** A tax-rate submission as the finance page posts it. *)
Definition demo_data : form_data :=
  [("model_type", "tax_rate"); ("Adult_Obesity_Rate_08", "25.5"); ("Adult_Diabetes_Rate_08", "9.1");
   ("Adult_Obesity_Rate13", "28.3"); ("Adult_Diabetes_Rate13", "10.2"); ("SODATAX_STORES14", "4");
   ("CHIPSTAX_VENDM14", "0"); ("PCT_LOCLFARM12", "12.5"); ("VLFOODSEC_10_12", "5.6")].

Definition demo_user : user := mk_user 7 "FINANCE_MANAGER" "Ada" "Lovelace".

Definition unreachable : Requests.oracle :=
  fun _ _ => Raise (Exn "ConnectionError" "Max retries exceeded").

Lemma finance_tax_inputs_in_range_witness :
  exists q, get_clean (@full_clean Profile.demo_repr form demo_data) "PCT_LOCLFARM12" = Some (VFloat q) /\
            0 <= q <= 100.
Proof.
  destruct (@finance_tax_inputs_in_range Profile.demo_repr demo_data eq_refl
              ltac:(vm_compute; reflexivity)) as [Hr _].
  apply Hr. by do 4 right; left.
Defined.

Lemma finance_unreachable_space_reports_mock_witness :
  exists ctx,
    @finance_view Profile.demo_repr unreachable demo_user (POST demo_data) History.empty =
      (Ret ctx, History.mk_table
                  [History.mk_row 1 7 (mk_fin_row "tax_rate" 25.5
                     (raw_inputs_of (@bound Profile.demo_repr demo_data)) "85%")] 2) /\
    prediction_result ctx = PScalar (SFloat 25.5) /\
    prediction_probability ctx = PScalar (SStr "85%") /\ error_message ctx = None.
Proof.
  apply (@finance_unreachable_space_reports_mock Profile.demo_repr unreachable demo_user demo_data
           History.empty (Exn "ConnectionError" "Max retries exceeded")).
  - intros url p. reflexivity.
  - vm_compute. reflexivity.
  - reflexivity.
  - vm_compute. reflexivity.
Defined.

End FinanceDemo.
