(* ===== verification/Health.v ===== *)
(** * Health predictions: health/forms.py, health/ml_loader.py,
    health/services.py, health/views.py, health/models.py

    The health page posts a [HealthPredictionForm]: the model to run
    (obesity or diabetes), two categorical inputs whose choices come from
    [encoder_choices.json] next to ml_loader.py, and thirteen required
    floats.  [health_view] sends the cleaned data to the FastAPI server of
    health/serving through [HealthPredictionService.predict], shows the
    answer and stores it in the health [PredictionHistory] table.  The
    clustering page posts a [ClusteringForm] of seven floats and shows
    the cluster the server returns with its description.  The form has
    no [clean] hooks, so Django's own field cleaning (DjangoForms.v) is
    the whole validation. *)

From S2P Require Import Prelude PyData Profile DjangoForms History Http AccessControl Views.

Module HealthForm.
Import Forms.

(** [MODEL_CHOICES] (forms.py, lines 17-20). *)
Definition MODEL_CHOICES : list (string * string) := [("obesity", "Obesity"); ("diabetes", "Diabetes")].

(** The content of [encoder_choices.json]: feature name to the values the
    encoder saw in training.  Other JSON shapes are not modelled. *)
Definition encoder_choices : Type := list (string * list string).

(** [load_encoder_choices()] (ml_loader.py, lines 16-27): the file's
    content when it exists and reads, [{}] when it is missing or fails to
    read or parse ([None] is a missing file). *)
Definition load_encoder_choices (file : option (outcome encoder_choices)) : encoder_choices :=
  match file with
  | Some (Ret d) => d
  | Some (Raise _) | None => []
  end.

(** [get_categorical_choices(feature_name)] (forms.py, lines 23-36): the
    choices [(value, value)], kept here as their values. *)
Definition get_categorical_choices (enc : encoder_choices) (feature_name : string) : list string :=
  Dict.get_or enc feature_name [].

(** [model_type] (lines 53-61). *)
Definition model_type : field :=
  mk_field "model_type" (KChoice (Dict.keys MODEL_CHOICES)) true
    "Prediction Type"
    "Choose Obesity or Diabetes prediction"
    "Select" [("class", "form-control"); ("aria-label", "Select prediction type")].

(** [Risk_Level] (lines 64-72). *)
Definition Risk_Level : field :=
  mk_field "Risk_Level" (KChoice []) true
    "Risk Level"
    "Select risk level"
    "Select" [("class", "form-control"); ("aria-required", "true")].

(** [VLFOODSEC_13_15] (lines 75-84). *)
Definition VLFOODSEC_13_15 : field :=
  mk_field "VLFOODSEC_13_15" (KFloat None None) true
    "Very Low Food Security (2013-2015)"
    "Very Low Food Security 2013-2015"
    "NumberInput" [("class", "form-control"); ("step", "0.01"); ("placeholder", "Enter VLFOODSEC 13-15 value"); ("aria-required", "true")].

(** [Adult_Obesity_Rate_08] (lines 86-95). *)
Definition Adult_Obesity_Rate_08 : field :=
  mk_field "Adult_Obesity_Rate_08" (KFloat None None) true
    "Adult Obesity Rate (2008)"
    "Adult obesity rate in 2008"
    "NumberInput" [("class", "form-control"); ("step", "0.01"); ("placeholder", "Enter adult obesity rate"); ("aria-required", "true")].

(** [CH_FOODINSEC_12_15] (lines 97-106). *)
Definition CH_FOODINSEC_12_15 : field :=
  mk_field "CH_FOODINSEC_12_15" (KFloat None None) true
    "Child Food Insecurity (2012-2015)"
    "Child Food Insecurity 2012-2015"
    "NumberInput" [("class", "form-control"); ("step", "0.01"); ("placeholder", "Enter CH FOODINSEC 12-15 value"); ("aria-required", "true")].

(** [Median_Income] (lines 108-118). *)
Definition Median_Income : field :=
  mk_field "Median_Income" (KFloat None None) true
    "Median Income"
    "Median income"
    "NumberInput" [("class", "form-control"); ("step", "0.01"); ("min", "0"); ("placeholder", "Enter median income"); ("aria-required", "true")].

(** [MILK_SODA_PRICE10] (lines 120-130). *)
Definition MILK_SODA_PRICE10 : field :=
  mk_field "MILK_SODA_PRICE10" (KFloat None None) true
    "Milk/Soda Price Ratio (2010)"
    "Milk to soda price ratio in 2010"
    "NumberInput" [("class", "form-control"); ("step", "0.01"); ("min", "0"); ("placeholder", "Enter milk/soda price ratio"); ("aria-required", "true")].

(** [Farmers_Markets_Count_16] (lines 132-142). *)
Definition Farmers_Markets_Count_16 : field :=
  mk_field "Farmers_Markets_Count_16" (KFloat None None) true
    "Farmers Markets Count (2016)"
    "Number of farmers markets in 2016"
    "NumberInput" [("class", "form-control"); ("step", "1"); ("min", "0"); ("placeholder", "Enter farmers markets count"); ("aria-required", "true")].

(** [GYMs_Per_1000_Count_14] (lines 144-154). *)
Definition GYMs_Per_1000_Count_14 : field :=
  mk_field "GYMs_Per_1000_Count_14" (KFloat None None) true
    "Gyms per 1,000 (2014)"
    "Number of GYMs per 1000 people in 2014"
    "NumberInput" [("class", "form-control"); ("step", "0.01"); ("min", "0"); ("placeholder", "Enter GYMs per 1000"); ("aria-required", "true")].

(** [Adult_Diabetes_Rate_08] (lines 156-165). *)
Definition Adult_Diabetes_Rate_08 : field :=
  mk_field "Adult_Diabetes_Rate_08" (KFloat None None) true
    "Adult Diabetes Rate (2008)"
    "Adult diabetes rate in 2008"
    "NumberInput" [("class", "form-control"); ("step", "0.01"); ("placeholder", "Enter adult diabetes rate"); ("aria-required", "true")].

(** [StatusName] (lines 168-176). *)
Definition StatusName : field :=
  mk_field "StatusName" (KChoice []) true
    "Status Name"
    "Select status"
    "Select" [("class", "form-control"); ("aria-required", "true")].

(** [FSRPTH14] (lines 179-188). *)
Definition FSRPTH14 : field :=
  mk_field "FSRPTH14" (KFloat None None) true
    "Full-Service Restaurants/1,000 (2014)"
    "FSRPTH14 metric"
    "NumberInput" [("class", "form-control"); ("step", "0.01"); ("placeholder", "Enter FSRPTH14 value"); ("aria-required", "true")].

(** [Poverty_Rate] (lines 190-200). *)
Definition Poverty_Rate : field :=
  mk_field "Poverty_Rate" (KFloat None None) true
    "Poverty Rate"
    "Poverty rate percentage"
    "NumberInput" [("class", "form-control"); ("step", "0.01"); ("min", "0"); ("placeholder", "Enter poverty rate"); ("aria-required", "true")].

(** [VLFOODSEC_10_12] (lines 202-211). *)
Definition VLFOODSEC_10_12 : field :=
  mk_field "VLFOODSEC_10_12" (KFloat None None) true
    "Very Low Food Security (2010-2012)"
    "Very Low Food Security 2010-2012"
    "NumberInput" [("class", "form-control"); ("step", "0.01"); ("placeholder", "Enter VLFOODSEC 10-12 value"); ("aria-required", "true")].

(** [PCT_NHBLACK10] (lines 213-223). *)
Definition PCT_NHBLACK10 : field :=
  mk_field "PCT_NHBLACK10" (KFloat None None) true
    "% Non-Hispanic Black (2010)"
    "Percentage Non-Hispanic Black in 2010"
    "NumberInput" [("class", "form-control"); ("step", "0.01"); ("min", "0"); ("placeholder", "Enter percentage"); ("aria-required", "true")].

(** [PCH_VEG_ACRESPTH_07_12] (lines 225-234). *)
Definition PCH_VEG_ACRESPTH_07_12 : field :=
  mk_field "PCH_VEG_ACRESPTH_07_12" (KFloat None None) true
    "% Change Veg Acres/1,000 (2007-2012)"
    "Percent change vegetable acres per thousand 2007-2012"
    "NumberInput" [("class", "form-control"); ("step", "0.01"); ("placeholder", "Enter value"); ("aria-required", "true")].

(** The fields of [HealthPredictionForm] in declaration order. *)
Definition declared_fields : list field :=
  [model_type; Risk_Level; VLFOODSEC_13_15; Adult_Obesity_Rate_08; CH_FOODINSEC_12_15;
   Median_Income; MILK_SODA_PRICE10; Farmers_Markets_Count_16; GYMs_Per_1000_Count_14;
   Adult_Diabetes_Rate_08; StatusName; FSRPTH14; Poverty_Rate; VLFOODSEC_10_12;
   PCT_NHBLACK10; PCH_VEG_ACRESPTH_07_12].

(** [categorical_fields] of [__init__] (line 247). *)
Definition categorical_fields : list string := ["Risk_Level"; "StatusName"].

(** [self.fields[field_name].choices = choices] *)
Definition set_choices (cs : list string) (f : field) : field :=
  mk_field (f_name f) (KChoice cs) (f_required f) (f_label f) (f_help_text f) (f_widget f) (f_widget_attrs f).

(** [__init__] (lines 236-256): each categorical field present gets the
    encoder's values as choices.  The [initial] it also sets only selects
    the first option of an unbound form's dropdown and is not modelled. *)
Definition init_fields (enc : encoder_choices) (fs : list field) : list field :=
  foldl (fun fs n =>
           if bool_decide (n ∈ f_name <$> fs) then
             (fun f => if bool_decide (f_name f = n) then set_choices (get_categorical_choices enc n) f else f) <$> fs
           else fs) fs categorical_fields.

(** [HealthPredictionForm()] with [ENCODER_CHOICES = enc]: no
    [clean_<name>] hook and the inherited [clean]. *)
Definition form (enc : encoder_choices) : form_class :=
  mk_form_class (init_fields enc declared_fields) no_hooks (fun st => st).

End HealthForm.

(** [ClusteringForm] (forms.py, lines 259-297). *)
Module ClusteringForm.
Import Forms.

(** [Adult_Diabetes_Rate_08] (lines 263-267). *)
Definition Adult_Diabetes_Rate_08 : field :=
  mk_field "Adult_Diabetes_Rate_08" (KFloat None None) true
    "Adult Diabetes Rate (2008)"
    ""
    "NumberInput" [("class", "form-control"); ("step", "0.01"); ("placeholder", "Rate")].

(** [Adult_Diabetes_Rate13] (lines 268-272). *)
Definition Adult_Diabetes_Rate13 : field :=
  mk_field "Adult_Diabetes_Rate13" (KFloat None None) true
    "Adult Diabetes Rate (2013)"
    ""
    "NumberInput" [("class", "form-control"); ("step", "0.01"); ("placeholder", "Rate")].

(** [Adult_Obesity_Rate_08] (lines 273-277). *)
Definition Adult_Obesity_Rate_08 : field :=
  mk_field "Adult_Obesity_Rate_08" (KFloat None None) true
    "Adult Obesity Rate (2008)"
    ""
    "NumberInput" [("class", "form-control"); ("step", "0.01"); ("placeholder", "Rate")].

(** [Adult_Obesity_Rate13] (lines 278-282). *)
Definition Adult_Obesity_Rate13 : field :=
  mk_field "Adult_Obesity_Rate13" (KFloat None None) true
    "Adult Obesity Rate (2013)"
    ""
    "NumberInput" [("class", "form-control"); ("step", "0.01"); ("placeholder", "Rate")].

(** [GYMs_Per_1000_Count_14] (lines 283-287). *)
Definition GYMs_Per_1000_Count_14 : field :=
  mk_field "GYMs_Per_1000_Count_14" (KFloat None None) true
    "Gyms per 1,000 (2014)"
    ""
    "NumberInput" [("class", "form-control"); ("step", "0.001"); ("placeholder", "Count")].

(** [Farmers_Markets_Count_16] (lines 288-292). *)
Definition Farmers_Markets_Count_16 : field :=
  mk_field "Farmers_Markets_Count_16" (KFloat None None) true
    "Farmers Markets Count (2016)"
    ""
    "NumberInput" [("class", "form-control"); ("step", "1"); ("placeholder", "Count")].

(** [GROCPTH09] (lines 293-297). *)
Definition GROCPTH09 : field :=
  mk_field "GROCPTH09" (KFloat None None) true
    "Grocery Stores Per 1000 (2009)"
    ""
    "NumberInput" [("class", "form-control"); ("step", "0.001"); ("placeholder", "Count")].

Definition fields : list field :=
  [Adult_Diabetes_Rate_08; Adult_Diabetes_Rate13; Adult_Obesity_Rate_08; Adult_Obesity_Rate13;
   GYMs_Per_1000_Count_14; Farmers_Markets_Count_16; GROCPTH09].

Definition form : form_class := mk_form_class fields no_hooks (fun st => st).

End ClusteringForm.

(** ** [HealthPredictionService] (health/services.py) *)

Module HealthService.
Import Requests PyOps ViewCommon.

(** [getattr(settings, 'HF_API_URL', 'http://localhost:8000')] (line 17). *)
Definition HF_API_URL (setting : option string) : string :=
  match setting with Some url => url | None => "http://localhost:8000" end.

(** The try block shared by [predict] and [predict_cluster]: post,
    [raise_for_status()], [response.json()]. *)
Definition call (post : oracle) (endpoint : string) (payload : pyval) : outcome pyval :=
  let! r := post endpoint payload in
  let! _ := raise_for_status r endpoint in
  json r.

(** [predict] (lines 19-52): a [RequestException] becomes
    [{"details": str(e)}], a dict without an ["error"] key; any other
    exception propagates. *)
Definition predict (post : oracle) (base model_type : string) (features : pydict) : outcome pyval :=
  let endpoint := base ++ "/predict" in
  let payload := PDict [("model_type", PScalar (SStr model_type)); ("features", PDict features)] in
  match call post endpoint payload with
  | Ret v => Ret v
  | Raise e => if is_request_exception e then Ret (PDict [("details", PScalar (SStr (exn_msg e)))])
               else Raise e
  end.

(** [predict_cluster] (lines 54-83). *)
Definition predict_cluster (post : oracle) (base : string) (features : pydict) : outcome pyval :=
  let endpoint := base ++ "/predict-cluster" in
  let payload := PDict [("model_type", PScalar (SStr "kmeans")); ("features", PDict features)] in
  match call post endpoint payload with
  | Ret v => Ret v
  | Raise e => if is_request_exception e
               then Ret (PDict [("error", PScalar (SStr "Clustering Service Unavailable"));
                                ("details", PScalar (SStr (exn_msg e)))])
               else Raise e
  end.

(** [load_clustering_data()] (lines 87-115) with [requests.get] as
    [get]: the ["counties"] of a 200 answer, [[]] otherwise; the [except
    Exception] turns every failure into [[]]. *)
Definition load_clustering_data (get : string -> outcome response) (setting : option string) : pyval :=
  match setting with
  | Some url =>
      if bool_decide (url = "") then PList [] else
      let endpoint := url ++ "/clustering-data" in
      let run :=
        let! r := get endpoint in
        if decide (status_code r = 200%Z) then
          let! data := json r in
          let! has := py_in_json "counties" data in
          if has then
            match data with
            | PDict d => Ret (Some (Dict.get_or d "counties" (PScalar SNone)))
            | _ => Raise (Exn "TypeError" (type_name data ++ " indices must be integers or slices, not str"))
            end
          else Ret None
        else Ret None in
      match run with
      | Ret (Some v) => v
      | _ => PList []
      end
  | None => PList []
  end.

End HealthService.

(** ** [health_view], [clustering_view], [clustering_data_api]
    (health/views.py) and the health [PredictionHistory] (models.py) *)

Module HealthViews.
Import Forms Roles PyOps ViewCommon.

(** A row of the health [PredictionHistory] table (models.py, lines 4-16). *)
Record health_row := mk_health_row {
  hr_model_type : string;
  hr_prediction_value : Q;
  hr_risk_level_input : string;
  hr_input_data : pydict;
  hr_confidence_interval : string
}.

Abbreviation health_table := (History.table health_row).

(** What [objects.create] receives (views.py, lines 56-63). *)
Record health_args := mk_health_args {
  ha_model_type : string;
  ha_prediction_value : pyval;
  ha_risk_level_input : string;
  ha_input_data : pydict;
  ha_confidence_interval : pyval
}.

(** The database side of [objects.create]: [prediction_value] is a NOT
    NULL [FloatField]; the [CharField]s store [str()] of their value
    (SQLite does not enforce [max_length]). *)
Definition prep_health `{FloatRepr} (a : health_args) : outcome health_row :=
  let! v := match ha_prediction_value a with
            | PScalar s => History.prep_float "health_predictionhistory.prediction_value" s
            | v => Raise (Exn "TypeError" ("float() argument must be a string or a real number, not '"
                                           ++ type_name v ++ "'"))
            end in
  Ret (mk_health_row (ha_model_type a) v (ha_risk_level_input a) (ha_input_data a)
                     (py_fstr (ha_confidence_interval a))).

(** The template context of [health/health.html]. *)
Record health_ctx := mk_health_ctx {
  form_state : option fstate;
  initial : pydict;
  prediction_result : pyval;
  prediction_probability : pyval;
  selected_model : option string;
  error_message : option string;
  prediction_history : list (History.row health_row)
}.

(** [CLUSTER_DESCRIPTIONS] (lines 111-116). *)
Definition CLUSTER_DESCRIPTIONS : list (Z * string) :=
  [(0%Z, "Healthiest Profile"); (1%Z, "Highest Risk (Priority Intervention)");
   (2%Z, "Moderate Profile"); (3%Z, "Mixed Profile")].

(** Python's [==] between a decoded JSON value and an [int] key: [1.0]
    and [True] equal [1], a string never does. *)
Definition py_num_eq (v : pyval) (k : Z) : bool :=
  match v with
  | PScalar (SInt z) => Z.eqb z k
  | PScalar (SFloat q) => Qeq_bool q (inject_Z k)
  | PScalar (SBool b) => Z.eqb (if b then 1 else 0) k
  | _ => false
  end.

(** [CLUSTER_DESCRIPTIONS.get(cluster_result, "Unknown Cluster")] *)
Definition cluster_desc_of (v : pyval) : string :=
  match find (fun kd => py_num_eq v kd.1) CLUSTER_DESCRIPTIONS with
  | Some (_, d) => d
  | None => "Unknown Cluster"
  end.

(** The template context of [health/clustering.html]. *)
Record clu_ctx := mk_clu_ctx {
  c_form_state : option fstate;
  cluster_result : pyval;
  cluster_desc : option string;
  c_error_message : option string
}.

Section Views.
Context `{FloatRepr}.
(** [ENCODER_CHOICES], the [requests.post] of the services, the
    [HF_API_URL] they call and the [requests.get] of
    [load_clustering_data] with its setting. *)
Variable enc : HealthForm.encoder_choices.
Variable post : Requests.oracle.
Variable base : string.

(** [HealthPredictionForm(request.POST)] *)
Definition bound (data : form_data) : fstate := full_clean (HealthForm.form enc) data.

(** The history write of lines 54-65: a failure is printed and ignored. *)
Definition save_history (u : user) (a : health_args) : PyM health_table unit :=
  ptry (fun _ => true) (History.create prep_health (pk u) a) (fun _ => pret tt).

(** The try block of lines 35-68 on valid data: the prediction, its
    probability and the error message. *)
Definition predict_and_save (u : user) (model_type : string) (raw_inputs : pydict)
  : PyM health_table (pyval * pyval * option string) :=
  ptry (fun _ => true)
    (let* api := lift (HealthService.predict post base model_type raw_inputs) in
     let* has_err := lift (py_in_json "error" api) in
     if has_err then
       let* d := lift (py_get api "details" (PScalar (SStr "Unknown error"))) in
       pret (PScalar SNone, PScalar SNone, Some ("Remote Inference Error: " ++ py_fstr d))
     else
       let* pr := lift (py_get api "prediction" (PScalar SNone)) in
       let* pp := lift (py_get api "probability" (PScalar SNone)) in
       save_history u (mk_health_args model_type pr
                         (py_fstr (Dict.get_or raw_inputs "Risk_Level" (PScalar (SStr "N/A"))))
                         raw_inputs (or_empty pp)) ;;;
       pret (pr, pp, None))
    (fun e => pret (PScalar SNone, PScalar SNone, Some ("Application Error: " ++ exn_msg e))).

(** [health_view] (lines 15-97) for a user the decorator let in; an
    invalid form sets no error message. *)
Definition health_view (u : user) (req : request) : PyM health_table health_ctx :=
  match req with
  | POST data =>
      let st := bound data in
      let raw_inputs := raw_inputs_of st in
      let model_type := match Dict.get raw_inputs "model_type" with
                        | Some (PScalar (SStr s)) => s
                        | Some _ => ""
                        | None => "obesity"
                        end in
      let valid := is_valid (HealthForm.form enc) data in
      let* res := (if valid then predict_and_save u model_type raw_inputs
                   else pret (PScalar SNone, PScalar SNone, None)) in
      let* t := pget in
      let '(pr, pp, err) := res in
      pret (mk_health_ctx (Some st) [] pr pp
              (if valid then Some (if bool_decide (model_type = "obesity") then "Obesity" else "Diabetes")
               else None)
              err (History.recent (pk u) t))
  | GET load_id =>
      let* init := load_initial hr_input_data u load_id in
      let* t := pget in
      pret (mk_health_ctx None init (PScalar SNone) (PScalar SNone) None None (History.recent (pk u) t))
  end.

(** [clustering_view] (lines 100-145): no state is read or written. *)
Definition clustering_view (req : request) : clu_ctx :=
  match req with
  | POST data =>
      let st := full_clean ClusteringForm.form data in
      if is_valid ClusteringForm.form data then
        let run :=
          let! api := HealthService.predict_cluster post base (raw_inputs_of st) in
          let! has_err := py_in_json "error" api in
          if has_err then
            let! d := py_get api "details" (PScalar SNone) in
            Ret (PScalar SNone, None, Some ("Clustering Error: " ++ py_fstr d))
          else
            let! cr := py_get api "cluster" (PScalar SNone) in
            Ret (cr, Some (cluster_desc_of cr), None) in
        match run with
        | Ret (cr, cd, err) => mk_clu_ctx (Some st) cr cd err
        | Raise e => mk_clu_ctx (Some st) (PScalar SNone) None (Some ("Application Error: " ++ exn_msg e))
        end
      else mk_clu_ctx (Some st) (PScalar SNone) None None
  | GET _ => mk_clu_ctx None (PScalar SNone) None None
  end.

(** [clustering_data_api] (lines 148-155). *)
Definition clustering_data_api (get : string -> outcome Requests.response) (setting : option string) : pydict :=
  [("counties", HealthService.load_clustering_data get setting)].

End Views.

End HealthViews.

(** ** What the health form and view guarantee *)

Module HealthFacts.
Import Forms HealthForm.

Lemma form_fields enc :
  fc_fields (form enc) =
    [model_type; set_choices (get_categorical_choices enc "Risk_Level") Risk_Level;
     VLFOODSEC_13_15; Adult_Obesity_Rate_08; CH_FOODINSEC_12_15; Median_Income; MILK_SODA_PRICE10;
     Farmers_Markets_Count_16; GYMs_Per_1000_Count_14; Adult_Diabetes_Rate_08;
     set_choices (get_categorical_choices enc "StatusName") StatusName;
     FSRPTH14; Poverty_Rate; VLFOODSEC_10_12; PCT_NHBLACK10; PCH_VEG_ACRESPTH_07_12].
Proof. reflexivity. Qed.

Lemma health_names_nodup enc : NoDup (field_names (form enc)).
Proof. unfold field_names. rewrite form_fields. apply (bool_decide_unpack _). vm_compute. reflexivity. Qed.

Lemma no_hooks_local enc : hooks_local (form enc).
Proof. by intros n h st st' Hh. Qed.

(** [is_valid] of the health form is the cleaning of each field on its own. *)
Lemma health_valid_iff `{FloatRepr} enc data :
  is_valid (form enc) data = true <->
  Forall (fun f => cleans (field_outcome (form enc) data f)) (fc_fields (form enc)).
Proof. apply is_valid_plain; [apply health_names_nodup|apply no_hooks_local|done]. Qed.

End HealthFacts.

Module HealthBugs.
Import Forms HealthForm HealthViews ViewCommon Roles.

(** C19: when the inference server cannot be reached, a valid health
    submission shows no prediction and no error message: the service's
    failure dict has no ["error"] key, the view reads it as a success
    with prediction [None], and the history write that follows fails on
    the NOT NULL column and is silently dropped, so the table is
    unchanged. *)
Theorem health_unreachable_no_error `{FloatRepr} (enc : encoder_choices) post base u data t e :
  (forall url p, post url p = Raise e) -> Requests.is_request_exception e = true ->
  is_valid (form enc) data = true ->
  exists ctx,
    health_view enc post base u (POST data) t = (Ret ctx, t) /\
    prediction_result ctx = PScalar SNone /\ prediction_probability ctx = PScalar SNone /\
    error_message ctx = None /\ selected_model ctx <> None.
Proof.
  intros Hpost He Hvalid. unfold health_view. cbv zeta. rewrite Hvalid.
  remember (bound enc data) as st eqn:Hst. clear Hst.
  assert (Hp : forall m f,
             HealthService.predict post base m f = Ret (PDict [("details", PScalar (SStr (exn_msg e)))])).
  { intros m f. unfold HealthService.predict, HealthService.call. by rewrite Hpost; cbn; rewrite He. }
  unfold predict_and_save. cbv [ptry pbind pget lift pret]. rewrite Hp.
  eexists. split; [reflexivity|]. cbn. repeat split. done.
Qed.

(** C20: when [encoder_choices.json] gives no values for [Risk_Level]
    (the file is missing, unreadable, or lacks the key), the health form
    accepts no submission at all: [Risk_Level] is required and has no
    valid choice. *)
Theorem health_form_rejects_without_choices `{FloatRepr} (enc : encoder_choices) data :
  get_categorical_choices enc "Risk_Level" = [] -> is_valid (form enc) data = false.
Proof.
  intros Hrl. destruct (is_valid (form enc) data) eqn:Hv; [|done].
  apply HealthFacts.health_valid_iff in Hv. rewrite Forall_forall in Hv.
  specialize (Hv (set_choices (get_categorical_choices enc "Risk_Level") Risk_Level)).
  rewrite HealthFacts.form_fields in Hv. specialize (Hv ltac:(by right; left)).
  revert Hv. rewrite Hrl. unfold cleans, field_outcome, clean_value, clean_choice. cbn.
  destruct (Dict.get data "Risk_Level") as [s|]; cbn; repeat case_bool_decide; try done.
  by apply not_elem_of_nil in H1.
Qed.

End HealthBugs.

Module HealthDemo.
Import Forms HealthForm HealthViews ViewCommon HealthBugs Roles.

(** Encoder values of the kind the training script extracts. *)
Definition demo_enc : encoder_choices :=
  [("Risk_Level", ["High"; "Low"; "Medium"]); ("StatusName", ["Metro"; "Nonmetro"])].

(** A complete obesity submission. *)
Definition demo_data : form_data :=
  [("model_type", "obesity"); ("Risk_Level", "High"); ("VLFOODSEC_13_15", "5.9");
   ("Adult_Obesity_Rate_08", "31.2"); ("CH_FOODINSEC_12_15", "21.4"); ("Median_Income", "41250");
   ("MILK_SODA_PRICE10", "0.95"); ("Farmers_Markets_Count_16", "3"); ("GYMs_Per_1000_Count_14", "0.05");
   ("Adult_Diabetes_Rate_08", "11.3"); ("StatusName", "Nonmetro"); ("FSRPTH14", "0.6");
   ("Poverty_Rate", "22.5"); ("VLFOODSEC_10_12", "5.4"); ("PCT_NHBLACK10", "12.1");
   ("PCH_VEG_ACRESPTH_07_12", "-3.2")].

Definition demo_user : user := mk_user 9 "HEALTH_MANAGER" "Grace" "Hopper".

Definition unreachable : Requests.oracle :=
  fun _ _ => Raise (Exn "ConnectionError" "Max retries exceeded").

Lemma health_unreachable_no_error_witness :
  exists ctx,
    @health_view Profile.demo_repr demo_enc unreachable "http://localhost:8000" demo_user (POST demo_data)
      History.empty = (Ret ctx, History.empty) /\
    prediction_result ctx = PScalar SNone /\ prediction_probability ctx = PScalar SNone /\
    error_message ctx = None /\ selected_model ctx <> None.
Proof.
  apply (@health_unreachable_no_error Profile.demo_repr demo_enc unreachable "http://localhost:8000"
           demo_user demo_data History.empty (Exn "ConnectionError" "Max retries exceeded")).
  - intros url p. reflexivity.
  - vm_compute. reflexivity.
  - vm_compute. reflexivity.
Defined.

(** Without [encoder_choices.json] the same complete submission is refused. *)
Lemma health_form_rejects_without_choices_witness :
  @is_valid Profile.demo_repr (form (load_encoder_choices None)) demo_data = false.
Proof.
  apply (@health_form_rejects_without_choices Profile.demo_repr (load_encoder_choices None) demo_data).
  reflexivity.
Defined.

End HealthDemo.
